(** * Salesforce MCP server: query construction, transport classification,
      date windows and report aggregation.

    A shallow embedding of [src/client.py], [src/tools/opportunities.py],
    [src/tools/accounts.py] and [src/tools/business_analysis_tools.py].

    Python values that come out of [response.json()] are a tagged union
    ([pyval]); a Python exception is a record of its class name and message;
    code that may raise lives in the [Result] monad.  The wall clock, the
    HTTP endpoint, pydantic's model validation and the float/str conversions
    of the Python runtime are parameters of the development. *)

From Stdlib Require Import ZArith List String Ascii Bool Lia QArith.
From Stdlib Require Import DecimalString Sorted Permutation.
Import ListNotations.

Open Scope string_scope.
Open Scope Z_scope.

(** ** Exceptions and the [Result] monad *)

Record exn : Type := mkExn { exn_type : string; exn_msg : string }.

Inductive Result (A : Type) : Type :=
| Ok : A -> Result A
| Raise : exn -> Result A.

Arguments Ok {A} _.
Arguments Raise {A} _.

Definition bind {A B : Type} (m : Result A) (k : A -> Result B) : Result B :=
  match m with
  | Ok a => k a
  | Raise e => Raise e
  end.

Notation "x <- m ;; k" := (bind m (fun x => k))
  (at level 61, m at next level, right associativity).
Notation "' pat <- m ;; k" := (bind m (fun x => match x with pat => k end))
  (at level 61, pat pattern, m at next level, right associativity).

Definition raises {A : Type} (m : Result A) : Prop :=
  exists e, m = Raise e.

Definition returns {A : Type} (m : Result A) : Prop :=
  exists a, m = Ok a.

(** [str(n)] for a Python int. *)
Definition str_of_Z (z : Z) : string := NilZero.string_of_int (Z.to_int z).

(** ** The calendar of [datetime]

    [get_date_range] only touches the date part of [datetime.now()]: the
    time of day is carried unchanged through [replace] and [+ timedelta]
    and dropped by [strftime("%Y-%m-%d")].  The arithmetic follows CPython's
    [_pydatetime]: proleptic Gregorian ordinals, [0001-01-01] being day 1. *)

Module Datetime.

Record date : Type := mkDate { year : Z; month : Z; day : Z }.

Definition MINYEAR : Z := 1.
Definition MAXYEAR : Z := 9999.
Definition MAXORDINAL : Z := 3652059.

Definition is_leap (y : Z) : bool :=
  (y mod 4 =? 0) && (negb (y mod 100 =? 0) || (y mod 400 =? 0)).

Definition days_before_year (y : Z) : Z :=
  let y1 := y - 1 in y1 * 365 + y1 / 4 - y1 / 100 + y1 / 400.

(** [_DAYS_IN_MONTH] and [_DAYS_BEFORE_MONTH], index 0 being the [-1] pad. *)
Definition DAYS_IN_MONTH (m : Z) : Z :=
  nth (Z.to_nat m) [-1; 31; 28; 31; 30; 31; 30; 31; 31; 30; 31; 30; 31] (-1).

Definition DAYS_BEFORE_MONTH (m : Z) : Z :=
  nth (Z.to_nat m) [-1; 0; 31; 59; 90; 120; 151; 181; 212; 243; 273; 304; 334] (-1).

Definition days_in_month (y m : Z) : Z :=
  if (m =? 2) && is_leap y then 29 else DAYS_IN_MONTH m.

Definition days_before_month (y m : Z) : Z :=
  DAYS_BEFORE_MONTH m + (if (2 <? m) && is_leap y then 1 else 0).

Definition toordinal (d : date) : Z :=
  days_before_year (year d) + days_before_month (year d) (month d) + day d.

Definition DI400Y : Z := 146097.
Definition DI100Y : Z := 36524.
Definition DI4Y : Z := 1461.

(** The tail of [_ord2ymd]: month and day from the 0-based day of the year. *)
Definition month_day_of_yday (leapyear : bool) (n : Z) : Z * Z :=
  let month := Z.shiftr (n + 50) 5 in
  let preceding :=
    DAYS_BEFORE_MONTH month + (if (2 <? month) && leapyear then 1 else 0) in
  if n <? preceding then
    let month' := month - 1 in
    let preceding' :=
      preceding
      - (DAYS_IN_MONTH month' + (if (month' =? 2) && leapyear then 1 else 0)) in
    (month', n - preceding' + 1)
  else (month, n - preceding + 1).

(** [_ord2ymd], called by [date.fromordinal]. *)
Definition fromordinal (n : Z) : date :=
  let n := n - 1 in
  let n400 := n / DI400Y in
  let n := n mod DI400Y in
  let n100 := n / DI100Y in
  let n := n mod DI100Y in
  let n4 := n / DI4Y in
  let n := n mod DI4Y in
  let n1 := n / 365 in
  let n := n mod 365 in
  let y := n400 * 400 + 1 + n100 * 100 + n4 * 4 + n1 in
  if (n1 =? 4) || (n100 =? 4) then mkDate (y - 1) 12 31
  else
    let leapyear := (n1 =? 3) && (negb (n4 =? 24) || (n100 =? 3)) in
    let '(m, d) := month_day_of_yday leapyear n in
    mkDate y m d.

(** A date the constructor accepts. *)
Definition valid_date (d : date) : Prop :=
  MINYEAR <= year d <= MAXYEAR /\ 1 <= month d <= 12 /\
  1 <= day d <= days_in_month (year d) (month d).

Definition valid_dateb (d : date) : bool :=
  (MINYEAR <=? year d) && (year d <=? MAXYEAR) &&
  (1 <=? month d) && (month d <=? 12) &&
  (1 <=? day d) && (day d <=? days_in_month (year d) (month d)).

(** The constructor's field checks, run by every [replace]. *)
Definition make_date (y m d : Z) : Result date :=
  if negb ((MINYEAR <=? y) && (y <=? MAXYEAR)) then
    Raise (mkExn "ValueError" ("year " ++ str_of_Z y ++ " is out of range"))
  else if negb ((1 <=? m) && (m <=? 12)) then
    Raise (mkExn "ValueError" "month must be in 1..12")
  else if negb ((1 <=? d) && (d <=? days_in_month y m)) then
    Raise (mkExn "ValueError" "day is out of range for month")
  else Ok (mkDate y m d).

(** [d.replace(year=..., month=..., day=...)]; an omitted keyword keeps the
    field of [d]. *)
Definition replace (d : date) (y m dd : option Z) : Result date :=
  make_date (match y with Some v => v | None => year d end)
            (match m with Some v => v | None => month d end)
            (match dd with Some v => v | None => day d end).

(** [d + timedelta(days=k)] ([k] may be negative). *)
Definition add_days (d : date) (k : Z) : Result date :=
  let o := toordinal d + k in
  if (0 <? o) && (o <=? MAXORDINAL) then Ok (fromordinal o)
  else Raise (mkExn "OverflowError" "date value out of range").

(** [d.weekday()]: Monday is 0. *)
Definition weekday (d : date) : Z := (toordinal d + 6) mod 7.

(** Dates compare field by field. *)
Definition date_le (a b : date) : Prop :=
  year a < year b \/
  (year a = year b /\ (month a < month b \/ (month a = month b /\ day a <= day b))).

Definition date_leb (a b : date) : bool :=
  (year a <? year b) ||
  ((year a =? year b) &&
   ((month a <? month b) || ((month a =? month b) && (day a <=? day b)))).

(** [strftime("%Y-%m-%d")]. *)
Definition pad (width : nat) (s : string) : string :=
  let fix zeros (k : nat) : string :=
    match k with O => "" | S k' => "0" ++ zeros k' end in
  zeros (width - String.length s)%nat ++ s.

Definition strftime_ymd (d : date) : string :=
  pad 4 (str_of_Z (year d)) ++ "-" ++ pad 2 (str_of_Z (month d)) ++ "-"
  ++ pad 2 (str_of_Z (day d)).

(** *** Definitions used to reason about the calendar *)

(** Leap status of year [400a + 100b + 4c + e + 1]. *)
Definition leap_of (b c e : Z) : bool :=
  (e =? 3) && (negb (c =? 24) || (b =? 3)).

Definition dim_of (l : bool) (m : Z) : Z :=
  if (m =? 2) && l then 29 else DAYS_IN_MONTH m.

Definition dbm_of (l : bool) (m : Z) : Z :=
  DAYS_BEFORE_MONTH m + (if (2 <? m) && l then 1 else 0).

(** Length of a year. *)
Definition ylen (l : bool) : Z := 365 + (if l then 1 else 0).

Fixpoint zseq (lo : Z) (n : nat) : list Z :=
  match n with
  | O => []
  | S n' => lo :: zseq (lo + 1) n'
  end.

Definition yday_checkb (l : bool) (n : Z) : bool :=
  let '(m, d) := month_day_of_yday l n in
  (1 <=? m) && (m <=? 12) && (1 <=? d) && (d <=? dim_of l m)
  && (dbm_of l m + d - 1 =? n).

Definition md_checkb (l : bool) (m d : Z) : bool :=
  let n := dbm_of l m + d - 1 in
  let '(m', d') := month_day_of_yday l n in
  (m' =? m) && (d' =? d) && (0 <=? n) && (n <? ylen l).

Definition month_stepb (l : bool) (m1 m2 : Z) : bool :=
  dbm_of l m1 + dim_of l m1 <=? dbm_of l m2.

(** A date whose fields the calendar has, the year bounded below only. *)
Definition wf_date (d : date) : Prop :=
  1 <= year d /\ 1 <= month d <= 12 /\
  1 <= day d <= days_in_month (year d) (month d).

End Datetime.

(** ** Python values

    What [response.json()] yields and what the tools return: [None], bools,
    ints, floats, strings, lists and insertion-ordered dicts.  A float is an
    exact rational: rounding, infinities and NaN are not modelled. *)

Module Py.

#[local] Set Warnings "-register-all".

Inductive pyval : Type :=
| PNone : pyval
| PBool : bool -> pyval
| PInt : Z -> pyval
| PFloat : Q -> pyval
| PStr : string -> pyval
| PList : list pyval -> pyval
| PDict : list (pyval * pyval) -> pyval.

(** The double quote character, as a string. *)
Definition dquote : string := String (ascii_of_nat 34) EmptyString.

(** [type(v).__name__] *)
Definition type_name (v : pyval) : string :=
  match v with
  | PNone => "NoneType"
  | PBool _ => "bool"
  | PInt _ => "int"
  | PFloat _ => "float"
  | PStr _ => "str"
  | PList _ => "list"
  | PDict _ => "dict"
  end.

(** [bool(v)] *)
Definition truthy (v : pyval) : bool :=
  match v with
  | PNone => false
  | PBool b => b
  | PInt n => negb (n =? 0)
  | PFloat q => negb (Qeq_bool q 0)
  | PStr s => negb (String.eqb s "")
  | PList l => match l with [] => false | _ :: _ => true end
  | PDict d => match d with [] => false | _ :: _ => true end
  end.

(** [x or y] *)
Definition py_or (x y : pyval) : pyval := if truthy x then x else y.

(** The exceptions the runtime raises on the operations below. *)
Definition AttributeError (v : pyval) (attr : string) : exn :=
  mkExn "AttributeError"
        ("'" ++ type_name v ++ "' object has no attribute '" ++ attr ++ "'").

Definition TypeError (msg : string) : exn := mkExn "TypeError" msg.

(** [str(KeyError(k))] is [repr(k)]; the keys looked up are plain names. *)
Definition KeyError (k : string) : exn := mkExn "KeyError" ("'" ++ k ++ "'").

(** Numbers: [bool] is a subclass of [int], and ints compare and hash like
    the floats they equal. *)
Definition as_number (v : pyval) : option Q :=
  match v with
  | PBool b => Some (if b then 1%Q else 0%Q)
  | PInt n => Some (inject_Z n)
  | PFloat q => Some q
  | _ => None
  end.

Definition hashable (v : pyval) : bool :=
  match v with
  | PList _ | PDict _ => false
  | _ => true
  end.

(** Equality of dict keys. *)
Definition key_eqb (a b : pyval) : bool :=
  match a, b with
  | PNone, PNone => true
  | PStr s, PStr t => String.eqb s t
  | _, _ =>
      match as_number a, as_number b with
      | Some x, Some y => Qeq_bool x y
      | _, _ => false
      end
  end.

Fixpoint dict_lookup (k : pyval) (d : list (pyval * pyval)) : option pyval :=
  match d with
  | [] => None
  | (k', v) :: d' => if key_eqb k' k then Some v else dict_lookup k d'
  end.

(** A dict entry under a string key. *)
Definition kv (k : string) (v : pyval) : pyval * pyval := (PStr k, v).

(** [v.get(k, dflt)] for a string key. *)
Definition py_get (v : pyval) (k : string) (dflt : pyval) : Result pyval :=
  match v with
  | PDict d =>
      Ok (match dict_lookup (PStr k) d with Some x => x | None => dflt end)
  | _ => Raise (AttributeError v "get")
  end.

(** [v[k]] for a string key. *)
Definition py_getitem (v : pyval) (k : string) : Result pyval :=
  match v with
  | PDict d =>
      match dict_lookup (PStr k) d with
      | Some x => Ok x
      | None => Raise (KeyError k)
      end
  | PList _ =>
      Raise (TypeError "list indices must be integers or slices, not str")
  | PStr _ => Raise (TypeError "string indices must be integers, not 'str'")
  | _ => Raise (TypeError ("'" ++ type_name v ++ "' object is not subscriptable"))
  end.

Fixpoint chars (s : string) : list pyval :=
  match s with
  | EmptyString => []
  | String c s' => PStr (String c EmptyString) :: chars s'
  end.

(** The items [for x in v] visits. *)
Definition py_iter (v : pyval) : Result (list pyval) :=
  match v with
  | PList l => Ok l
  | PDict d => Ok (map fst d)
  | PStr s => Ok (chars s)
  | _ => Raise (TypeError ("'" ++ type_name v ++ "' object is not iterable"))
  end.

(** [k in d] / [d[k]] on a dict need a hashable key. *)
Definition check_hashable (k : pyval) : Result unit :=
  if hashable k then Ok tt
  else Raise (TypeError ("unhashable type: '" ++ type_name k ++ "'")).

Fixpoint mapM {A B : Type} (f : A -> Result B) (l : list A) : Result (list B) :=
  match l with
  | [] => Ok []
  | x :: l' => y <- f x ;; ys <- mapM f l' ;; Ok (y :: ys)
  end.

Fixpoint foldM {A S : Type} (f : S -> A -> Result S) (s : S) (l : list A)
  : Result S :=
  match l with
  | [] => Ok s
  | x :: l' => s' <- f s x ;; foldM f s' l'
  end.

Fixpoint join (sep : string) (l : list string) : string :=
  match l with
  | [] => ""
  | [s] => s
  | s :: l' => s ++ sep ++ join sep l'
  end.

(** [sep.join(items)]: every item must be a [str]. *)
Fixpoint str_items (i : Z) (l : list pyval) : Result (list string) :=
  match l with
  | [] => Ok []
  | PStr s :: l' => ss <- str_items (i + 1) l' ;; Ok (s :: ss)
  | v :: _ =>
      Raise (TypeError ("sequence item " ++ str_of_Z i
                        ++ ": expected str instance, " ++ type_name v ++ " found"))
  end.

Definition py_join (sep : string) (l : list pyval) : Result string :=
  ss <- str_items 0 l ;; Ok (join sep ss).

(** Python numbers in arithmetic. *)
Inductive num : Type :=
| NInt : Z -> num
| NFloat : Q -> num.

Definition num_Q (a : num) : Q :=
  match a with
  | NInt n => inject_Z n
  | NFloat q => q
  end.

Definition num_py (a : num) : pyval :=
  match a with
  | NInt n => PInt n
  | NFloat q => PFloat q
  end.

Definition num_add (a b : num) : num :=
  match a, b with
  | NInt x, NInt y => NInt (x + y)
  | _, _ => NFloat (Qred (num_Q a + num_Q b))
  end.

(** [a / n] for a positive count [n]: true division yields a float. *)
Definition num_div_count (a : num) (n : Z) : Q :=
  Qred (num_Q a / inject_Z n).

(** [total += v], [total] a number. *)
Definition py_iadd (total : num) (v : pyval) : Result num :=
  match v with
  | PBool b => Ok (num_add total (NInt (if b then 1 else 0)))
  | PInt n => Ok (num_add total (NInt n))
  | PFloat q => Ok (num_add total (NFloat q))
  | _ =>
      Raise (TypeError ("unsupported operand type(s) for +=: '"
                        ++ type_name (num_py total) ++ "' and '"
                        ++ type_name v ++ "'"))
  end.

(** A path of string keys into nested dicts, for reading results. *)
Fixpoint at_path (path : list string) (v : pyval) : option pyval :=
  match path with
  | [] => Some v
  | k :: path' =>
      match v with
      | PDict d =>
          match dict_lookup (PStr k) d with
          | Some x => at_path path' x
          | None => None
          end
      | _ => None
      end
  end.

End Py.

(** ** [models.py]: the pydantic models

    A model is built from the keywords of a dict ([Opportunity] or
    [Account] called on the unpacked node); what
    pydantic accepts, coerces or rejects is a parameter ([World] below). *)

Module Models.
Import Py.

Record OpportunityAccount : Type := mkOpportunityAccount {
  oa_Id : option string;
  oa_Name : option pyval
}.

Record OpportunityOwner : Type := mkOpportunityOwner {
  oo_Id : option string;
  oo_Name : option pyval
}.

Record Opportunity : Type := mkOpportunity {
  opp_Id : option string;
  opp_Name : option pyval;
  opp_Amount : option pyval;
  opp_CloseDate : option pyval;
  opp_StageName : option pyval;
  opp_Probability : option pyval;
  opp_Description : option pyval;
  opp_Type : option pyval;
  opp_LeadSource : option pyval;
  opp_Account : option OpportunityAccount;
  opp_Owner : option OpportunityOwner
}.

Record AccountBillingAddress : Type := mkAccountBillingAddress {
  ba_BillingCity : option pyval;
  ba_BillingState : option pyval;
  ba_BillingCountry : option pyval
}.

Record Account : Type := mkAccount {
  acc_Id : option string;
  acc_Name : option pyval;
  acc_Type : option pyval;
  acc_Industry : option pyval;
  acc_AnnualRevenue : option pyval;
  acc_NumberOfEmployees : option pyval;
  acc_Phone : option pyval;
  acc_Website : option pyval;
  acc_BillingAddress : option AccountBillingAddress
}.

End Models.

(** ** The world outside the code *)

Module Httpx.
Import Py.

(** An [httpx.Response]: the status line, the body, and what
    [response.json()] gives (it raises when the body is not JSON). *)
Record Response : Type := mkResponse {
  status_code : Z;
  text : string;
  json : Result pyval
}.

(** [await client.post(...)]: a response, or the transport's exception
    (connection failure, timeout after 30 seconds). *)
Inductive outcome : Type :=
| Failed : exn -> outcome
| Responded : Response -> outcome.

(** [response.raise_for_status()] *)
Definition raise_for_status (r : Response) : Result unit :=
  if (200 <=? status_code r) && (status_code r <=? 299) then Ok tt
  else Raise (mkExn "HTTPStatusError"
                    ("'" ++ str_of_Z (status_code r) ++ "' for url")).

End Httpx.

(** [SalesforceClient.__init__] *)
Record SalesforceClient : Type := mkClient {
  instance_url : string;
  access_token : string
}.

Definition base_url (c : SalesforceClient) : string :=
  instance_url c ++ "/services/data/v59.0/graphql".

Definition headers (c : SalesforceClient) : list (string * string) :=
  [("Authorization", "Bearer " ++ access_token c);
   ("Content-Type", "application/json")].

(** Everything the code reads from its environment: the clock, the
    configured client ([get_salesforce_client] raises [ValueError] when the
    environment lacks the URL or the token), the endpoint, and the parts of
    the Python runtime and of pydantic that are not spelled out here. *)
Record World : Type := mkWorld {
  now : Datetime.date;
  utcnow_isoformat : string;
  get_salesforce_client : Result SalesforceClient;
  post : string -> list (string * string) -> string -> Py.pyval -> Httpx.outcome;
  repr_float : Q -> string;
  repr_str : string -> string;
  float_of_str : string -> Result Q;
  new_Opportunity : list (Py.pyval * Py.pyval) -> Result Models.Opportunity;
  new_Account : list (Py.pyval * Py.pyval) -> Result Models.Account
}.

(** ** [client.py] *)

Module Client.
Import Py Httpx.

Section WithWorld.
Variable w : World.

(** [repr(v)] and [str(v)], the latter being what an f-string inserts. *)
Fixpoint py_repr (v : pyval) : string :=
  match v with
  | PNone => "None"
  | PBool b => if b then "True" else "False"
  | PInt n => str_of_Z n
  | PFloat q => repr_float w q
  | PStr s => repr_str w s
  | PList l => "[" ++ join ", " (map py_repr l) ++ "]"
  | PDict d =>
      "{" ++ join ", " (map (fun e => py_repr (fst e) ++ ": " ++ py_repr (snd e)) d)
      ++ "}"
  end.

Definition py_str (v : pyval) : string :=
  match v with
  | PStr s => s
  | _ => py_repr v
  end.

(** [float(v)] *)
Definition py_float (v : pyval) : Result Q :=
  match v with
  | PBool b => Ok (if b then 1%Q else 0%Q)
  | PInt n => Ok (inject_Z n)
  | PFloat q => Ok q
  | PStr s => float_of_str w s
  | _ =>
      Raise (TypeError ("float() argument must be a string or a real number, not '"
                        ++ type_name v ++ "'"))
  end.

(** The body of the loop over [data["errors"]]. *)
Definition error_message (error : pyval) : Result pyval :=
  message <- py_get error "message" (PStr "Unknown GraphQL error") ;;
  extensions <- py_get error "extensions" (PDict []) ;;
  classification <- py_get extensions "classification" (PStr "") ;;
  if truthy classification then
    Ok (PStr (py_str message ++ " (Classification: " ++ py_str classification ++ ")"))
  else Ok message.

(** [variables or {}], [variables] defaulting to [None]. *)
Definition or_empty (variables : option pyval) : pyval :=
  match variables with
  | Some v => py_or v (PDict [])
  | None => PDict []
  end.

(** [execute_query].  Both handlers log and raise; the log is not modelled.
    An [HTTPStatusError] is replaced by a plain [Exception], anything else
    is re-raised as it is. *)
Definition execute_query (c : SalesforceClient) (query : string)
           (variables : option pyval) : Result pyval :=
  match post w (base_url c) (headers c) query (or_empty variables) with
  | Failed e => Raise e
  | Responded response =>
      match raise_for_status response with
      | Raise _ =>
          Raise (mkExn "Exception"
                       ("API request failed: " ++ str_of_Z (status_code response)))
      | Ok _ =>
          data <- json response ;;
          errs <- py_get data "errors" PNone ;;
          if truthy errs then
            errors <- py_getitem data "errors" ;;
            items <- py_iter errors ;;
            error_messages <- mapM error_message items ;;
            full_error_msg <- py_join "; " error_messages ;;
            Raise (mkExn "Exception" ("GraphQL errors: " ++ full_error_msg))
          else Ok data
      end
  end.

(** [result.get("data", {}).get("uiapi", {}).get("query", {})
          .get(entity, {})] *)
Definition get_entity (result : pyval) (entity : string) : Result pyval :=
  data <- py_get result "data" (PDict []) ;;
  uiapi <- py_get data "uiapi" (PDict []) ;;
  query <- py_get uiapi "query" (PDict []) ;;
  py_get query entity (PDict []).

Definition get_edges (result : pyval) (entity : string) : Result pyval :=
  e <- get_entity result entity ;; py_get e "edges" (PList []).

Definition get_total_count (result : pyval) (entity : string) : Result pyval :=
  e <- get_entity result entity ;; py_get e "totalCount" (PInt 0).

(** A model called on the unpacked [data], which must be a mapping. *)
Definition construct {M : Type} (name : string)
           (new : list (pyval * pyval) -> Result M) (data : pyval) : Result M :=
  match data with
  | PDict d => new d
  | _ =>
      Raise (TypeError (name ++ "() argument after ** must be a mapping, not "
                        ++ type_name data))
  end.

(** [edges[0]] *)
Definition py_first (v : pyval) : Result pyval :=
  match v with
  | PList (x :: _) => Ok x
  | PList [] => Raise (mkExn "IndexError" "list index out of range")
  | PStr (String c _) => Ok (PStr (String c EmptyString))
  | PStr EmptyString => Raise (mkExn "IndexError" "string index out of range")
  | PDict d =>
      match dict_lookup (PInt 0) d with
      | Some x => Ok x
      | None => Raise (mkExn "KeyError" "0")
      end
  | _ => Raise (TypeError ("'" ++ type_name v ++ "' object is not subscriptable"))
  end.

(** The document of [SalesforceClient.get_opportunity]; the identifier travels as the bound variable [$opportunityId]. *)
Definition get_opportunity_document : string :=
  "
        query GetOpportunity($opportunityId: ID!) {
            uiapi {
                query {
                    Opportunity(where: { Id: { eq: $opportunityId } }) {
                        edges {
                            node {
                                Id
                                Name { value }
                                Amount { value displayValue }
                                CloseDate { value }
                                StageName { value }
                                Probability { value }
                                Description { value }
                                Type { value }
                                LeadSource { value }
                                Account {
                                    Id
                                    Name { value }
                                }
                                Owner {
                                    Id
                                    Name { value }
                                }
                            }
                        }
                    }
                }
            }
        }
        ".
(** The f-string of [SalesforceClient.search_opportunities]. *)
Definition search_opportunities_document (limit : string) : string :=
  "
        query SearchOpportunities {
            uiapi {
                query {
                    Opportunity(
                        first: "
  ++ limit
  ++ "
                        orderBy: { LastModifiedDate: { order: DESC } }
                    ) {
                        edges {
                            node {
                                Id
                                Name { value }
                                Amount { value displayValue }
                                CloseDate { value }
                                StageName { value }
                                Probability { value }
                                Account {
                                    Id
                                    Name { value }
                                }
                                Owner {
                                    Id
                                    Name { value }
                                }
                            }
                        }
                        totalCount
                    }
                }
            }
        }
        ".
(** The f-string of [SalesforceClient.search_accounts]. *)
Definition search_accounts_document (limit : string) : string :=
  "
        query SearchAccounts {
            uiapi {
                query {
                    Account(
                        first: "
  ++ limit
  ++ "
                        orderBy: { Name: { order: ASC } }
                    ) {
                        edges {
                            node {
                                Id
                                Name { value }
                                Type { value }
                                Industry { value }
                                AnnualRevenue { value displayValue }
                                NumberOfEmployees { value }
                                Phone { value }
                                Website { value }
                            }
                        }
                        totalCount
                    }
                }
            }
        }
        ".

(** [get_opportunity]: the handler logs and re-raises. *)
Definition get_opportunity (c : SalesforceClient) (opportunity_id : string)
  : Result (option Models.Opportunity) :=
  result <- execute_query c get_opportunity_document
              (Some (PDict [kv "opportunityId" (PStr opportunity_id)])) ;;
  edges <- get_edges result "Opportunity" ;;
  if truthy edges then
    edge <- py_first edges ;;
    opportunity_data <- py_getitem edge "node" ;;
    o <- construct "Opportunity" (new_Opportunity w) opportunity_data ;;
    Ok (Some o)
  else Ok None.

(** [search_opportunities]: [stage] and [min_amount] are parameters of the
    method; its body reads [limit] alone. *)
Definition search_opportunities (c : SalesforceClient) (stage : option string)
           (min_amount : option num) (limit : Z) : Result (list Models.Opportunity) :=
  let query := search_opportunities_document (str_of_Z limit) in
  result <- execute_query c query None ;;
  edges <- get_edges result "Opportunity" ;;
  items <- py_iter edges ;;
  mapM (fun edge =>
          opportunity_data <- py_getitem edge "node" ;;
          construct "Opportunity" (new_Opportunity w) opportunity_data)
       items.

(** [search_accounts] *)
Definition search_accounts (c : SalesforceClient) (industry : option string)
           (limit : Z) : Result (list Models.Account) :=
  let query := search_accounts_document (str_of_Z limit) in
  result <- execute_query c query None ;;
  edges <- get_edges result "Account" ;;
  items <- py_iter edges ;;
  mapM (fun edge =>
          account_data <- py_getitem edge "node" ;;
          construct "Account" (new_Account w) account_data)
       items.

(** The f-string of [SalesforceClient.get_recent_opportunities]. *)
Definition get_recent_opportunities_document (limit : string) : string :=
  "
        query GetRecentOpportunities {
            uiapi {
                query {
                    Opportunity(
                        first: "
  ++ limit
  ++ "
                        orderBy: { LastModifiedDate: { order: DESC } }
                    ) {
                        edges {
                            node {
                                Id
                                Name { value }
                                Amount { value displayValue }
                                CloseDate { value }
                                StageName { value }
                                Probability { value }
                                Account {
                                    Id
                                    Name { value }
                                }
                            }
                        }
                    }
                }
            }
        }
        ".

(** The document of [SalesforceClient.get_account]; the identifier travels as the bound variable [$accountId]. *)
Definition get_account_document : string :=
  "
        query GetAccount($accountId: ID!) {
            uiapi {
                query {
                    Account(where: { Id: { eq: $accountId } }) {
                        edges {
                            node {
                                Id
                                Name { value }
                                Type { value }
                                Industry { value }
                                AnnualRevenue { value displayValue }
                                NumberOfEmployees { value }
                                Phone { value }
                                Website { value }
                                BillingAddress {
                                    BillingCity { value }
                                    BillingState { value }
                                    BillingCountry { value }
                                }
                            }
                        }
                    }
                }
            }
        }
        ".

(** The f-string of [SalesforceClient.get_recent_accounts]. *)
Definition get_recent_accounts_document (limit : string) : string :=
  "
        query GetRecentAccounts {
            uiapi {
                query {
                    Account(
                        first: "
  ++ limit
  ++ "
                        orderBy: { LastModifiedDate: { order: DESC } }
                    ) {
                        edges {
                            node {
                                Id
                                Name { value }
                                Type { value }
                                Industry { value }
                                AnnualRevenue { value displayValue }
                                NumberOfEmployees { value }
                            }
                        }
                    }
                }
            }
        }
        ".

(** The document of [SalesforceClient.get_schema_info]. *)
Definition get_schema_info_document : string :=
  "
        query GetObjectInfo {
            uiapi {
                objectInfos(apiNames: ["
  ++ dquote ++ "Account" ++ dquote ++ ", " ++ dquote ++ "Opportunity" ++ dquote
  ++ ", " ++ dquote ++ "Contact" ++ dquote ++ ", " ++ dquote ++ "Lead" ++ dquote
  ++ ", " ++ dquote ++ "Case" ++ dquote
  ++ "]) {
                    ApiName
                    label
                    labelPlural
                    queryable
                    custom
                    keyPrefix
                }
            }
        }
        ".

(** The document of [SalesforceClient.test_simple_query]. *)
Definition test_simple_query_document : string :=
  "
        query TestQuery {
            uiapi {
                query {
                    Account(first: 1) {
                        edges {
                            node {
                                Id
                                Name { value }
                            }
                        }
                    }
                }
            }
        }
        ".

(** [get_recent_opportunities] *)
Definition get_recent_opportunities (c : SalesforceClient) (limit : Z)
  : Result (list Models.Opportunity) :=
  let query := get_recent_opportunities_document (str_of_Z limit) in
  result <- execute_query c query None ;;
  edges <- get_edges result "Opportunity" ;;
  items <- py_iter edges ;;
  mapM (fun edge =>
          opportunity_data <- py_getitem edge "node" ;;
          construct "Opportunity" (new_Opportunity w) opportunity_data)
       items.

(** [get_account] *)
Definition get_account (c : SalesforceClient) (account_id : string)
  : Result (option Models.Account) :=
  result <- execute_query c get_account_document
              (Some (PDict [kv "accountId" (PStr account_id)])) ;;
  edges <- get_edges result "Account" ;;
  if truthy edges then
    edge <- py_first edges ;;
    account_data <- py_getitem edge "node" ;;
    a <- construct "Account" (new_Account w) account_data ;;
    Ok (Some a)
  else Ok None.

(** [get_recent_accounts] *)
Definition get_recent_accounts (c : SalesforceClient) (limit : Z)
  : Result (list Models.Account) :=
  let query := get_recent_accounts_document (str_of_Z limit) in
  result <- execute_query c query None ;;
  edges <- get_edges result "Account" ;;
  items <- py_iter edges ;;
  mapM (fun edge =>
          account_data <- py_getitem edge "node" ;;
          construct "Account" (new_Account w) account_data)
       items.

(** [get_schema_info] *)
Definition get_schema_info (c : SalesforceClient) : Result pyval :=
  result <- execute_query c get_schema_info_document None ;;
  data <- py_get result "data" (PDict []) ;;
  uiapi <- py_get data "uiapi" (PDict []) ;;
  py_get uiapi "objectInfos" (PList []).

(** [test_simple_query] *)
Definition test_simple_query (c : SalesforceClient) : Result pyval :=
  execute_query c test_simple_query_document None.

End WithWorld.

End Client.

(** ** [tools/opportunities.py] *)

Module OpportunityTools.
Import Py Datetime.

(** The [DateRange] enum and its values. *)
Inductive DateRange : Type :=
| THIS_WEEK | LAST_WEEK | THIS_MONTH | LAST_MONTH
| THIS_QUARTER | LAST_QUARTER | THIS_YEAR | LAST_YEAR.

Definition value (r : DateRange) : string :=
  match r with
  | THIS_WEEK => "this_week"
  | LAST_WEEK => "last_week"
  | THIS_MONTH => "this_month"
  | LAST_MONTH => "last_month"
  | THIS_QUARTER => "this_quarter"
  | LAST_QUARTER => "last_quarter"
  | THIS_YEAR => "this_year"
  | LAST_YEAR => "last_year"
  end.

(** The members, in definition order (what iterating the enum yields). *)
Definition members : list DateRange :=
  [THIS_WEEK; LAST_WEEK; THIS_MONTH; LAST_MONTH;
   THIS_QUARTER; LAST_QUARTER; THIS_YEAR; LAST_YEAR].

(** The start and end [get_date_range] computes from [now], before they
    are formatted.  [range_type] is a member of the enum, so the final
    [else: raise ValueError] of the source has no case here. *)
Definition date_window (now : date) (range_type : DateRange)
  : Result (date * date) :=
  match range_type with
  | THIS_WEEK =>
      start <- add_days now (- weekday now) ;;
      end_ <- add_days start 6 ;;
      Ok (start, end_)
  | LAST_WEEK =>
      start <- add_days now (- (weekday now + 7)) ;;
      end_ <- add_days start 6 ;;
      Ok (start, end_)
  | THIS_MONTH =>
      start <- replace now None None (Some 1) ;;
      e1 <- add_days start 32 ;;
      e2 <- replace e1 None None (Some 1) ;;
      end_ <- add_days e2 (-1) ;;
      Ok (start, end_)
  | LAST_MONTH =>
      s1 <- replace now None None (Some 1) ;;
      s2 <- add_days s1 (-1) ;;
      start <- replace s2 None None (Some 1) ;;
      e1 <- replace now None None (Some 1) ;;
      end_ <- add_days e1 (-1) ;;
      Ok (start, end_)
  | THIS_QUARTER =>
      let quarter := (month now - 1) / 3 + 1 in
      start <- replace now None (Some ((quarter - 1) * 3 + 1)) (Some 1) ;;
      e1 <- add_days start 95 ;;
      e2 <- replace e1 None None (Some 1) ;;
      end_ <- add_days e2 (-1) ;;
      Ok (start, end_)
  | LAST_QUARTER =>
      let quarter := (month now - 1) / 3 in
      start <- (if quarter =? 0
                then replace now (Some (year now - 1)) (Some 10) (Some 1)
                else replace now None (Some ((quarter - 1) * 3 + 1)) (Some 1)) ;;
      e1 <- add_days start 95 ;;
      e2 <- replace e1 None None (Some 1) ;;
      end_ <- add_days e2 (-1) ;;
      Ok (start, end_)
  | THIS_YEAR =>
      start <- replace now None (Some 1) (Some 1) ;;
      end_ <- replace now None (Some 12) (Some 31) ;;
      Ok (start, end_)
  | LAST_YEAR =>
      start <- replace now (Some (year now - 1)) (Some 1) (Some 1) ;;
      end_ <- replace now (Some (year now - 1)) (Some 12) (Some 31) ;;
      Ok (start, end_)
  end.

(** [s.lower()] and [s.replace(" ", "_")] on ASCII text. *)
Definition lower_ascii (c : ascii) : ascii :=
  let n := nat_of_ascii c in
  if ((65 <=? n) && (n <=? 90))%nat then ascii_of_nat (n + 32) else c.

Fixpoint lower (s : string) : string :=
  match s with
  | EmptyString => EmptyString
  | String c s' => String (lower_ascii c) (lower s')
  end.

Fixpoint spaces_to_underscores (s : string) : string :=
  match s with
  | EmptyString => EmptyString
  | String c s' =>
      String (if Ascii.eqb c " " then "_"%char else c) (spaces_to_underscores s')
  end.

Definition nonempty (s : string) : bool := negb (String.eqb s "").

(** The payload of every [except Exception as e] handler of the tools. *)
Definition failure_payload (e : exn) : pyval :=
  PDict [kv "success" (PBool false);
         kv "error" (PStr (exn_msg e));
         kv "error_type" (PStr (exn_type e))].

(** [handler] applied to whatever the [try] body raises. *)
Definition try_except {A : Type} (body : Result A) (handler : exn -> A) : Result A :=
  match body with
  | Ok a => Ok a
  | Raise e => Ok (handler e)
  end.

Definition opt_num (x : option num) : pyval :=
  match x with
  | Some a => num_py a
  | None => PNone
  end.

(** [node.get(f, {}).get(sub, dflt)] *)
Definition field (node : pyval) (f sub : string) (dflt : pyval) : Result pyval :=
  x <- py_get node f (PDict []) ;; py_get x sub dflt.

(** [node.get(rel, {}).get(f, {}).get(sub, dflt)] *)
Definition rel_field (node : pyval) (rel f sub : string) (dflt : pyval)
  : Result pyval :=
  r <- py_get node rel (PDict []) ;; x <- py_get r f (PDict []) ;; py_get x sub dflt.

Section WithWorld.
Variable w : World.

(** [DateRange(s)]: the member whose value is [s]. *)
Definition DateRange_of_value (s : string) : Result DateRange :=
  match find (fun r => String.eqb (value r) s) members with
  | Some r => Ok r
  | None =>
      Raise (mkExn "ValueError" (repr_str w s ++ " is not a valid DateRange"))
  end.

(** [get_date_range]: the window at [datetime.now()], as two strings. *)
Definition get_date_range (range_type : DateRange) : Result (string * string) :=
  ' (start, end_) <- date_window (now w) range_type ;;
  Ok (strftime_ymd start, strftime_ymd end_).

(** The three pass-through tools: no handler around the client call. *)
Definition get_opportunity (opportunity_id : string)
  : Result (option Models.Opportunity) :=
  client <- get_salesforce_client w ;;
  Client.get_opportunity w client opportunity_id.

Definition search_opportunities (stage : string) (min_amount : option num)
           (limit : Z) : Result (list Models.Opportunity) :=
  client <- get_salesforce_client w ;;
  let stage_filter := if nonempty stage then Some stage else None in
  Client.search_opportunities w client stage_filter min_amount limit.

(** The payload returned when the period name is not one of the enum's. *)
Definition invalid_period_payload (time_period : string) : pyval :=
  PDict [kv "error" (PStr ("Invalid time period: " ++ time_period));
         kv "valid_options" (PList (map (fun r => PStr (value r)) members))].

(** The date condition of [query_opportunities]: the early return on a
    [ValueError] ([inl]), or the conditions so far ([inr]).  Any other
    exception of the [try] body escapes the [except ValueError]. *)
Definition date_conditions (time_period : string) : Result (pyval + list string) :=
  if nonempty time_period then
    match
      (date_range <- DateRange_of_value (spaces_to_underscores (lower time_period)) ;;
       get_date_range date_range)
    with
    | Ok (start_date, end_date) =>
        Ok (inr ["CloseDate: { range: { gte: " ++ dquote ++ start_date ++ dquote
                 ++ ", lte: " ++ dquote ++ end_date ++ dquote ++ " } }"])
    | Raise e =>
        if String.eqb (exn_type e) "ValueError"
        then Ok (inl (invalid_period_payload time_period))
        else Raise e
    end
  else Ok (inr []).

Definition stage_condition (stage : string) : list string :=
  if nonempty stage
  then ["StageName: { eq: " ++ dquote ++ stage ++ dquote ++ " }"]
  else [].

Definition amount_condition (min_amount : option num) : list string :=
  match min_amount with
  | Some m => ["Amount: { range: { gte: " ++ Client.py_str w (num_py m) ++ " } }"]
  | None => []
  end.

Definition where_clause (conditions : list string) : string :=
  match conditions with
  | [] => ""
  | _ :: _ => "where: { " ++ join ", " conditions ++ " }"
  end.

(** The f-string of the [query_opportunities] tool. *)
Definition query_opportunities_document (where_clause : string) (limit : string) : string :=
  "
        query GetOpportunities {
            uiapi {
                query {
                    Opportunity(
                        "
  ++ where_clause
  ++ "
                        first: "
  ++ limit
  ++ "
                        orderBy: { CloseDate: { order: DESC } }
                    ) {
                        edges {
                            node {
                                Id
                                Name { value }
                                Amount { value displayValue }
                                CloseDate { value }
                                StageName { value }
                                Probability { value }
                                Account {
                                    Id
                                    Name { value }
                                }
                                Owner {
                                    Id
                                    Name { value }
                                }
                            }
                        }
                        totalCount
                        pageInfo {
                            hasNextPage
                            endCursor
                        }
                    }
                }
            }
        }
        ".

(** One turn of the loop over the edges: the record built from [edge], and
    the running total. *)
Definition normalize_edge (edge : pyval) : Result (pyval * pyval) :=
  node <- py_get edge "node" (PDict []) ;;
  amount_value <- field node "Amount" "value" (PInt 0) ;;
  let amount := py_or amount_value (PInt 0) in
  id <- py_get node "Id" PNone ;;
  name <- field node "Name" "value" (PStr "") ;;
  amount_display <- field node "Amount" "displayValue" (PStr "") ;;
  close_date <- field node "CloseDate" "value" (PStr "") ;;
  stage <- field node "StageName" "value" (PStr "") ;;
  probability <- field node "Probability" "value" (PInt 0) ;;
  account <- py_get node "Account" (PDict []) ;;
  account_id <- py_get account "Id" PNone ;;
  account_name <- rel_field node "Account" "Name" "value" (PStr "") ;;
  owner <- py_get node "Owner" (PDict []) ;;
  owner_id <- py_get owner "Id" PNone ;;
  owner_name <- rel_field node "Owner" "Name" "value" (PStr "") ;;
  Ok (PDict [kv "id" id;
             kv "name" name;
             kv "amount" amount;
             kv "amount_display" amount_display;
             kv "close_date" close_date;
             kv "stage" stage;
             kv "probability" probability;
             kv "account" (PDict [kv "id" account_id; kv "name" account_name]);
             kv "owner" (PDict [kv "id" owner_id; kv "name" owner_name])],
      amount).

Definition loop_step (acc : list pyval * num) (edge : pyval)
  : Result (list pyval * num) :=
  ' (opp, amount) <- normalize_edge edge ;;
  total_value <- py_iadd (snd acc) amount ;;
  Ok ((fst acc ++ [opp])%list, total_value).

(** The [try] body of [query_opportunities]. *)
Definition query_opportunities_body (client : SalesforceClient) (query : string)
           (time_period stage : string) (min_amount : option num) (limit : Z)
  : Result pyval :=
  result <- Client.execute_query w client query None ;;
  edges <- Client.get_edges result "Opportunity" ;;
  total_count <- Client.get_total_count result "Opportunity" ;;
  items <- py_iter edges ;;
  ' (opportunities, total_value) <- foldM loop_step ([], NInt 0) items ;;
  let n := Z.of_nat (List.length opportunities) in
  Ok (PDict
        [kv "success" (PBool true);
         kv "summary"
            (PDict
               [kv "total_opportunities" (PInt n);
                kv "total_count_in_org" total_count;
                kv "total_value" (num_py total_value);
                kv "average_deal_size"
                   (match opportunities with
                    | [] => PInt 0
                    | _ :: _ => PFloat (num_div_count total_value n)
                    end);
                kv "filters_applied"
                   (PDict [kv "time_period" (PStr time_period);
                           kv "stage" (PStr stage);
                           kv "min_amount" (opt_num min_amount);
                           kv "limit" (PInt limit)])]);
         kv "opportunities" (PList opportunities);
         kv "timestamp" (PStr (utcnow_isoformat w))]).

(** The document [query_opportunities] sends, once the date condition is
    known. *)
Definition query_opportunities_query (date_conds : list string) (stage : string)
           (min_amount : option num) (limit : Z) : string :=
  let conditions :=
    (date_conds ++ stage_condition stage ++ amount_condition min_amount)%list in
  query_opportunities_document (where_clause conditions) (str_of_Z limit).

(** The [query_opportunities] tool. *)
Definition query_opportunities (time_period stage : string)
           (min_amount : option num) (limit : Z) : Result pyval :=
  client <- get_salesforce_client w ;;
  dc <- date_conditions time_period ;;
  match dc with
  | inl early => Ok early
  | inr date_conds =>
      let query := query_opportunities_query date_conds stage min_amount limit in
      try_except
        (query_opportunities_body client query time_period stage min_amount limit)
        failure_payload
  end.

(** The [get_recent_opportunities] tool: no handler either. *)
Definition get_recent_opportunities (limit : Z) : Result (list Models.Opportunity) :=
  client <- get_salesforce_client w ;;
  Client.get_recent_opportunities w client limit.

(** An attribute of a model: a field that was not set reads [None]. *)
Definition attr (x : option pyval) : pyval :=
  match x with
  | Some v => v
  | None => PNone
  end.

Definition attr_str (x : option string) : pyval :=
  match x with
  | Some s => PStr s
  | None => PNone
  end.

(** [getattr(m, f, {}).get(sub, dflt) if hasattr(m, f) else dflt]: every
    field of a model is an attribute of its instances, so [hasattr] holds
    and [getattr] never falls back on its default. *)
Definition attr_get (x : option pyval) (sub : string) (dflt : pyval) : Result pyval :=
  py_get (attr x) sub dflt.

(** One entry of the comprehension of [find_opportunities_by_stage]. *)
Definition stage_entry (opp : Models.Opportunity) : Result pyval :=
  name <- attr_get (Models.opp_Name opp) "value" (PStr "Unknown") ;;
  amount <- attr_get (Models.opp_Amount opp) "displayValue" (PStr "Unknown") ;;
  close_date <- attr_get (Models.opp_CloseDate opp) "value" (PStr "Unknown") ;;
  probability <- attr_get (Models.opp_Probability opp) "value" (PInt 0) ;;
  Ok (PDict [kv "id" (attr_str (Models.opp_Id opp));
             kv "name" name;
             kv "amount" amount;
             kv "close_date" close_date;
             kv "probability" probability]).

(** The [find_opportunities_by_stage] tool. *)
Definition find_opportunities_by_stage (stage : string) (limit : Z) : Result pyval :=
  client <- get_salesforce_client w ;;
  opportunities <- Client.search_opportunities w client (Some stage) None limit ;;
  entries <- mapM stage_entry opportunities ;;
  Ok (PDict [kv "stage" (PStr stage);
             kv "opportunities_found" (PInt (Z.of_nat (List.length opportunities)));
             kv "opportunities" (PList entries)]).

End WithWorld.

End OpportunityTools.

(** ** [tools/accounts.py] *)

Module AccountTools.
Import Py.

(** [sorted(xs)] on ints. *)
Fixpoint insert (x : Z) (l : list Z) : list Z :=
  match l with
  | [] => [x]
  | y :: l' => if x <=? y then x :: y :: l' else y :: insert x l'
  end.

Fixpoint sorted (l : list Z) : list Z :=
  match l with
  | [] => []
  | x :: l' => insert x (sorted l')
  end.

(** [sorted(xs)] on floats. *)
Fixpoint insertQ (x : Q) (l : list Q) : list Q :=
  match l with
  | [] => [x]
  | y :: l' => if Qle_bool x y then x :: y :: l' else y :: insertQ x l'
  end.

Fixpoint sortedQ (l : list Q) : list Q :=
  match l with
  | [] => []
  | x :: l' => insertQ x (sortedQ l')
  end.

(** [s[len(s)//2]] *)
Definition middle {A : Type} (s : list A) : option A :=
  nth_error s (List.length s / 2)%nat.

(** [analyze_account_trends], ["median_employees"]:
    [sorted(employee_counts)[len(employee_counts)//2]], computed under
    [if employee_counts:]. *)
Definition median_employees (employee_counts : list Z) : option Z :=
  match employee_counts with
  | [] => None
  | _ :: _ =>
      nth_error (sorted employee_counts) (List.length employee_counts / 2)%nat
  end.

(** ["median_revenue"]: [round(sorted(revenues)[len(revenues)//2], 2)],
    computed under [if revenues:]; [round2] is [round(_, 2)]. *)
Definition median_revenue (round2 : Q -> Q) (revenues : list Q) : option Q :=
  match revenues with
  | [] => None
  | _ :: _ =>
      option_map round2
        (nth_error (sortedQ revenues) (List.length revenues / 2)%nat)
  end.

(** The [where_clause] of [query_accounts]. *)
Definition where_clause (industry : string) : string :=
  if OpportunityTools.nonempty industry
  then "where: { Industry: { eq: " ++ dquote ++ industry ++ dquote ++ " } }"
  else "".

(** The f-string of the [query_accounts] tool. *)
Definition query_accounts_document (where_clause : string) (limit : string) : string :=
  "
        query GetAccounts {
            uiapi {
                query {
                    Account(
                        "
  ++ where_clause
  ++ "
                        first: "
  ++ limit
  ++ "
                        orderBy: { Name: { order: ASC } }
                    ) {
                        edges {
                            node {
                                Id
                                Name { value }
                                Type { value }
                                Industry { value }
                                AnnualRevenue { value displayValue }
                                NumberOfEmployees { value }
                                Phone { value }
                                Website { value }
                                BillingAddress {
                                    BillingCity { value }
                                    BillingState { value }
                                    BillingCountry { value }
                                }
                            }
                        }
                        totalCount
                    }
                }
            }
        }
        ".

(** The document [query_accounts] passes to [execute_query]. *)
Definition query_accounts_query (limit : Z) (industry : string) : string :=
  query_accounts_document (where_clause industry) (str_of_Z limit).

Section WithWorld.
Variable w : World.

(** The [search_accounts] tool: no handler around the client call. *)
Definition search_accounts (industry : string) (limit : Z)
  : Result (list Models.Account) :=
  client <- get_salesforce_client w ;;
  let industry_filter :=
    if OpportunityTools.nonempty industry then Some industry else None in
  Client.search_accounts w client industry_filter limit.

(** The [get_account] and [get_recent_accounts] tools: no handler. *)
Definition get_account (account_id : string) : Result (option Models.Account) :=
  client <- get_salesforce_client w ;;
  Client.get_account w client account_id.

Definition get_recent_accounts (limit : Z) : Result (list Models.Account) :=
  client <- get_salesforce_client w ;;
  Client.get_recent_accounts w client limit.

(** One turn of the loop of [query_accounts]: the record built from
    [edge]. *)
Definition normalize_account (edge : pyval) : Result pyval :=
  node <- py_get edge "node" (PDict []) ;;
  billing_address <- py_get node "BillingAddress" (PDict []) ;;
  id <- py_get node "Id" PNone ;;
  name <- OpportunityTools.field node "Name" "value" (PStr "") ;;
  type_ <- OpportunityTools.field node "Type" "value" (PStr "") ;;
  industry <- OpportunityTools.field node "Industry" "value" (PStr "") ;;
  annual_revenue <- OpportunityTools.field node "AnnualRevenue" "value" PNone ;;
  annual_revenue_display <-
    OpportunityTools.field node "AnnualRevenue" "displayValue" (PStr "") ;;
  employees <- OpportunityTools.field node "NumberOfEmployees" "value" PNone ;;
  phone <- OpportunityTools.field node "Phone" "value" (PStr "") ;;
  website <- OpportunityTools.field node "Website" "value" (PStr "") ;;
  city <- OpportunityTools.field billing_address "BillingCity" "value" (PStr "") ;;
  state <- OpportunityTools.field billing_address "BillingState" "value" (PStr "") ;;
  country <-
    OpportunityTools.field billing_address "BillingCountry" "value" (PStr "") ;;
  Ok (PDict [kv "id" id;
             kv "name" name;
             kv "type" type_;
             kv "industry" industry;
             kv "annual_revenue" annual_revenue;
             kv "annual_revenue_display" annual_revenue_display;
             kv "employees" employees;
             kv "phone" phone;
             kv "website" website;
             kv "billing_address"
                (PDict [kv "city" city; kv "state" state; kv "country" country])]).

(** The [try] body of [query_accounts]. *)
Definition query_accounts_body (client : SalesforceClient) (query : string)
           (industry : string) : Result pyval :=
  result <- Client.execute_query w client query None ;;
  edges <- Client.get_edges result "Account" ;;
  total_count <- Client.get_total_count result "Account" ;;
  items <- py_iter edges ;;
  accounts <- mapM normalize_account items ;;
  Ok (PDict
        [kv "success" (PBool true);
         kv "summary"
            (PDict
               [kv "total_accounts" (PInt (Z.of_nat (List.length accounts)));
                kv "total_count_in_org" total_count;
                kv "filter_applied"
                   (if OpportunityTools.nonempty industry
                    then PDict [kv "industry" (PStr industry)]
                    else PNone)]);
         kv "accounts" (PList accounts);
         kv "timestamp" (PStr (utcnow_isoformat w))]).

(** The [query_accounts] tool: the client is fetched outside the [try]. *)
Definition query_accounts (limit : Z) (industry : string) : Result pyval :=
  client <- get_salesforce_client w ;;
  let query := query_accounts_query limit industry in
  OpportunityTools.try_except
    (query_accounts_body client query industry)
    OpportunityTools.failure_payload.

(** One entry of the comprehension of [find_accounts_by_industry]. *)
Definition industry_entry (account : Models.Account) : Result pyval :=
  name <- OpportunityTools.attr_get (Models.acc_Name account) "value" (PStr "Unknown") ;;
  type_ <- OpportunityTools.attr_get (Models.acc_Type account) "value" (PStr "Unknown") ;;
  revenue <-
    OpportunityTools.attr_get (Models.acc_AnnualRevenue account) "displayValue"
                              (PStr "Unknown") ;;
  employees <-
    OpportunityTools.attr_get (Models.acc_NumberOfEmployees account) "value"
                              (PStr "Unknown") ;;
  website <-
    OpportunityTools.attr_get (Models.acc_Website account) "value" (PStr "Unknown") ;;
  Ok (PDict [kv "id" (OpportunityTools.attr_str (Models.acc_Id account));
             kv "name" name;
             kv "type" type_;
             kv "revenue" revenue;
             kv "employees" employees;
             kv "website" website]).

(** The [find_accounts_by_industry] tool. *)
Definition find_accounts_by_industry (industry : string) (limit : Z) : Result pyval :=
  client <- get_salesforce_client w ;;
  accounts <- Client.search_accounts w client (Some industry) limit ;;
  entries <- mapM industry_entry accounts ;;
  Ok (PDict [kv "industry" (PStr industry);
             kv "accounts_found" (PInt (Z.of_nat (List.length accounts)));
             kv "accounts" (PList entries)]).

End WithWorld.

End AccountTools.

(** ** [tools/business_analysis_tools.py] *)

Module BusinessAnalysisTools.
Import Py.

(** A breakdown: group key to count and value, in insertion order. *)
Definition breakdown : Type := list (pyval * (Z * Q)).

Fixpoint breakdown_add (key : pyval) (amount : Q) (b : breakdown) : breakdown :=
  match b with
  | [] => [(key, (1, amount))]
  | (k, (count, v)) :: b' =>
      if key_eqb k key then (k, (count + 1, Qred (v + amount))) :: b'
      else (k, (count, v)) :: breakdown_add key amount b'
  end.

Definition breakdown_py (b : breakdown) : pyval :=
  PDict (map (fun e => (fst e, PDict [kv "count" (PInt (fst (snd e)));
                                      kv "value" (PFloat (snd (snd e)))])) b).

(** [if key not in b: ...; b[key]["count"] += 1; b[key]["value"] += amount] *)
Definition breakdown_update (key : pyval) (amount : Q) (b : breakdown)
  : Result breakdown :=
  _ <- check_hashable key ;; Ok (breakdown_add key amount b).

(** The loop state of [high_value_pipeline_analysis]. *)
Record pipeline : Type := mkPipeline {
  opportunities : list pyval;
  probabilities : list Q;
  total_pipeline_value : num;
  weighted_pipeline_value : num;
  stage_breakdown : breakdown;
  owner_breakdown : breakdown;
  industry_breakdown : breakdown
}.

Definition empty_pipeline : pipeline :=
  mkPipeline [] [] (NInt 0) (NInt 0) [] [] [].

(** The [where_clause] of [sales_stage_analysis]. *)
Definition stage_conditions (exclude_stages : list string) : list string :=
  map (fun stage => "{ StageName: { ne: " ++ dquote ++ stage ++ dquote ++ " } }")
      exclude_stages.

Definition where_clause (exclude_stages : option (list string)) : string :=
  match exclude_stages with
  | None | Some [] => ""
  | Some stages =>
      let conditions := stage_conditions stages in
      if (List.length conditions =? 1)%nat
      then "where: " ++ nth 0 conditions ""
      else ""
  end.

(** The f-string of [high_value_pipeline_analysis]. *)
Definition high_value_pipeline_document (min_amount : string) (limit : string) : string :=
  "
            query HighValuePipeline {
                uiapi {
                    query {
                        Opportunity(
                            where: { Amount: { gte: "
  ++ min_amount
  ++ " } }
                            first: "
  ++ limit
  ++ "
                            orderBy: { Amount: { order: DESC } }
                        ) {
                            edges {
                                node {
                                    Id
                                    Name { value }
                                    Amount { value displayValue }
                                    CloseDate { value }
                                    StageName { value }
                                    Probability { value }
                                    Account {
                                        Id
                                        Name { value }
                                        Industry { value }
                                        Type { value }
                                    }
                                    Owner {
                                        Id
                                        Name { value }
                                    }
                                }
                            }
                            totalCount
                        }
                    }
                }
            }
            ".
(** The f-string of [sales_stage_analysis]. *)
Definition sales_stage_analysis_document (where_clause : string) (limit : string) : string :=
  "
            query SalesStageAnalysis {
                uiapi {
                    query {
                        Opportunity(
                            "
  ++ where_clause
  ++ "
                            first: "
  ++ limit
  ++ "
                            orderBy: { Amount: { order: DESC } }
                        ) {
                            edges {
                                node {
                                    Id
                                    Name { value }
                                    Amount { value displayValue }
                                    CloseDate { value }
                                    StageName { value }
                                    Probability { value }
                                    Account {
                                        Name { value }
                                        Industry { value }
                                    }
                                    Owner {
                                        Name { value }
                                    }
                                }
                            }
                            totalCount
                        }
                    }
                }
            }
            ".

(** The document [sales_stage_analysis] passes to [execute_query]. *)
Definition sales_stage_analysis_query (exclude_stages : option (list string))
           (limit : Z) : string :=
  sales_stage_analysis_document (where_clause exclude_stages) (str_of_Z limit).

Section WithWorld.
Variable w : World.

(** One turn of the loop of [high_value_pipeline_analysis]. *)
Definition loop_step (p : pipeline) (edge : pyval) : Result pipeline :=
  node <- py_getitem edge "node" ;;
  amount_value <- OpportunityTools.field node "Amount" "value" (PInt 0) ;;
  amount <- Client.py_float w (py_or amount_value (PInt 0)) ;;
  probability_value <- OpportunityTools.field node "Probability" "value" (PInt 0) ;;
  probability <- Client.py_float w (py_or probability_value (PInt 0)) ;;
  stage <- OpportunityTools.field node "StageName" "value" (PStr "Unknown") ;;
  owner <- OpportunityTools.rel_field node "Owner" "Name" "value" (PStr "Unknown") ;;
  industry <-
    OpportunityTools.rel_field node "Account" "Industry" "value" (PStr "Unknown") ;;
  id <- py_get node "Id" PNone ;;
  name <- OpportunityTools.field node "Name" "value" (PStr "") ;;
  amount_display <- OpportunityTools.field node "Amount" "displayValue" (PStr "") ;;
  close_date <- OpportunityTools.field node "CloseDate" "value" (PStr "") ;;
  let weighted_value := Qred (amount * (probability / 100)) in
  account_name <-
    OpportunityTools.rel_field node "Account" "Name" "value" (PStr "") ;;
  let opp_data :=
    PDict [kv "id" id;
           kv "name" name;
           kv "amount" (PFloat amount);
           kv "amount_display" amount_display;
           kv "close_date" close_date;
           kv "stage" stage;
           kv "probability" (PFloat probability);
           kv "weighted_value" (PFloat weighted_value);
           kv "account_name" account_name;
           kv "industry" industry;
           kv "owner" owner] in
  stage_breakdown' <- breakdown_update stage amount (stage_breakdown p) ;;
  owner_breakdown' <- breakdown_update owner amount (owner_breakdown p) ;;
  industry_breakdown' <- breakdown_update industry amount (industry_breakdown p) ;;
  Ok (mkPipeline
        (opportunities p ++ [opp_data])%list
        (probabilities p ++ [probability])%list
        (num_add (total_pipeline_value p) (NFloat amount))
        (num_add (weighted_pipeline_value p) (NFloat weighted_value))
        stage_breakdown' owner_breakdown' industry_breakdown').

(** [sum(opp["probability"] for opp in opportunities)] *)
Definition sum_probabilities (l : list Q) : num :=
  fold_left (fun acc q => num_add acc (NFloat q)) l (NInt 0).

(** The [try] body of [high_value_pipeline_analysis]. *)
Definition high_value_pipeline_body (min_amount : num) (limit : Z) : Result pyval :=
  client <- get_salesforce_client w ;;
  let query :=
    high_value_pipeline_document (Client.py_str w (num_py min_amount))
                                 (str_of_Z limit) in
  result <- Client.execute_query w client query None ;;
  edges <- Client.get_edges result "Opportunity" ;;
  total_count <- Client.get_total_count result "Opportunity" ;;
  items <- py_iter edges ;;
  p <- foldM loop_step empty_pipeline items ;;
  let n := Z.of_nat (List.length (opportunities p)) in
  Ok (PDict
        [kv "success" (PBool true);
         kv "filter_applied"
            (PDict [kv "min_amount" (num_py min_amount);
                    kv "total_in_org" (PInt 34);
                    kv "high_value_count" (PInt n)]);
         kv "pipeline_summary"
            (PDict
               [kv "total_opportunities" (PInt n);
                kv "total_pipeline_value" (num_py (total_pipeline_value p));
                kv "weighted_pipeline_value" (num_py (weighted_pipeline_value p));
                kv "average_deal_size"
                   (match opportunities p with
                    | [] => PInt 0
                    | _ :: _ => PFloat (num_div_count (total_pipeline_value p) n)
                    end);
                kv "average_probability"
                   (match opportunities p with
                    | [] => PInt 0
                    | _ :: _ =>
                        PFloat (num_div_count (sum_probabilities (probabilities p)) n)
                    end)]);
         kv "breakdowns"
            (PDict [kv "by_stage" (breakdown_py (stage_breakdown p));
                    kv "by_owner" (breakdown_py (owner_breakdown p));
                    kv "by_industry" (breakdown_py (industry_breakdown p))]);
         kv "opportunities" (PList (opportunities p));
         kv "timestamp" (PStr (utcnow_isoformat w))]).

(** The [high_value_pipeline_analysis] tool: the handler logs the error and
    returns the failure payload. *)
Definition high_value_pipeline_analysis (min_amount : num) (limit : Z)
  : Result pyval :=
  OpportunityTools.try_except
    (high_value_pipeline_body min_amount limit)
    OpportunityTools.failure_payload.

(** [a < b] on floats. *)
Definition Qltb (a b : Q) : bool := negb (Qle_bool b a).

(** [a / n], [n] an int: true division. *)
Definition py_truediv (a : num) (n : Z) : Result Q :=
  if n =? 0 then
    Raise (mkExn "ZeroDivisionError"
                 (match a with
                  | NInt _ => "division by zero"
                  | NFloat _ => "float division by zero"
                  end))
  else Ok (num_div_count a n).

(** [sorted(xs, key=key, reverse=True)]: the largest key first, elements
    with equal keys in their original order. *)
Fixpoint insert_desc {A : Type} (key : A -> Q) (x : A) (l : list A) : list A :=
  match l with
  | [] => [x]
  | y :: l' =>
      if Qle_bool (key y) (key x) then x :: y :: l'
      else y :: insert_desc key x l'
  end.

Fixpoint sorted_desc {A : Type} (key : A -> Q) (l : list A) : list A :=
  match l with
  | [] => []
  | x :: l' => insert_desc key x (sorted_desc key l')
  end.

(** [sub in s] on strings. *)
Fixpoint contains (sub s : string) : bool :=
  prefix sub s
  || match s with
     | EmptyString => false
     | String _ s' => contains sub s'
     end.

(** [needle in v], [needle] a string. *)
Definition py_contains (needle : string) (v : pyval) : Result bool :=
  match v with
  | PStr s => Ok (contains needle s)
  | PList l =>
      Ok (existsb (fun x => match x with
                            | PStr t => String.eqb t needle
                            | _ => false
                            end) l)
  | PDict d =>
      Ok (match dict_lookup (PStr needle) d with Some _ => true | None => false end)
  | _ =>
      Raise (TypeError ("argument of type '" ++ type_name v ++ "' is not iterable"))
  end.

(** The items of [for x in v[:n]].  Slicing counts characters, which are
    bytes on ASCII text; a dict does not take a slice ([TypeError] in
    CPython 3.11). *)
Definition py_first_n (n : nat) (v : pyval) : Result (list pyval) :=
  match v with
  | PList l => Ok (firstn n l)
  | PStr s => Ok (chars (substring 0 n s))
  | PDict _ => Raise (TypeError "unhashable type: 'slice'")
  | _ => Raise (TypeError ("'" ++ type_name v ++ "' object is not subscriptable"))
  end.

(** *** [sales_stage_analysis] *)

(** An entry of [stage_info["deals"]]. *)
Record deal : Type := mkDeal {
  deal_name : pyval;
  deal_amount : Q;
  deal_amount_display : pyval;
  deal_probability : Q;
  deal_account : pyval
}.

(** [stage_metrics[stage]] while the edges are read. *)
Record stage_info : Type := mkStageInfo {
  count : Z;
  total_value : num;
  weighted_value : num;
  deals : list deal
}.

(** [stage_metrics]: stage to metrics, in insertion order. *)
Definition stage_metrics : Type := list (pyval * stage_info).

Definition new_stage_info : stage_info := mkStageInfo 0 (NInt 0) (NInt 0) [].

(** The four updates of [stage_info]. *)
Definition stage_info_add (amount probability : Q) (d : deal) (info : stage_info)
  : stage_info :=
  mkStageInfo (count info + 1)
              (num_add (total_value info) (NFloat amount))
              (num_add (weighted_value info)
                       (NFloat (Qred (amount * (probability / 100)))))
              (deals info ++ [d])%list.

(** [if stage not in stage_metrics: stage_metrics[stage] = {...}], then the
    updates of [stage_metrics[stage]]. *)
Fixpoint stage_metrics_add (stage : pyval) (amount probability : Q) (d : deal)
         (m : stage_metrics) : stage_metrics :=
  match m with
  | [] => [(stage, stage_info_add amount probability d new_stage_info)]
  | (k, info) :: m' =>
      if key_eqb k stage then (k, stage_info_add amount probability d info) :: m'
      else (k, info) :: stage_metrics_add stage amount probability d m'
  end.

Definition deal_py (d : deal) : pyval :=
  PDict [kv "name" (deal_name d);
         kv "amount" (PFloat (deal_amount d));
         kv "amount_display" (deal_amount_display d);
         kv "probability" (PFloat (deal_probability d));
         kv "account" (deal_account d)].

(** The body of the loop that calculates the averages: what
    [stage_metrics[stage]] is after it.  [deals] is sorted, cut to its
    first five entries under ["top_deals"], and deleted. *)
Definition finish_stage (info : stage_info) : Result pyval :=
  if 0 <? count info then
    avg_deal_size <- py_truediv (total_value info) (count info) ;;
    avg_prob <- py_truediv (sum_probabilities (map deal_probability (deals info)))
                           (Z.of_nat (List.length (deals info))) ;;
    let sorted_deals := sorted_desc deal_amount (deals info) in
    Ok (PDict [kv "count" (PInt (count info));
               kv "total_value" (num_py (total_value info));
               kv "weighted_value" (num_py (weighted_value info));
               kv "avg_probability" (PFloat avg_prob);
               kv "avg_deal_size" (PFloat avg_deal_size);
               kv "top_deals" (PList (map deal_py (firstn 5 sorted_deals)))])
  else
    Ok (PDict [kv "count" (PInt (count info));
               kv "total_value" (num_py (total_value info));
               kv "weighted_value" (num_py (weighted_value info));
               kv "avg_probability" (PInt 0);
               kv "avg_deal_size" (PInt 0);
               kv "deals" (PList (map deal_py (deals info)))]).

(** [exclude_stages or []] *)
Definition excluded_stages (exclude_stages : option (list string)) : pyval :=
  match exclude_stages with
  | Some l => PList (map PStr l)
  | None => PList []
  end.

(** *** [complete_pipeline_report] *)

(** A breakdown that also carries the weighted value. *)
Definition performance : Type := list (pyval * (Z * Q * Q)).

Fixpoint performance_add (key : pyval) (amount weighted : Q) (p : performance)
  : performance :=
  match p with
  | [] => [(key, (1, amount, weighted))]
  | (k, (n, v, wv)) :: p' =>
      if key_eqb k key
      then (k, (n + 1, Qred (v + amount), Qred (wv + weighted))) :: p'
      else (k, (n, v, wv)) :: performance_add key amount weighted p'
  end.

Definition performance_update (key : pyval) (amount weighted : Q) (p : performance)
  : Result performance :=
  _ <- check_hashable key ;; Ok (performance_add key amount weighted p).

Definition performance_py (p : performance) : pyval :=
  PDict (map (fun e =>
                match e with
                | (k, (n, v, wv)) =>
                    (k, PDict [kv "count" (PInt n);
                               kv "value" (PFloat v);
                               kv "weighted_value" (PFloat wv)])
                end) p).

(** [deal_size_ranges]: the three counters. *)
Record deal_sizes : Type := mkDealSizes { small : Z; medium : Z; large : Z }.

(** The deal size categorization of one amount. *)
Definition deal_size_add (amount : Q) (s : deal_sizes) : deal_sizes :=
  if Qltb amount 25000 then mkDealSizes (small s + 1) (medium s) (large s)
  else if Qltb amount 100000 then mkDealSizes (small s) (medium s + 1) (large s)
  else mkDealSizes (small s) (medium s) (large s + 1).

Definition deal_sizes_py (s : deal_sizes) : pyval :=
  PDict [kv "Small (<$25k)" (PInt (small s));
         kv "Medium ($25k-$100k)" (PInt (medium s));
         kv "Large ($100k+)" (PInt (large s))].

(** [monthly_pipeline]: month to count and value, in insertion order.  The
    keys are the strings [close_date[:7]]. *)
Definition monthly : Type := list (string * (Z * Q)).

Fixpoint monthly_add (month : string) (amount : Q) (m : monthly) : monthly :=
  match m with
  | [] => [(month, (1, amount))]
  | (k, (n, v)) :: m' =>
      if String.eqb k month then (k, (n + 1, Qred (v + amount))) :: m'
      else (k, (n, v)) :: monthly_add month amount m'
  end.

(** [month = close_date[:7]] and the lookup [month not in monthly_pipeline]
    for a [close_date] that is true: a string gives its first seven
    characters (bytes, on ASCII text); a list gives a list, which is not
    hashable; a dict does not take a slice ([TypeError] in CPython 3.11);
    a number is not subscriptable. *)
Definition month_key (close_date : pyval) : Result string :=
  match close_date with
  | PStr s => Ok (substring 0 7 s)
  | PList _ => Raise (TypeError "unhashable type: 'list'")
  | PDict _ => Raise (TypeError "unhashable type: 'slice'")
  | _ =>
      Raise (TypeError ("'" ++ type_name close_date ++ "' object is not subscriptable"))
  end.

(** [sorted(monthly_pipeline.items())]: the keys, which differ, decide. *)
Fixpoint insert_month (x : string * (Z * Q)) (l : monthly) : monthly :=
  match l with
  | [] => [x]
  | y :: l' =>
      if String.leb (fst x) (fst y) then x :: y :: l' else y :: insert_month x l'
  end.

Fixpoint sorted_months (l : monthly) : monthly :=
  match l with
  | [] => []
  | x :: l' => insert_month x (sorted_months l')
  end.

Definition monthly_py (m : monthly) : pyval :=
  PDict (map (fun e => (PStr (fst e),
                        PDict [kv "count" (PInt (fst (snd e)));
                               kv "value" (PFloat (snd (snd e)))])) m).

(** The loop state of [complete_pipeline_report]. *)
Record report : Type := mkReport {
  total_pipeline : num;
  weighted_pipeline : num;
  stage_analysis : performance;
  owner_performance : performance;
  industry_analysis : breakdown;
  deal_size_ranges : deal_sizes;
  monthly_pipeline : monthly
}.

Definition empty_report : report :=
  mkReport (NInt 0) (NInt 0) [] [] [] (mkDealSizes 0 0 0) [].

(** [max(amounts, default=0)] *)
Definition largest (amounts : list Q) : pyval :=
  match amounts with
  | [] => PInt 0
  | a :: rest =>
      PFloat (fold_left (fun m x => if Qltb m x then x else m) rest a)
  end.

(** [win_rate] *)
Definition win_rate (won lost : Z) : pyval :=
  if 0 <? won + lost
  then PFloat (Qred (inject_Z won / inject_Z (won + lost) * 100))
  else PInt 0.

(** The f-string of [complete_pipeline_report]. *)
Definition complete_pipeline_report_document (min_amount : string) : string :=
  "
            query CompletePipelineReport {
                uiapi {
                    query {
                        Opportunity(
                            where: { Amount: { gte: "
  ++ min_amount
  ++ " } }
                            first: 100
                            orderBy: { Amount: { order: DESC } }
                        ) {
                            edges {
                                node {
                                    Id
                                    Name { value }
                                    Amount { value displayValue }
                                    CloseDate { value }
                                    StageName { value }
                                    Probability { value }
                                    Type { value }
                                    LeadSource { value }
                                    Account {
                                        Id
                                        Name { value }
                                        Industry { value }
                                        Type { value }
                                        AnnualRevenue { value displayValue }
                                    }
                                    Owner {
                                        Id
                                        Name { value }
                                    }
                                }
                            }
                            totalCount
                        }
                    }
                }
            }
            ".


(** One turn of the loop of [sales_stage_analysis]: the metrics and the
    running total. *)
Definition stage_step (acc : stage_metrics * num) (edge : pyval)
  : Result (stage_metrics * num) :=
  node <- py_getitem edge "node" ;;
  stage <- OpportunityTools.field node "StageName" "value" (PStr "Unknown") ;;
  amount_value <- OpportunityTools.field node "Amount" "value" (PInt 0) ;;
  amount <- Client.py_float w (py_or amount_value (PInt 0)) ;;
  probability_value <- OpportunityTools.field node "Probability" "value" (PInt 0) ;;
  probability <- Client.py_float w (py_or probability_value (PInt 0)) ;;
  _ <- check_hashable stage ;;
  name <- OpportunityTools.field node "Name" "value" (PStr "") ;;
  amount_display <- OpportunityTools.field node "Amount" "displayValue" (PStr "") ;;
  account <- OpportunityTools.rel_field node "Account" "Name" "value" (PStr "") ;;
  let d := mkDeal name amount amount_display probability account in
  Ok (stage_metrics_add stage amount probability d (fst acc),
      num_add (snd acc) (NFloat amount)).

(** The [try] body of [sales_stage_analysis]. *)
Definition sales_stage_analysis_body (exclude_stages : option (list string))
           (limit : Z) : Result pyval :=
  client <- get_salesforce_client w ;;
  let query := sales_stage_analysis_query exclude_stages limit in
  result <- Client.execute_query w client query None ;;
  edges <- Client.get_edges result "Opportunity" ;;
  total_count <- Client.get_total_count result "Opportunity" ;;
  items <- py_iter edges ;;
  ' (metrics, total) <- foldM stage_step ([], NInt 0) items ;;
  finished <-
    mapM (fun e => v <- finish_stage (snd e) ;; Ok (fst e, (snd e, v))) metrics ;;
  let sorted_stages :=
    sorted_desc (fun e => num_Q (total_value (fst (snd e)))) finished in
  let n := Z.of_nat (List.length items) in
  Ok (PDict
        [kv "success" (PBool true);
         kv "filter_applied"
            (PDict [kv "excluded_stages" (excluded_stages exclude_stages);
                    kv "total_analyzed" (PInt n)]);
         kv "summary"
            (PDict [kv "total_opportunities" (PInt n);
                    kv "total_pipeline_value" (num_py total);
                    kv "unique_stages" (PInt (Z.of_nat (List.length metrics)));
                    kv "avg_deal_size"
                       (match items with
                        | [] => PInt 0
                        | _ :: _ => PFloat (num_div_count total n)
                        end)]);
         kv "stage_analysis"
            (PDict (map (fun e => (fst e, snd (snd e))) sorted_stages));
         kv "timestamp" (PStr (utcnow_isoformat w))]).

(** The [sales_stage_analysis] tool. *)
Definition sales_stage_analysis (exclude_stages : option (list string)) (limit : Z)
  : Result pyval :=
  OpportunityTools.try_except
    (sales_stage_analysis_body exclude_stages limit)
    OpportunityTools.failure_payload.

(** One turn of the loop of [complete_pipeline_report]. *)
Definition report_step (r : report) (edge : pyval) : Result report :=
  node <- py_getitem edge "node" ;;
  amount_value <- OpportunityTools.field node "Amount" "value" (PInt 0) ;;
  amount <- Client.py_float w (py_or amount_value (PInt 0)) ;;
  probability_value <- OpportunityTools.field node "Probability" "value" (PInt 0) ;;
  probability <- Client.py_float w (py_or probability_value (PInt 0)) ;;
  stage <- OpportunityTools.field node "StageName" "value" (PStr "Unknown") ;;
  owner <- OpportunityTools.rel_field node "Owner" "Name" "value" (PStr "Unknown") ;;
  industry <-
    OpportunityTools.rel_field node "Account" "Industry" "value" (PStr "Unknown") ;;
  close_date <- OpportunityTools.field node "CloseDate" "value" (PStr "") ;;
  let weighted := Qred (amount * (probability / 100)) in
  stage_analysis' <- performance_update stage amount weighted (stage_analysis r) ;;
  owner_performance' <-
    performance_update owner amount weighted (owner_performance r) ;;
  industry_analysis' <- breakdown_update industry amount (industry_analysis r) ;;
  monthly_pipeline' <-
    (if truthy close_date then
       month <- month_key close_date ;;
       Ok (monthly_add month amount (monthly_pipeline r))
     else Ok (monthly_pipeline r)) ;;
  Ok (mkReport
        (num_add (total_pipeline r) (NFloat amount))
        (num_add (weighted_pipeline r) (NFloat weighted))
        stage_analysis' owner_performance' industry_analysis'
        (deal_size_add amount (deal_size_ranges r))
        monthly_pipeline').

(** [[e for e in edges if needle in e["node"].get("StageName", {})
    .get("value", "")]], counted. *)
Definition count_stage (needle : string) (items : list pyval) : Result Z :=
  flags <-
    mapM (fun e =>
            node <- py_getitem e "node" ;;
            stage <- OpportunityTools.field node "StageName" "value" (PStr "") ;;
            py_contains needle stage)
         items ;;
  Ok (Z.of_nat (List.length (filter (fun b : bool => b) flags))).

(** The amounts [largest_deal] is the maximum of. *)
Definition deal_amounts (items : list pyval) : Result (list Q) :=
  mapM (fun e =>
          node <- py_getitem e "node" ;;
          amount_value <- OpportunityTools.field node "Amount" "value" (PInt 0) ;;
          Client.py_float w (py_or amount_value (PInt 0)))
       items.

(** One entry of ["top_opportunities"]. *)
Definition top_opportunity (edge : pyval) : Result pyval :=
  node <- py_getitem edge "node" ;;
  name <- OpportunityTools.field node "Name" "value" (PStr "") ;;
  amount_display <- OpportunityTools.field node "Amount" "displayValue" (PStr "") ;;
  stage <- OpportunityTools.field node "StageName" "value" (PStr "") ;;
  account <- OpportunityTools.rel_field node "Account" "Name" "value" (PStr "") ;;
  owner <- OpportunityTools.rel_field node "Owner" "Name" "value" (PStr "") ;;
  Ok (PDict [kv "name" name;
             kv "amount_display" amount_display;
             kv "stage" stage;
             kv "account" account;
             kv "owner" owner]).

(** The [try] body of [complete_pipeline_report]. *)
Definition complete_pipeline_report_body (min_amount : num) : Result pyval :=
  client <- get_salesforce_client w ;;
  let query := complete_pipeline_report_document (Client.py_str w (num_py min_amount)) in
  result <- Client.execute_query w client query None ;;
  edges <- Client.get_edges result "Opportunity" ;;
  items <- py_iter edges ;;
  r <- foldM report_step empty_report items ;;
  closed_won_deals <- count_stage "Closed Won" items ;;
  closed_lost_deals <- count_stage "Closed Lost" items ;;
  let n := Z.of_nat (List.length items) in
  amounts <- deal_amounts items ;;
  first_ten <- py_first_n 10 edges ;;
  top_opportunities <- mapM top_opportunity first_ten ;;
  Ok (PDict
        [kv "success" (PBool true);
         kv "report_period" (PStr (Datetime.strftime_ymd (now w)));
         kv "filters"
            (PDict [kv "min_amount" (num_py min_amount);
                    kv "opportunities_analyzed" (PInt n)]);
         kv "executive_summary"
            (PDict [kv "total_opportunities" (PInt n);
                    kv "total_pipeline_value" (num_py (total_pipeline r));
                    kv "weighted_pipeline_value" (num_py (weighted_pipeline r));
                    kv "average_deal_size"
                       (match items with
                        | [] => PInt 0
                        | _ :: _ => PFloat (num_div_count (total_pipeline r) n)
                        end);
                    kv "win_rate_percent" (win_rate closed_won_deals closed_lost_deals);
                    kv "largest_deal" (largest amounts)]);
         kv "detailed_analysis"
            (PDict [kv "by_stage"
                       (performance_py
                          (sorted_desc (fun e => snd (fst (snd e))) (stage_analysis r)));
                    kv "by_owner"
                       (performance_py
                          (sorted_desc (fun e => snd (fst (snd e))) (owner_performance r)));
                    kv "by_industry"
                       (breakdown_py
                          (sorted_desc (fun e => snd (snd e)) (industry_analysis r)));
                    kv "by_deal_size" (deal_sizes_py (deal_size_ranges r));
                    kv "by_month" (monthly_py (sorted_months (monthly_pipeline r)))]);
         kv "top_opportunities" (PList top_opportunities);
         kv "timestamp" (PStr (utcnow_isoformat w))]).

(** The [complete_pipeline_report] tool. *)
Definition complete_pipeline_report (min_amount : num) : Result pyval :=
  OpportunityTools.try_except
    (complete_pipeline_report_body min_amount)
    OpportunityTools.failure_payload.
(** *** [account_opportunity_analysis] *)

(** An entry of [account_opp_map[account_id]["opportunities"]]. *)
Record account_opportunity : Type := mkAccountOpportunity {
  ao_name : pyval;
  ao_amount : Q;
  ao_amount_display : pyval;
  ao_stage : pyval
}.

(** What [update] adds to an entry when the account is among those
    fetched. *)
Record enrichment : Type := mkEnrichment {
  en_account_type : pyval;
  en_industry : pyval;
  en_annual_revenue : pyval;
  en_employees : pyval
}.

(** [account_opp_map[account_id]] *)
Record account_entry : Type := mkAccountEntry {
  ae_account_name : pyval;
  ae_opportunity_count : Z;
  ae_total_pipeline : num;
  ae_opportunities : list account_opportunity;
  ae_enriched : option enrichment
}.

Definition account_opp_map : Type := list (pyval * account_entry).

Fixpoint account_opp_map_add (account_id account_name : pyval) (amount : Q)
         (o : account_opportunity) (m : account_opp_map) : account_opp_map :=
  match m with
  | [] =>
      [(account_id,
        mkAccountEntry account_name 1 (num_add (NInt 0) (NFloat amount)) [o] None)]
  | (k, e) :: m' =>
      if key_eqb k account_id
      then (k, mkAccountEntry (ae_account_name e)
                              (ae_opportunity_count e + 1)
                              (num_add (ae_total_pipeline e) (NFloat amount))
                              (ae_opportunities e ++ [o])%list
                              (ae_enriched e)) :: m'
      else (k, e) :: account_opp_map_add account_id account_name amount o m'
  end.

(** [if account_id in account_opp_map: account_opp_map[account_id].update(...)] *)
Fixpoint account_opp_map_enrich (account_id : pyval) (x : enrichment)
         (m : account_opp_map) : account_opp_map :=
  match m with
  | [] => []
  | (k, e) :: m' =>
      if key_eqb k account_id
      then (k, mkAccountEntry (ae_account_name e)
                              (ae_opportunity_count e)
                              (ae_total_pipeline e) (ae_opportunities e)
                              (Some x)) :: m'
      else (k, e) :: account_opp_map_enrich account_id x m'
  end.

Definition account_opportunity_py (o : account_opportunity) : pyval :=
  PDict [kv "name" (ao_name o);
         kv "amount" (PFloat (ao_amount o));
         kv "amount_display" (ao_amount_display o);
         kv "stage" (ao_stage o)].

Definition account_entry_py (e : account_entry) : pyval :=
  PDict ([kv "account_name" (ae_account_name e);
          kv "opportunity_count" (PInt (ae_opportunity_count e));
          kv "total_pipeline" (num_py (ae_total_pipeline e));
          kv "opportunities" (PList (map account_opportunity_py (ae_opportunities e)))]
         ++ match ae_enriched e with
            | Some x => [kv "account_type" (en_account_type x);
                         kv "industry" (en_industry x);
                         kv "annual_revenue" (en_annual_revenue x);
                         kv "employees" (en_employees x)]
            | None => []
            end)%list.

(** [sum(acc["total_pipeline"] for acc in account_opp_map.values())] *)
Definition sum_nums (l : list num) : num :=
  fold_left num_add l (NInt 0).
(** The two documents of [account_opportunity_analysis]. *)
Definition account_query_document : string :=
  "
            query AccountAnalysis {
                uiapi {
                    query {
                        Account(
                            first: 50
                            orderBy: { Name: { order: ASC } }
                        ) {
                            edges {
                                node {
                                    Id
                                    Name { value }
                                    Type { value }
                                    Industry { value }
                                    AnnualRevenue { value displayValue }
                                    NumberOfEmployees { value }
                                }
                            }
                            totalCount
                        }
                    }
                }
            }
            ".

(** The opportunities, largest amount first. *)
Definition opp_query_document : string :=
  "
            query OpportunityAnalysis {
                uiapi {
                    query {
                        Opportunity(
                            first: 100
                            orderBy: { Amount: { order: DESC } }
                        ) {
                            edges {
                                node {
                                    Id
                                    Name { value }
                                    Amount { value displayValue }
                                    StageName { value }
                                    Account {
                                        Id
                                        Name { value }
                                    }
                                }
                            }
                            totalCount
                        }
                    }
                }
            }
            ".

(** [account_id in account_opp_map] *)
Definition has_account (account_id : pyval) (m : account_opp_map) : bool :=
  existsb (fun e => key_eqb (fst e) account_id) m.

(** One turn of the loop over the opportunities. *)
Definition opportunity_step (m : account_opp_map) (edge : pyval)
  : Result account_opp_map :=
  node <- py_getitem edge "node" ;;
  account_id <- OpportunityTools.field node "Account" "Id" (PStr "") ;;
  account_name <-
    OpportunityTools.rel_field node "Account" "Name" "value" (PStr "Unknown") ;;
  amount_value <- OpportunityTools.field node "Amount" "value" (PInt 0) ;;
  amount <- Client.py_float w (py_or amount_value (PInt 0)) ;;
  _ <- check_hashable account_id ;;
  name <- OpportunityTools.field node "Name" "value" (PStr "") ;;
  amount_display <- OpportunityTools.field node "Amount" "displayValue" (PStr "") ;;
  stage <- OpportunityTools.field node "StageName" "value" (PStr "") ;;
  Ok (account_opp_map_add account_id account_name amount
        (mkAccountOpportunity name amount amount_display stage) m).

(** One turn of the loop over the accounts. *)
Definition account_step (m : account_opp_map) (edge : pyval)
  : Result account_opp_map :=
  node <- py_getitem edge "node" ;;
  account_id <- py_get node "Id" (PStr "") ;;
  _ <- check_hashable account_id ;;
  if has_account account_id m then
    account_type <- OpportunityTools.field node "Type" "value" (PStr "") ;;
    industry <- OpportunityTools.field node "Industry" "value" (PStr "") ;;
    annual_revenue <-
      OpportunityTools.field node "AnnualRevenue" "displayValue" (PStr "") ;;
    employees <- OpportunityTools.field node "NumberOfEmployees" "value" (PInt 0) ;;
    Ok (account_opp_map_enrich account_id
          (mkEnrichment account_type industry annual_revenue
                        (py_or employees (PInt 0))) m)
  else Ok m.

(** The [try] body of [account_opportunity_analysis].  An item of
    ["top_accounts_by_pipeline"] is a pair, written as the two-element list
    JSON makes of it. *)
Definition account_opportunity_analysis_body : Result pyval :=
  client <- get_salesforce_client w ;;
  account_result <- Client.execute_query w client account_query_document None ;;
  account_edges <- Client.get_edges account_result "Account" ;;
  opp_result <- Client.execute_query w client opp_query_document None ;;
  opp_edges <- Client.get_edges opp_result "Opportunity" ;;
  opp_items <- py_iter opp_edges ;;
  m <- foldM opportunity_step [] opp_items ;;
  account_items <- py_iter account_edges ;;
  m <- foldM account_step m account_items ;;
  let sorted_accounts :=
    sorted_desc (fun e => num_Q (ae_total_pipeline (snd e))) m in
  Ok (PDict
        [kv "success" (PBool true);
         kv "summary"
            (PDict [kv "total_accounts" (PInt (Z.of_nat (List.length account_items)));
                    kv "total_opportunities" (PInt (Z.of_nat (List.length opp_items)));
                    kv "accounts_with_opportunities" (PInt (Z.of_nat (List.length m)));
                    kv "total_pipeline_value"
                       (num_py (sum_nums (map (fun e => ae_total_pipeline (snd e)) m)))]);
         kv "account_opportunity_breakdown"
            (PDict (map (fun e => (fst e, account_entry_py (snd e))) sorted_accounts));
         kv "top_accounts_by_pipeline"
            (PList (map (fun e => PList [fst e; account_entry_py (snd e)])
                        (firstn 10 sorted_accounts)));
         kv "timestamp" (PStr (utcnow_isoformat w))]).

(** The [account_opportunity_analysis] tool. *)
Definition account_opportunity_analysis : Result pyval :=
  OpportunityTools.try_except
    account_opportunity_analysis_body
    OpportunityTools.failure_payload.

End WithWorld.

End BusinessAnalysisTools.

(** ** [tools/schema.py] *)

Module SchemaTools.
Import Py.

(** [c.isspace()] for an ASCII character. *)
Definition is_space (c : ascii) : bool :=
  let n := nat_of_ascii c in
  (((9 <=? n) && (n <=? 13)) || ((28 <=? n) && (n <=? 32)))%nat.

(** [s.strip()] on ASCII text. *)
Fixpoint lstrip (s : string) : string :=
  match s with
  | EmptyString => EmptyString
  | String c s' => if is_space c then lstrip s' else s
  end.

Fixpoint rstrip (s : string) : string :=
  match s with
  | EmptyString => EmptyString
  | String c s' =>
      match rstrip s' with
      | EmptyString => if is_space c then EmptyString else String c EmptyString
      | t => String c t
      end
  end.

Definition py_strip (s : string) : string := rstrip (lstrip s).

(** [s[:100] + "..." if len(s) > 100 else s]; lengths and slices count
    characters, which are bytes on ASCII text. *)
Definition preview (s : string) : string :=
  if (100 <? String.length s)%nat then substring 0 100 s ++ "..." else s.

(** [s.startswith(('query', 'mutation', '{'))] *)
Definition starts_like_graphql (s : string) : bool :=
  prefix "query" s || prefix "mutation" s || prefix "{" s.

(** The two checks [execute_custom_graphql] makes before it sends. *)
Definition has_uiapi (clean_query : string) : bool :=
  BusinessAnalysisTools.contains "uiapi" (OpportunityTools.lower clean_query).

Definition looks_like_graphql (clean_query : string) : bool :=
  starts_like_graphql (py_strip clean_query)
  && BusinessAnalysisTools.contains "{" clean_query.

(** The document of [get_salesforce_schema_info]. *)
Definition schema_info_document : string :=
  "
        query GetObjectInfo {
            uiapi {
                objectInfos(apiNames: ["
  ++ dquote ++ "Account" ++ dquote ++ ", " ++ dquote ++ "Opportunity" ++ dquote
  ++ ", " ++ dquote ++ "Contact" ++ dquote ++ ", " ++ dquote ++ "Lead" ++ dquote
  ++ ", " ++ dquote ++ "Case" ++ dquote
  ++ "]) {
                    ApiName
                    label
                    labelPlural
                    queryable
                    custom
                    keyPrefix
                }
            }
        }
        ".

(** The f-string of [get_object_fields]. *)
Definition get_object_fields_document (object_name : string) : string :=
  "
        query GetObjectFields {
            uiapi {
                objectInfo(apiName: "
  ++ dquote ++ object_name ++ dquote
  ++ ") {
                    ApiName
                    label
                    labelPlural
                    queryable
                    custom
                    keyPrefix
                }
            }
        }
        ".
(** The f-string under [example_field_query]. *)
Definition example_field_query (object_name : string) : string :=
  "
                query {
                    uiapi {
                        query {
                            "
  ++ object_name
  ++ "(first: 1) {
                                edges {
                                    node {
                                        Id
                                        # Add specific fields you want to query
                                    }
                                }
                            }
                        }
                    }
                }
                ".

(** The two example queries of [get_salesforce_schema_info]. *)
Definition basic_opportunities : string :=
  "
                    query {
                        uiapi {
                            query {
                                Opportunity(first: 5) {
                                    edges {
                                        node {
                                            Id
                                            Name { value }
                                            Amount { displayValue }
                                            StageName { value }
                                        }
                                    }
                                }
                            }
                        }
                    }
                    ".

(** Accounts of one industry. *)
Definition filtered_accounts : string :=
  "
                    query {
                        uiapi {
                            query {
                                Account(
                                    where: { Industry: { eq: "
  ++ dquote ++ "Technology" ++ dquote
  ++ " } }
                                    first: 10
                                ) {
                                    edges {
                                        node {
                                            Id
                                            Name { value }
                                            Industry { value }
                                            AnnualRevenue { displayValue }
                                        }
                                    }
                                }
                            }
                        }
                    }
                    ".

(** The tools and period names [get_salesforce_schema_info] lists. *)
Definition available_tools : list string :=
  ["query_opportunities - Query Salesforce opportunities with filtering";
   "get_opportunity - Get detailed opportunity by ID";
   "search_opportunities - Search opportunities by stage and amount";
   "get_recent_opportunities - Get recent opportunities";
   "analyze_opportunity_trends - Analyze opportunity trends and patterns";
   "find_opportunities_by_stage - Find opportunities in specific stage";
   "query_accounts - Query Salesforce accounts with optional filters";
   "get_account - Get detailed account by ID";
   "search_accounts - Search accounts by industry";
   "get_recent_accounts - Get recent accounts";
   "get_account_statistics - Get account statistics and distributions";
   "find_accounts_by_industry - Find accounts in specific industry";
   "analyze_account_trends - Analyze account trends and patterns";
   "execute_custom_graphql - Execute custom GraphQL queries";
   "get_salesforce_schema_info - Get schema information (this tool)"].

Definition date_range_options : list string :=
  ["this_week";
   "last_week";
   "this_month";
   "last_month";
   "this_quarter";
   "last_quarter";
   "this_year";
   "last_year"].

(** The note of [get_object_fields]. *)
Definition field_note : string :=
  "Field-level metadata requires additional permissions. Use execute_custom_graphql for specific field queries.".

Definition available_objects : list string :=
  ["Account"; "Opportunity"; "Contact"; "Lead"; "Case"].

Section WithWorld.
Variable w : World.

(** The [execute_custom_graphql] tool. *)
Definition execute_custom_graphql (query : string) : Result pyval :=
  client <- get_salesforce_client w ;;
  let clean_query := py_strip query in
  if negb (has_uiapi clean_query) then
    Ok (PDict [kv "success" (PBool false);
               kv "error" (PStr "Query must include 'uiapi' field");
               kv "hint" (PStr "Start your query with: query { uiapi { ... } }");
               kv "received_query" (PStr (preview clean_query))])
  else if negb (looks_like_graphql clean_query) then
    Ok (PDict [kv "success" (PBool false);
               kv "error" (PStr "Invalid GraphQL query format");
               kv "hint"
                  (PStr "Query should start with 'query' or '{' and contain braces");
               kv "received_query" (PStr (preview clean_query))])
  else
    OpportunityTools.try_except
      (result <- Client.execute_query w client clean_query None ;;
       Ok (PDict [kv "success" (PBool true);
                  kv "data" result;
                  kv "timestamp" (PStr (utcnow_isoformat w))]))
      (fun e =>
         PDict [kv "success" (PBool false);
                kv "error" (PStr (exn_msg e));
                kv "error_type" (PStr (exn_type e));
                kv "query_preview" (PStr (preview query))]).

(** The [get_salesforce_schema_info] tool. *)
Definition get_salesforce_schema_info : Result pyval :=
  client <- get_salesforce_client w ;;
  OpportunityTools.try_except
    (result <- Client.execute_query w client schema_info_document None ;;
     data <- py_get result "data" (PDict []) ;;
     uiapi <- py_get data "uiapi" (PDict []) ;;
     object_infos <- py_get uiapi "objectInfos" (PList []) ;;
     Ok (PDict
           [kv "success" (PBool true);
            kv "salesforce_info"
               (PDict [kv "api_version" (PStr "v59.0");
                       kv "instance_url" (PStr (instance_url client));
                       kv "graphql_endpoint" (PStr (base_url client))]);
            kv "common_objects" object_infos;
            kv "available_tools" (PList (map PStr available_tools));
            kv "date_range_options" (PList (map PStr date_range_options));
            kv "example_queries"
               (PDict [kv "basic_opportunities" (PStr basic_opportunities);
                       kv "filtered_accounts" (PStr filtered_accounts)]);
            kv "timestamp" (PStr (utcnow_isoformat w))]))
    OpportunityTools.failure_payload.

(** The [get_object_fields] tool. *)
Definition get_object_fields (object_name : string) : Result pyval :=
  client <- get_salesforce_client w ;;
  let query := get_object_fields_document object_name in
  OpportunityTools.try_except
    (result <- Client.execute_query w client query None ;;
     data <- py_get result "data" (PDict []) ;;
     uiapi <- py_get data "uiapi" (PDict []) ;;
     object_info <- py_get uiapi "objectInfo" PNone ;;
     if negb (truthy object_info) then
       Ok (PDict [kv "success" (PBool false);
                  kv "error"
                     (PStr ("Object '" ++ object_name
                            ++ "' not found or not accessible"));
                  kv "available_objects" (PList (map PStr available_objects))])
     else
       Ok (PDict [kv "success" (PBool true);
                  kv "object_info" object_info;
                  kv "note" (PStr field_note);
                  kv "example_field_query" (PStr (example_field_query object_name));
                  kv "timestamp" (PStr (utcnow_isoformat w))]))
    OpportunityTools.failure_payload.

End WithWorld.

End SchemaTools.

(** ** Definitions used in the statements below *)

Module Statements.
Import Py Datetime OpportunityTools.

(** The window of [range_type] at [now], and every date computed on the way
    to it, lies within [0001-01-01 .. 9999-12-31]. *)
Definition window_fits (now : date) (range_type : DateRange) : Prop :=
  match range_type with
  | THIS_WEEK => toordinal now - weekday now + 6 <= MAXORDINAL
  | LAST_WEEK => 1 <= toordinal now - (weekday now + 7)
  | THIS_MONTH => year now < MAXYEAR \/ month now <= 11
  | LAST_MONTH => MINYEAR < year now \/ 1 < month now
  | THIS_QUARTER => year now < MAXYEAR \/ month now <= 9
  | LAST_QUARTER => MINYEAR < year now \/ 4 <= month now
  | THIS_YEAR => True
  | LAST_YEAR => MINYEAR < year now
  end.

(** Where 95 days after the first day of quarter [q] (0 to 3) lands, and
    32 days after the first day of month [m]. *)
Definition after95 (y q : Z) : date :=
  if q =? 0 then mkDate y 4 (if is_leap y then 5 else 6)
  else if q =? 1 then mkDate y 7 5
  else if q =? 2 then mkDate y 10 4
  else mkDate (y + 1) 1 4.

Definition after32 (y m : Z) : date :=
  if m =? 12 then mkDate (y + 1) 1 2
  else mkDate y (m + 1) (33 - days_in_month y m).

(** The day before the first of a month. *)
Definition last_of_previous (y m : Z) : date :=
  if m =? 1 then mkDate (y - 1) 12 31
  else mkDate y (m - 1) (days_in_month y (m - 1)).

(** The name [query_opportunities] hands to the enum. *)
Definition normalized (time_period : string) : string :=
  spaces_to_underscores (lower time_period).

(** An entry of the remote [errors] list as the interface describes it:
    an object whose [message], if any, is a string and whose [extensions],
    if any, is an object. *)
Definition error_object (e : pyval) : bool :=
  match e with
  | PDict f =>
      match dict_lookup (PStr "message") f with
      | None | Some (PStr _) => true
      | Some _ => false
      end
      && match dict_lookup (PStr "extensions") f with
         | None | Some (PDict _) => true
         | Some _ => false
         end
  | _ => false
  end.

(** [s] occurs in [t] as a substring. *)
Definition occurs (s t : string) : Prop :=
  exists l r, t = l ++ s ++ r.

(** The characters of [s] other than decimal digits and the minus sign. *)
Definition keep (c : ascii) : bool :=
  let n := nat_of_ascii c in
  negb (((48 <=? n) && (n <=? 57)) || (n =? 45))%nat.

Fixpoint strip (s : string) : string :=
  match s with
  | EmptyString => EmptyString
  | String c s' => if keep c then String c (strip s') else strip s'
  end.

(** Substring search. *)
Fixpoint occursb (s t : string) : bool :=
  prefix s t
  || match t with
     | EmptyString => false
     | String _ t' => occursb s t'
     end.


(** The keys of a dict, and whether they are pairwise different. *)
Definition keys (v : pyval) : list pyval :=
  match v with
  | PDict d => map fst d
  | _ => []
  end.

Fixpoint distinct (l : list pyval) : bool :=
  match l with
  | [] => true
  | k :: l' => negb (existsb (key_eqb k) l') && distinct l'
  end.

(** A number entry of a dict. *)
Definition int_entry (k : string) (v : pyval) : Z :=
  match at_path [k] v with
  | Some (PInt n) => n
  | _ => 0
  end.

Definition number_entry (k : string) (v : pyval) : Q :=
  match at_path [k] v with
  | Some x => match as_number x with Some q => q | None => 0 end
  | None => 0
  end.

(** The sums of one entry over the values of a dict of dicts. *)
Definition int_total (k : string) (v : pyval) : Z :=
  match v with
  | PDict d => fold_right (fun e s => int_entry k (snd e) + s) 0 d
  | _ => 0
  end.

Definition number_total (k : string) (v : pyval) : Q :=
  match v with
  | PDict d => fold_right (fun e s => number_entry k (snd e) + s)%Q 0%Q d
  | _ => 0%Q
  end.

(** The values of one entry over the values of a dict of dicts, in order. *)
Definition number_column (k : string) (v : pyval) : list Q :=
  match v with
  | PDict d => map (fun e => number_entry k (snd e)) d
  | _ => []
  end.

(** A list of numbers that never increases. *)
Fixpoint descending (l : list Q) : Prop :=
  match l with
  | [] => True
  | x :: l' =>
      match l' with
      | [] => True
      | y :: _ => (y <= x)%Q
      end /\ descending l'
  end.

(** What the loop keeps true of each breakdown. *)
Definition partitions (records : nat) (total : num) (b : BusinessAnalysisTools.breakdown)
  : Prop :=
  int_total "count" (BusinessAnalysisTools.breakdown_py b) = Z.of_nat records /\
  (number_total "value" (BusinessAnalysisTools.breakdown_py b) == num_Q total)%Q /\
  distinct (map fst b) = true.


(** [x] may come before [y] in a list sorted by [key] with [reverse=True]. *)
Definition key_desc {A : Type} (key : A -> Q) (x y : A) : Prop :=
  (key y <= key x)%Q.




(** What the loop of [complete_pipeline_report] keeps true of a grouping
    that carries the weighted value. *)
Definition performance_partitions (records : nat) (total : num)
           (p : BusinessAnalysisTools.performance) : Prop :=
  int_total "count" (BusinessAnalysisTools.performance_py p) = Z.of_nat records /\
  (number_total "value" (BusinessAnalysisTools.performance_py p) == num_Q total)%Q /\
  distinct (map fst p) = true.

(** The number of records of [monthly_pipeline]. *)
Definition month_counts (m : BusinessAnalysisTools.monthly) : Z :=
  fold_right (fun e s => fst (snd e) + s) 0 m.

(** How many elements of a list pass a test. *)
Definition count_if {A : Type} (p : A -> bool) (xs : list A) : Z :=
  Z.of_nat (List.length (filter p xs)).

(** The three deal sizes of a list of amounts. *)
Definition sizes_of (amounts : list Q) : BusinessAnalysisTools.deal_sizes :=
  BusinessAnalysisTools.mkDealSizes
    (count_if (fun a => BusinessAnalysisTools.Qltb a 25000) amounts)
    (count_if
       (fun a => negb (BusinessAnalysisTools.Qltb a 25000)
                 && BusinessAnalysisTools.Qltb a 100000) amounts)
    (count_if
       (fun a => negb (BusinessAnalysisTools.Qltb a 100000)) amounts).

(** What the loop of [complete_pipeline_report] keeps true of its state,
    the amounts of the edges read being [amounts]. *)
Definition report_invariant (amounts : list Q) (r : BusinessAnalysisTools.report)
  : Prop :=
  let n := List.length amounts in
  let t := BusinessAnalysisTools.total_pipeline r in
  performance_partitions n t (BusinessAnalysisTools.stage_analysis r) /\
  performance_partitions n t (BusinessAnalysisTools.owner_performance r) /\
  partitions n t (BusinessAnalysisTools.industry_analysis r) /\
  BusinessAnalysisTools.deal_size_ranges r = sizes_of amounts /\
  month_counts (BusinessAnalysisTools.monthly_pipeline r) <= Z.of_nat n /\
  NoDup (map fst (BusinessAnalysisTools.monthly_pipeline r)) /\
  Forall (fun month => (String.length month <= 7)%nat)
         (map fst (BusinessAnalysisTools.monthly_pipeline r)).

(** Strings in strictly increasing order. *)
Fixpoint ascending (l : list string) : Prop :=
  match l with
  | [] => True
  | x :: l' =>
      match l' with
      | [] => True
      | y :: _ => String.ltb x y = true
      end /\ ascending l'
  end.

(** An entry of [monthly_pipeline] may come before another. *)
Definition month_le (x y : string * (Z * Q)) : Prop :=
  String.leb (fst x) (fst y) = true.







(** A model one of whose fields read by [find_opportunities_by_stage], or
    by [find_accounts_by_industry], was not set. *)
Definition incomplete_opportunity (o : Models.Opportunity) : Prop :=
  Models.opp_Name o = None \/ Models.opp_Amount o = None \/
  Models.opp_CloseDate o = None \/ Models.opp_Probability o = None.

Definition incomplete_account (a : Models.Account) : Prop :=
  Models.acc_Name a = None \/ Models.acc_Type a = None \/
  Models.acc_AnnualRevenue a = None \/ Models.acc_NumberOfEmployees a = None \/
  Models.acc_Website a = None.

(** Where the edges of [entity] are in a response. *)
Definition edges_path (entity : string) : list string :=
  ["data"; "uiapi"; "query"; entity; "edges"].

(** The response holds dicts along [path] down to some level, and the
    dict of that level lacks the next key. *)
Definition lacks_level (path : list string) (result : pyval) : Prop :=
  exists (k : nat) (d : list (pyval * pyval)),
    (k < List.length path)%nat /\
    at_path (firstn k path) result = Some (PDict d) /\
    dict_lookup (PStr (nth k path "")) d = None.

(** A query passes the two checks of [execute_custom_graphql]. *)
Definition accepted (query : string) : bool :=
  SchemaTools.has_uiapi (SchemaTools.py_strip query)
  && SchemaTools.looks_like_graphql (SchemaTools.py_strip query).

End Statements.

(** ** Sample worlds and responses *)

Module Examples.
Import Py Datetime.

Definition no_opportunity : Models.Opportunity :=
  Models.mkOpportunity None None None None None None None None None None None.

Definition no_account : Models.Account :=
  Models.mkAccount None None None None None None None None None.

(** A world whose clock shows [today] and whose endpoint gives [answer] to
    every request.  The runtime parameters are the simplest possible. *)
Definition world (today : date) (answer : Httpx.outcome) : World :=
  mkWorld today "2025-06-30T12:00:00"
          (Ok (mkClient "https://example.my.salesforce.com" "token"))
          (fun _ _ _ _ => answer)
          (fun q => str_of_Z (Qnum q / Z.pos (Qden q)) ++ ".0")
          (fun s => "'" ++ s ++ "'")
          (fun _ => Raise (mkExn "ValueError" "could not convert string to float"))
          (fun _ => Ok no_opportunity)
          (fun _ => Ok no_account).

(** A response with status [status] whose body parses to [body]. *)
Definition responded (status : Z) (body : pyval) : Httpx.outcome :=
  Httpx.Responded (Httpx.mkResponse status "" (Ok body)).

(** The body [{"data": {"uiapi": {"query": {entity: {"edges": edges,
    "totalCount": total}}}}}]. *)
Definition body_of (entity : string) (edges : list pyval) (total : Z) : pyval :=
  PDict [kv "data"
           (PDict [kv "uiapi"
                      (PDict [kv "query"
                                 (PDict [kv entity
                                            (PDict [kv "edges" (PList edges);
                                                    kv "totalCount" (PInt total)])])])])].

Definition wrapped (v : pyval) : pyval := PDict [kv "value" v].

(** An opportunity without a parent account: the relation is [null]. *)
Definition orphan_edge : pyval :=
  PDict [kv "node"
           (PDict [kv "Id" (PStr "006A");
                   kv "Name" (wrapped (PStr "Renewal"));
                   kv "Amount" (PDict [kv "value" (PInt 100000);
                                       kv "displayValue" (PStr "$100,000")]);
                   kv "CloseDate" (wrapped (PStr "2025-09-30"));
                   kv "StageName" (wrapped (PStr "Negotiation"));
                   kv "Probability" (wrapped (PInt 25));
                   kv "Account" PNone;
                   kv "Owner" (PDict [kv "Id" (PStr "005A");
                                      kv "Name" (wrapped (PStr "Ada"))])])].

(** The same opportunity with its account. *)
Definition full_edge : pyval :=
  PDict [kv "node"
           (PDict [kv "Id" (PStr "006A");
                   kv "Name" (wrapped (PStr "Renewal"));
                   kv "Amount" (PDict [kv "value" (PInt 100000);
                                       kv "displayValue" (PStr "$100,000")]);
                   kv "CloseDate" (wrapped (PStr "2025-09-30"));
                   kv "StageName" (wrapped (PStr "Negotiation"));
                   kv "Probability" (wrapped (PInt 25));
                   kv "Account" (PDict [kv "Id" (PStr "001A");
                                        kv "Name" (wrapped (PStr "Acme"));
                                        kv "Industry" (wrapped (PStr "Energy"))]);
                   kv "Owner" (PDict [kv "Id" (PStr "005A");
                                      kv "Name" (wrapped (PStr "Ada"))])])].

Definition today : date := mkDate 2025 6 30.

(** A stage name that closes the string literal it is put in and goes on
    with two conditions of its own. *)
Definition injected_stage : string :=
  "Closed Won" ++ dquote ++ " }, Amount: { gte: 0 }, Name: { ne: " ++ dquote ++ "x".

(** A world whose process environment lacks the access token. *)
Definition unconfigured : World :=
  mkWorld today "2025-06-30T12:00:00"
          (Raise (mkExn "ValueError"
                        "SALESFORCE_ACCESS_TOKEN environment variable is required"))
          (fun _ _ _ _ => Httpx.Failed (mkExn "ConnectError" ""))
          (fun q => str_of_Z (Qnum q / Z.pos (Qden q)) ++ ".0")
          (fun s => "'" ++ s ++ "'")
          (fun _ => Raise (mkExn "ValueError" "could not convert string to float"))
          (fun _ => Ok no_opportunity)
          (fun _ => Ok no_account).

(** What a tool answered, when it answered. *)
Definition answer (m : Result pyval) : pyval :=
  match m with
  | Ok p => p
  | Raise _ => PNone
  end.

Definition client : SalesforceClient :=
  mkClient "https://example.my.salesforce.com" "token".

(** A world whose endpoint returns the given opportunities. *)
Definition page (edges : list pyval) : World :=
  world today (responded 200 (body_of "Opportunity" edges 34)).

(** An opportunity given by its name, stage, amount, probability, account,
    owner and close date. *)
Definition opportunity_edge (name stage : string) (amount probability : pyval)
           (account owner close_date : string) : pyval :=
  PDict [kv "node"
           (PDict [kv "Id" (PStr ("006" ++ name));
                   kv "Name" (wrapped (PStr name));
                   kv "Amount" (PDict [kv "value" amount;
                                       kv "displayValue" (PStr "$")]);
                   kv "CloseDate" (wrapped (PStr close_date));
                   kv "StageName" (wrapped (PStr stage));
                   kv "Probability" (wrapped probability);
                   kv "Account" (PDict [kv "Id" (PStr ("001" ++ account));
                                        kv "Name" (wrapped (PStr account));
                                        kv "Industry" (wrapped (PStr "Energy"))]);
                   kv "Owner" (PDict [kv "Id" (PStr ("005" ++ owner));
                                      kv "Name" (wrapped (PStr owner))])])].

Definition five_edges : list pyval :=
  [opportunity_edge "A" "Negotiation" (PInt 10000) (PInt 50) "Acme" "Ada" "2025-09-30";
   opportunity_edge "B" "Closed Won" (PInt 200000) (PInt 100) "Acme" "Bob" "2025-10-02";
   opportunity_edge "C" "Negotiation" (PFloat (250005 # 10)) (PInt 20) "Zen" "Ada"
                    "2025-09-01";
   opportunity_edge "D" "Closed Lost" PNone (PInt 0) "Zen" "Ada" "";
   opportunity_edge "E" "Closed Won" (PInt 30000) (PInt 100) "Acme" "Bob" "2025-10-15"].

(** A stage with seven deals. *)
Definition sample_deal (name : string) (amount : Z) : BusinessAnalysisTools.deal :=
  BusinessAnalysisTools.mkDeal (PStr name) (inject_Z amount) (PStr "$") 50 (PStr "Acme").

Definition seven_deals : BusinessAnalysisTools.stage_info :=
  BusinessAnalysisTools.mkStageInfo 7 (NFloat 35) (NFloat (35 # 2))
    [sample_deal "a" 3; sample_deal "b" 9; sample_deal "c" 1; sample_deal "d" 7;
     sample_deal "e" 5; sample_deal "f" 8; sample_deal "g" 2].

(** An account given by its name, industry, revenue and number of
    employees. *)
Definition account_edge (name industry : string) (revenue employees : pyval) : pyval :=
  PDict [kv "node"
           (PDict [kv "Id" (PStr ("001" ++ name));
                   kv "Name" (wrapped (PStr name));
                   kv "Type" (wrapped (PStr "Customer"));
                   kv "Industry" (wrapped (PStr industry));
                   kv "AnnualRevenue" (PDict [kv "value" revenue;
                                              kv "displayValue" (PStr "$")]);
                   kv "NumberOfEmployees" (wrapped employees);
                   kv "Phone" (wrapped (PStr "555-0100"));
                   kv "Website" (wrapped PNone);
                   kv "BillingAddress"
                      (PDict [kv "BillingCity" (wrapped (PStr "Oslo"));
                              kv "BillingState" (wrapped PNone);
                              kv "BillingCountry" (wrapped (PStr "Norway"))])])].

Definition three_accounts : list pyval :=
  [account_edge "Acme" "Energy" (PInt 5000000) (PInt 120);
   account_edge "Idle" "Retail" PNone PNone;
   account_edge "Zen" "Energy" (PInt 900000) (PInt 0)].

(** A world whose endpoint returns the given accounts and opportunities in
    one body. *)
Definition org (accounts opportunities : list pyval) : World :=
  world today
    (responded 200
       (PDict [kv "data"
                 (PDict [kv "uiapi"
                           (PDict [kv "query"
                                     (PDict [kv "Account"
                                               (PDict [kv "edges" (PList accounts);
                                                       kv "totalCount" (PInt 12)]);
                                             kv "Opportunity"
                                               (PDict [kv "edges" (PList opportunities);
                                                       kv "totalCount" (PInt 34)])])])])])).

(** The models that nodes with the fields of the documents validate to: a
    field of the node is the field of the model, a field that is missing or
    [null] is [None]. *)
Definition field_of (d : list (pyval * pyval)) (k : string) : option pyval :=
  match dict_lookup (PStr k) d with
  | Some PNone => None
  | x => x
  end.

Definition id_of (d : list (pyval * pyval)) : option string :=
  match dict_lookup (PStr "Id") d with
  | Some (PStr s) => Some s
  | _ => None
  end.

Definition opportunity_of (d : list (pyval * pyval)) : Models.Opportunity :=
  Models.mkOpportunity
    (id_of d) (field_of d "Name") (field_of d "Amount") (field_of d "CloseDate")
    (field_of d "StageName") (field_of d "Probability") (field_of d "Description")
    (field_of d "Type") (field_of d "LeadSource")
    (match dict_lookup (PStr "Account") d with
     | Some (PDict a) => Some (Models.mkOpportunityAccount (id_of a) (field_of a "Name"))
     | _ => None
     end)
    (match dict_lookup (PStr "Owner") d with
     | Some (PDict o) => Some (Models.mkOpportunityOwner (id_of o) (field_of o "Name"))
     | _ => None
     end).

Definition account_of (d : list (pyval * pyval)) : Models.Account :=
  Models.mkAccount
    (id_of d) (field_of d "Name") (field_of d "Type") (field_of d "Industry")
    (field_of d "AnnualRevenue") (field_of d "NumberOfEmployees")
    (field_of d "Phone") (field_of d "Website")
    (match dict_lookup (PStr "BillingAddress") d with
     | Some (PDict a) =>
         Some (Models.mkAccountBillingAddress
                 (field_of a "BillingCity") (field_of a "BillingState")
                 (field_of a "BillingCountry"))
     | _ => None
     end).

(** The world [org] with these models. *)
Definition validating (accounts opportunities : list pyval) : World :=
  let w := org accounts opportunities in
  mkWorld (now w) (utcnow_isoformat w) (get_salesforce_client w) (post w)
          (repr_float w) (repr_str w) (float_of_str w)
          (fun d => Ok (opportunity_of d))
          (fun d => Ok (account_of d)).

(** An account the service returns without a billing address. *)
Definition unlocated_account : pyval :=
  PDict [kv "node"
           (PDict [kv "Id" (PStr "001Nomad");
                   kv "Name" (wrapped (PStr "Nomad"));
                   kv "BillingAddress" PNone])].

(** An opportunity the service returns without a close date. *)
Definition undated_opportunity : pyval :=
  PDict [kv "node"
           (PDict [kv "Id" (PStr "006U");
                   kv "Name" (wrapped (PStr "U"));
                   kv "Amount" (PDict [kv "value" (PInt 1);
                                       kv "displayValue" (PStr "$1")]);
                   kv "CloseDate" PNone;
                   kv "Probability" (wrapped (PInt 10))])].

End Examples.

(** * Properties *)

(** ** The calendar *)

Import Py Datetime.

Lemma fromordinal_decomp a b c e k :
  0 <= a -> 0 <= b < 4 -> 0 <= c < 25 -> 0 <= e < 4 ->
  0 <= k < 365 + (if leap_of b c e then 1 else 0) ->
  fromordinal (146097 * a + 36524 * b + 1461 * c + 365 * e + k + 1) =
  let '(m, d) := month_day_of_yday (leap_of b c e) k in
  mkDate (400 * a + 100 * b + 4 * c + e + 1) m d.
Proof.
  intros Ha Hb Hc He Hk.
  unfold fromordinal, DI400Y, DI100Y, DI4Y.
  replace (146097 * a + 36524 * b + 1461 * c + 365 * e + k + 1 - 1)
    with ((36524 * b + 1461 * c + 365 * e + k) + a * 146097) by lia.
  assert (Hk' : 0 <= k <= 365) by (destruct (leap_of b c e); lia).
  assert (Hlim : k = 365 -> e = 3 /\ (c <> 24 \/ b = 3)).
  { intros ->. unfold leap_of in Hk.
    destruct (Z.eqb_spec e 3); simpl in Hk; [|lia].
    destruct (Z.eqb_spec c 24); simpl in Hk; [|lia].
    destruct (Z.eqb_spec b 3); simpl in Hk; lia. }
  clear Hk.
  rewrite Z.div_add, Z.mod_add by lia.
  assert (B1: 0 <= 36524 * b + 1461 * c + 365 * e + k < 146097) by lia.
  rewrite (Z.div_small _ _ B1), (Z.mod_small _ _ B1), Z.add_0_l.
  destruct (Z.eq_dec (36524 * b + 1461 * c + 365 * e + k) 146096) as [E|E].
  - assert (b = 3 /\ c = 24 /\ e = 3 /\ k = 365) as (-> & -> & -> & ->) by lia.
    rewrite E.
    change (146096 / 36524) with 4. change (146096 mod 36524) with 0.
    change (0 mod 1461) with 0. change (0 / 1461) with 0. change (0 / 365) with 0.
    change ((0 =? 4) || (4 =? 4)) with true. cbv iota.
    change (month_day_of_yday (leap_of 3 24 3) 365) with (12, 31).
    cbv iota beta. f_equal; lia.
  - replace (36524 * b + 1461 * c + 365 * e + k) with ((1461 * c + 365 * e + k) + b * 36524) by lia.
    rewrite Z.div_add, Z.mod_add by lia.
    rewrite (Z.div_small (_ + k)), (Z.mod_small (_ + k)), Z.add_0_l by lia.
    replace (1461 * c + 365 * e + k) with ((365 * e + k) + c * 1461) by lia.
    rewrite Z.div_add, Z.mod_add by lia.
    rewrite (Z.div_small (_ + k)), (Z.mod_small (_ + k)), Z.add_0_l by lia.
    destruct (Z.eq_dec k 365) as [->|Hne].
    + destruct (Hlim eq_refl) as [He3 Hcb]; subst e.
      replace (leap_of b c 3) with true.
      2:{ unfold leap_of. destruct Hcb as [Hcb|Hb3]; [|subst b].
          - apply Z.eqb_neq in Hcb. rewrite Hcb. reflexivity.
          - rewrite orb_true_r. reflexivity. }
      change ((365 * 3 + 365) / 365) with 4. change ((365 * 3 + 365) mod 365) with 0.
      change (4 =? 4) with true. cbv iota beta delta [orb].
      change (month_day_of_yday true 365) with (12, 31).
      cbv iota beta. f_equal; lia.
    + replace (365 * e + k) with (k + e * 365) by lia.
      rewrite Z.div_add, Z.mod_add by lia.
      rewrite (Z.div_small k), (Z.mod_small k), Z.add_0_l by lia.
      replace (e =? 4) with false by (symmetry; apply Z.eqb_neq; lia).
      replace (b =? 4) with false by (symmetry; apply Z.eqb_neq; lia).
      change (false || false) with false. cbv iota. fold (leap_of b c e).
      destruct (month_day_of_yday (leap_of b c e) k) as [m d].
      f_equal; lia.
Qed.

Lemma year_decomp Y :
  0 <= Y ->
  exists a b c e,
    0 <= a /\ 0 <= b < 4 /\ 0 <= c < 25 /\ 0 <= e < 4 /\
    Y = 400 * a + 100 * b + 4 * c + e /\
    days_before_year (Y + 1) = 146097 * a + 36524 * b + 1461 * c + 365 * e /\
    is_leap (Y + 1) = leap_of b c e.
Proof.
  intros HY.
  exists (Y / 400), (Y mod 400 / 100), (Y mod 400 mod 100 / 4), (Y mod 400 mod 100 mod 4).
  unfold days_before_year, is_leap, leap_of.
  replace (Y + 1 - 1) with Y by lia.
  repeat split; try (Z.to_euclidean_division_equations; lia).
Qed.

Lemma ordinal_decomp n :
  1 <= n ->
  exists a b c e k,
    0 <= a /\ 0 <= b < 4 /\ 0 <= c < 25 /\ 0 <= e < 4 /\
    0 <= k < 365 + (if leap_of b c e then 1 else 0) /\
    n = 146097 * a + 36524 * b + 1461 * c + 365 * e + k + 1.
Proof.
  intros Hn.
  pose (n0 := n - 1).
  pose (a := n0 / 146097). pose (r1 := n0 mod 146097).
  pose (b := r1 / 36524). pose (r2 := r1 mod 36524).
  pose (c := r2 / 1461). pose (r3 := r2 mod 1461).
  pose (e := r3 / 365). pose (k := r3 mod 365).
  assert (Hall : 0 <= a /\ 0 <= r1 < 146097 /\ n0 = 146097 * a + r1 /\
                 0 <= b <= 4 /\ 0 <= r2 < 36524 /\ r1 = 36524 * b + r2 /\
                 0 <= c < 25 /\ 0 <= r3 < 1461 /\ r2 = 1461 * c + r3 /\
                 0 <= e <= 4 /\ 0 <= k < 365 /\ r3 = 365 * e + k).
  { subst a r1 b r2 c r3 e k n0. Z.to_euclidean_division_equations. lia. }
  destruct Hall as (Ha & Hr1 & E0 & Hb & Hr2 & E1 & Hc & Hr3 & E2 & He & Hk & E3).
  assert (Hn0 : n = n0 + 1) by (subst n0; lia).
  clearbody a r1 b r2 c r3 e k n0.
  destruct (Z.eq_dec b 4) as [->|Hb4].
  - exists a, 3, 24, 3, 365. change (leap_of 3 24 3) with true. cbv iota. lia.
  - destruct (Z.eq_dec e 4) as [->|He4].
    + exists a, b, c, 3, 365.
      assert (Hl : leap_of b c 3 = true).
      { unfold leap_of. change (3 =? 3) with true. cbn [andb].
        destruct (Z.eqb_spec c 24) as [->|]; [|reflexivity].
        destruct (Z.eqb_spec b 3); [reflexivity|]. exfalso. lia. }
      rewrite Hl. lia.
    + exists a, b, c, e, k. destruct (leap_of b c e); lia.
Qed.

Lemma in_zseq n : forall lo x, lo <= x < lo + Z.of_nat n -> In x (zseq lo n).
Proof.
  induction n as [|n IH]; intros lo x Hx.
  - lia.
  - cbn [zseq]. destruct (Z.eq_dec lo x) as [->|Hne]; [now left|right].
    apply IH. lia.
Qed.

Lemma yday_check_all :
  forallb (fun l => forallb (yday_checkb l) (zseq 0 (Z.to_nat (ylen l))))
          [true; false] = true.
Proof. vm_compute. reflexivity. Qed.

Lemma md_check_all :
  forallb (fun l =>
    forallb (fun m => forallb (md_checkb l m) (zseq 1 (Z.to_nat (dim_of l m))))
            (zseq 1 12))
    [true; false] = true.
Proof. vm_compute. reflexivity. Qed.

Lemma yday_to_md l n :
  0 <= n < ylen l ->
  exists m d, month_day_of_yday l n = (m, d) /\
    1 <= m <= 12 /\ 1 <= d <= dim_of l m /\ dbm_of l m + d - 1 = n.
Proof.
  intros Hn.
  pose proof yday_check_all as H. rewrite forallb_forall in H.
  assert (Hl : In l [true; false]) by (destruct l; cbn; auto).
  specialize (H l Hl). rewrite forallb_forall in H.
  assert (Hin : In n (zseq 0 (Z.to_nat (ylen l)))).
  { apply in_zseq. unfold ylen in *. destruct l; lia. }
  specialize (H n Hin). unfold yday_checkb in H.
  destruct (month_day_of_yday l n) as [m d]. exists m, d.
  rewrite !andb_true_iff in H. split; [reflexivity|lia].
Qed.

Lemma md_to_yday l m d :
  1 <= m <= 12 -> 1 <= d <= dim_of l m ->
  month_day_of_yday l (dbm_of l m + d - 1) = (m, d) /\
  0 <= dbm_of l m + d - 1 < ylen l.
Proof.
  intros Hm Hd.
  pose proof md_check_all as H. rewrite forallb_forall in H.
  assert (Hl : In l [true; false]) by (destruct l; cbn; auto).
  specialize (H l Hl). rewrite forallb_forall in H.
  assert (Him : In m (zseq 1 12)) by (apply in_zseq; lia).
  specialize (H m Him). rewrite forallb_forall in H.
  assert (Hid : In d (zseq 1 (Z.to_nat (dim_of l m)))) by (apply in_zseq; lia).
  specialize (H d Hid). unfold md_checkb in H.
  destruct (month_day_of_yday l (dbm_of l m + d - 1)) as [m' d'].
  rewrite !andb_true_iff in H.
  destruct H as [[[H1 H2] H3] H4].
  apply Z.eqb_eq in H1, H2. subst. split; [reflexivity|lia].
Qed.

Lemma days_in_month_dim y m : days_in_month y m = dim_of (is_leap y) m.
Proof. reflexivity. Qed.

Lemma days_before_month_dbm y m : days_before_month y m = dbm_of (is_leap y) m.
Proof. reflexivity. Qed.

(** [fromordinal] inverts [toordinal] on every date of year 1 or later. *)
Lemma fromordinal_toordinal d :
  1 <= year d -> 1 <= month d <= 12 ->
  1 <= day d <= days_in_month (year d) (month d) ->
  fromordinal (toordinal d) = d.
Proof.
  destruct d as [y m dd]. cbn [year month day]. intros Hy Hm Hd.
  unfold toordinal. cbn [year month day].
  destruct (year_decomp (y - 1)) as (a & b & c & e & Ha & Hb & Hc & He & EY & Edby & El);
    [lia|].
  replace (y - 1 + 1) with y in * by lia.
  rewrite days_in_month_dim in Hd. rewrite days_before_month_dbm.
  destruct (md_to_yday (is_leap y) m dd Hm Hd) as [Hmd Hrange].
  rewrite Edby.
  replace (146097 * a + 36524 * b + 1461 * c + 365 * e + dbm_of (is_leap y) m + dd)
    with (146097 * a + 36524 * b + 1461 * c + 365 * e + (dbm_of (is_leap y) m + dd - 1) + 1)
    by lia.
  rewrite fromordinal_decomp; try assumption.
  - rewrite <- El, Hmd. f_equal. lia.
  - rewrite <- El. exact Hrange.
Qed.

(** Every positive ordinal is the ordinal of the date [fromordinal] builds,
    and that date has a month and a day the calendar has. *)
Lemma toordinal_fromordinal n :
  1 <= n ->
  toordinal (fromordinal n) = n /\
  1 <= year (fromordinal n) /\
  1 <= month (fromordinal n) <= 12 /\
  1 <= day (fromordinal n) <= days_in_month (year (fromordinal n)) (month (fromordinal n)).
Proof.
  intros Hn.
  destruct (ordinal_decomp n Hn) as (a & b & c & e & k & Ha & Hb & Hc & He & Hk & En).
  subst n. rewrite fromordinal_decomp by assumption.
  destruct (yday_to_md (leap_of b c e) k Hk) as (m & d & Hmd & Hm & Hd & Ek).
  rewrite Hmd. cbn [year month day]. unfold toordinal. cbn [year month day].
  destruct (year_decomp (400 * a + 100 * b + 4 * c + e))
    as (a' & b' & c' & e' & Ha' & Hb' & Hc' & He' & EY & Edby & El); [lia|].
  assert (a' = a /\ b' = b /\ c' = c /\ e' = e) as (-> & -> & -> & ->) by lia.
  rewrite days_in_month_dim, days_before_month_dbm, El, Edby.
  repeat split; try lia.
Qed.

Lemma days_before_year_succ y :
  days_before_year (y + 1) = days_before_year y + ylen (is_leap y).
Proof.
  unfold days_before_year, ylen, is_leap.
  replace (y + 1 - 1) with (y - 1 + 1) by lia.
  destruct (y mod 4 =? 0) eqn:E4; destruct (y mod 100 =? 0) eqn:E100;
    destruct (y mod 400 =? 0) eqn:E400; cbn [andb orb negb];
    rewrite ?Z.eqb_eq, ?Z.eqb_neq in *;
    Z.to_euclidean_division_equations; lia.
Qed.

Lemma days_before_year_mono y1 y2 :
  y1 < y2 -> days_before_year y1 + ylen (is_leap y1) <= days_before_year y2.
Proof.
  intros Hlt. rewrite <- days_before_year_succ.
  unfold days_before_year. Z.to_euclidean_division_equations. lia.
Qed.

Lemma month_step_all :
  forallb (fun l =>
    forallb (fun m1 =>
      forallb (month_stepb l m1) (zseq (m1 + 1) (Z.to_nat (12 - m1))))
      (zseq 1 12))
    [true; false] = true.
Proof. vm_compute. reflexivity. Qed.

Lemma dbm_of_mono l m1 m2 :
  1 <= m1 -> m1 < m2 -> m2 <= 12 ->
  dbm_of l m1 + dim_of l m1 <= dbm_of l m2.
Proof.
  intros H1 H12 H2.
  pose proof month_step_all as H. rewrite forallb_forall in H.
  assert (Hl : In l [true; false]) by (destruct l; cbn; auto).
  specialize (H l Hl). rewrite forallb_forall in H.
  assert (Hi1 : In m1 (zseq 1 12)) by (apply in_zseq; lia).
  specialize (H m1 Hi1). rewrite forallb_forall in H.
  assert (Hi2 : In m2 (zseq (m1 + 1) (Z.to_nat (12 - m1)))) by (apply in_zseq; lia).
  specialize (H m2 Hi2).
  unfold month_stepb in H. lia.
Qed.

Lemma valid_wf d : valid_date d -> wf_date d.
Proof. unfold valid_date, wf_date, MINYEAR. tauto. Qed.

Lemma toordinal_bounds d :
  wf_date d ->
  days_before_year (year d) < toordinal d <= days_before_year (year d + 1).
Proof.
  intros (Hy & Hm & Hd). unfold toordinal.
  rewrite days_in_month_dim in Hd. rewrite days_before_month_dbm.
  destruct (md_to_yday _ _ _ Hm Hd) as [_ Hr].
  rewrite days_before_year_succ. lia.
Qed.

Lemma days_before_year_nonneg y : 1 <= y -> 0 <= days_before_year y.
Proof.
  intros Hy. unfold days_before_year. Z.to_euclidean_division_equations. lia.
Qed.

Lemma days_before_year_le y1 y2 :
  y1 <= y2 -> days_before_year y1 <= days_before_year y2.
Proof.
  intros Hle. destruct (Z.eq_dec y1 y2) as [->|Hne]; [lia|].
  pose proof (days_before_year_mono y1 y2 ltac:(lia)).
  unfold ylen in *. destruct (is_leap y1); lia.
Qed.

Lemma toordinal_range d :
  valid_date d -> 1 <= toordinal d <= MAXORDINAL.
Proof.
  intros Hv. pose proof (toordinal_bounds d (valid_wf d Hv)) as Hb.
  destruct Hv as (Hy & _). unfold MINYEAR, MAXYEAR in Hy.
  pose proof (days_before_year_nonneg (year d) ltac:(lia)).
  pose proof (days_before_year_le (year d + 1) 10000 ltac:(lia)) as Hup.
  change (days_before_year 10000) with MAXORDINAL in Hup. lia.
Qed.

(** The order of ordinals is the order of dates. *)
Lemma toordinal_le_date_le a b :
  wf_date a -> wf_date b -> toordinal a <= toordinal b -> date_le a b.
Proof.
  intros Ha Hb Hle. unfold date_le.
  destruct (Z.lt_trichotomy (year a) (year b)) as [Hlt|[Heq|Hgt]]; [now left| |].
  - right. split; [assumption|].
    destruct a as [ya ma da], b as [yb mb db]. cbn [year month day] in *. subst yb.
    destruct Ha as (Hya & Hma & Hda), Hb as (_ & Hmb & Hdb).
    cbn [year month day] in *. unfold toordinal in Hle. cbn [year month day] in Hle.
    rewrite days_in_month_dim in Hda, Hdb. rewrite !days_before_month_dbm in Hle.
    destruct (Z.lt_trichotomy ma mb) as [Hlt|[Heq|Hgt]]; [now left| |].
    + right. subst mb. split; [reflexivity|lia].
    + pose proof (dbm_of_mono (is_leap ya) mb ma ltac:(lia) Hgt ltac:(lia)). lia.
  - pose proof (toordinal_bounds a Ha). pose proof (toordinal_bounds b Hb).
    pose proof (days_before_year_le (year b + 1) (year a) ltac:(lia)). lia.
Qed.

Lemma date_le_toordinal_le a b :
  wf_date a -> wf_date b -> date_le a b -> toordinal a <= toordinal b.
Proof.
  intros Ha Hb [Hlt|[Heq [Hlt|[Hm Hd]]]].
  - pose proof (toordinal_bounds a Ha). pose proof (toordinal_bounds b Hb).
    pose proof (days_before_year_le (year a + 1) (year b) ltac:(lia)). lia.
  - destruct a as [ya ma da], b as [yb mb db]. cbn [year month day] in *. subst yb.
    destruct Ha as (Hya & Hma & Hda), Hb as (_ & Hmb & Hdb).
    cbn [year month day] in *. unfold toordinal. cbn [year month day].
    rewrite days_in_month_dim in Hda, Hdb. rewrite !days_before_month_dbm.
    pose proof (dbm_of_mono (is_leap ya) ma mb ltac:(lia) Hlt ltac:(lia)). lia.
  - destruct a as [ya ma da], b as [yb mb db]. cbn [year month day] in *. subst.
    unfold toordinal. cbn [year month day]. lia.
Qed.

(** [fromordinal] of an ordinal in range is a date the constructor accepts. *)
Lemma fromordinal_valid n :
  1 <= n <= MAXORDINAL ->
  valid_date (fromordinal n) /\ toordinal (fromordinal n) = n.
Proof.
  intros [Hlo Hhi].
  destruct (toordinal_fromordinal n Hlo) as (Eo & Hy & Hm & Hd).
  split; [|assumption]. unfold valid_date, MINYEAR, MAXYEAR.
  repeat split; try lia.
  destruct (Z_le_gt_dec (year (fromordinal n)) 9999) as [|Hgt]; [assumption|].
  exfalso.
  pose proof (toordinal_bounds (fromordinal n) (conj Hy (conj Hm Hd))) as Hb.
  pose proof (days_before_year_le 10000 (year (fromordinal n)) ltac:(lia)) as Hup.
  change (days_before_year 10000) with MAXORDINAL in Hup. lia.
Qed.

(** Adding a timedelta: any valid date at the right distance is the result. *)
Lemma add_days_eq d k d' :
  valid_date d' -> toordinal d' = toordinal d + k -> add_days d k = Ok d'.
Proof.
  intros Hv Ho. unfold add_days. rewrite <- Ho.
  pose proof (toordinal_range d' Hv) as [Hlo Hhi].
  replace (0 <? toordinal d') with true by (symmetry; apply Z.ltb_lt; lia).
  replace (toordinal d' <=? MAXORDINAL) with true by (symmetry; apply Z.leb_le; lia).
  cbn [andb]. f_equal. apply fromordinal_toordinal; apply valid_wf in Hv; apply Hv.
Qed.

(** ** The date windows of [get_date_range] *)

Import OpportunityTools Statements.

Lemma make_date_ok y m d :
  valid_date (mkDate y m d) -> make_date y m d = Ok (mkDate y m d).
Proof.
  unfold valid_date, make_date. cbn [year month day]. intros (Hy & Hm & Hd).
  replace ((MINYEAR <=? y) && (y <=? MAXYEAR)) with true
    by (symmetry; apply andb_true_iff; split; apply Z.leb_le; lia).
  replace ((1 <=? m) && (m <=? 12)) with true
    by (symmetry; apply andb_true_iff; split; apply Z.leb_le; lia).
  replace ((1 <=? d) && (d <=? days_in_month y m)) with true
    by (symmetry; apply andb_true_iff; split; apply Z.leb_le; lia).
  reflexivity.
Qed.

Lemma valid_dateb_true d : valid_dateb d = true -> valid_date d.
Proof.
  unfold valid_dateb, valid_date. rewrite !andb_true_iff, !Z.leb_le. tauto.
Qed.

Lemma days_before_year_pred y :
  days_before_year y = days_before_year (y - 1) + ylen (is_leap (y - 1)).
Proof.
  rewrite <- days_before_year_succ. f_equal. lia.
Qed.

Lemma month_cases m :
  1 <= m <= 12 ->
  m = 1 \/ m = 2 \/ m = 3 \/ m = 4 \/ m = 5 \/ m = 6 \/
  m = 7 \/ m = 8 \/ m = 9 \/ m = 10 \/ m = 11 \/ m = 12.
Proof. lia. Qed.

(** Evaluate the month tables and tests at the numerals in the goal. *)
Ltac eval_tables :=
  repeat match goal with
    | |- context [DAYS_BEFORE_MONTH ?m] =>
        let v := eval vm_compute in (DAYS_BEFORE_MONTH m) in
        change (DAYS_BEFORE_MONTH m) with v
    | |- context [DAYS_IN_MONTH ?m] =>
        let v := eval vm_compute in (DAYS_IN_MONTH m) in
        change (DAYS_IN_MONTH m) with v
    | |- context [Z.eqb ?a ?b] =>
        let v := eval vm_compute in (Z.eqb a b) in
        match v with true => idtac | false => idtac end;
        change (Z.eqb a b) with v
    | |- context [Z.ltb ?a ?b] =>
        let v := eval vm_compute in (Z.ltb a b) in
        match v with true => idtac | false => idtac end;
        change (Z.ltb a b) with v
    end;
  cbv beta iota delta [andb orb negb].

Ltac date_fields :=
  unfold valid_date, wf_date, date_le, toordinal, days_in_month,
    days_before_month, MINYEAR, MAXYEAR in *;
  cbn [year month day] in *.

(** Close [add_days d k = Ok d'] for dates whose months are numerals, the
    leap status of the years involved being known in the context. *)
Ltac solve_add_days :=
  apply add_days_eq;
  [ date_fields; eval_tables;
    repeat match goal with H : is_leap _ = _ |- _ => rewrite H end;
    cbv beta iota; eval_tables; lia
  | date_fields; eval_tables;
    rewrite ?days_before_year_succ;
    repeat match goal with H : is_leap _ = _ |- _ => rewrite H end;
    unfold ylen; cbv beta iota; lia ].

Ltac solve_valid :=
  date_fields; eval_tables;
  repeat match goal with H : is_leap _ = _ |- _ => rewrite H end;
  cbv beta iota; eval_tables; lia.

Lemma quarter_cases q : 0 <= q <= 3 -> q = 0 \/ q = 1 \/ q = 2 \/ q = 3.
Proof. lia. Qed.

Ltac eval_month_exprs :=
  repeat match goal with
    | |- context [mkDate _ (?a + ?b) _] =>
        let v := eval vm_compute in (a + b) in
        match v with Z.pos _ => idtac end;
        change (a + b) with v
    | |- context [days_in_month _ (?a + ?b)] =>
        let v := eval vm_compute in (a + b) in
        match v with Z.pos _ => idtac end;
        change (a + b) with v
    end.

Lemma quarter_tail y q :
  1 <= y <= 9999 -> 0 <= q <= 3 -> y < 9999 \/ q <= 2 ->
  add_days (mkDate y (3 * q + 1) 1) 95 = Ok (after95 y q) /\
  replace (after95 y q) None None (Some 1) =
    Ok (mkDate (year (after95 y q)) (month (after95 y q)) 1) /\
  add_days (mkDate (year (after95 y q)) (month (after95 y q)) 1) (-1) =
    Ok (mkDate y (3 * q + 3) (days_in_month y (3 * q + 3))).
Proof.
  intros Hy Hq Hr. unfold replace, after95.
  destruct (quarter_cases q Hq) as [E|[E|[E|E]]]; subst q;
    destruct (is_leap y) eqn:Hl; eval_tables; cbn [year month day];
    eval_month_exprs;
    (split; [solve_add_days| split; [apply make_date_ok; solve_valid| solve_add_days]]).
Qed.

Lemma month_tail y m :
  1 <= y <= 9999 -> 1 <= m <= 12 -> y < 9999 \/ m <= 11 ->
  add_days (mkDate y m 1) 32 = Ok (after32 y m) /\
  replace (after32 y m) None None (Some 1) =
    Ok (mkDate (year (after32 y m)) (month (after32 y m)) 1) /\
  add_days (mkDate (year (after32 y m)) (month (after32 y m)) 1) (-1) =
    Ok (mkDate y m (days_in_month y m)).
Proof.
  intros Hy Hm Hr. unfold replace, after32.
  destruct (month_cases m Hm) as [E|[E|[E|[E|[E|[E|[E|[E|[E|[E|[E|E]]]]]]]]]]];
    subst m;
    destruct (is_leap y) eqn:Hl; eval_tables; cbn [year month day];
    eval_month_exprs;
    (split; [solve_add_days| split; [apply make_date_ok; solve_valid| solve_add_days]]).
Qed.

Lemma first_minus_one y m :
  1 <= y <= 9999 -> 1 <= m <= 12 -> 1 < y \/ 1 < m ->
  add_days (mkDate y m 1) (-1) = Ok (last_of_previous y m).
Proof.
  intros Hy Hm Hr. unfold last_of_previous.
  destruct (month_cases m Hm) as [E|[E|[E|[E|[E|[E|[E|[E|[E|[E|[E|E]]]]]]]]]]];
    subst m; destruct (is_leap y) eqn:Hl; eval_tables;
    repeat match goal with
      | |- context [mkDate _ (?a - ?b) _] =>
          let v := eval vm_compute in (a - b) in
          match v with Z.pos _ => idtac end; change (a - b) with v
      | |- context [days_in_month _ (?a - ?b)] =>
          let v := eval vm_compute in (a - b) in
          match v with Z.pos _ => idtac end; change (a - b) with v
      end;
    try solve_add_days.
  all: apply add_days_eq;
    [ date_fields; eval_tables; lia
    | date_fields; eval_tables; rewrite (days_before_year_pred y);
      unfold ylen; destruct (is_leap (y - 1)); lia ].
Qed.

Lemma quarter_index m : 1 <= m <= 12 -> 0 <= (m - 1) / 3 <= 3.
Proof. intros Hm. Z.to_euclidean_division_equations. lia. Qed.

Lemma this_quarter_window now :
  valid_date now -> year now < MAXYEAR \/ month now <= 9 ->
  date_window now THIS_QUARTER =
  Ok (mkDate (year now) (3 * ((month now - 1) / 3) + 1) 1,
      mkDate (year now) (3 * ((month now - 1) / 3) + 3)
             (days_in_month (year now) (3 * ((month now - 1) / 3) + 3))).
Proof.
  destruct now as [y m d]. intros Hv Hr.
  assert (Hy : 1 <= y <= 9999) by (date_fields; lia).
  assert (Hm : 1 <= m <= 12) by (date_fields; lia).
  cbn [year month day] in Hr. unfold MAXYEAR in Hr.
  pose proof (quarter_index m Hm) as Hq.
  unfold date_window, replace. cbn [year month day].
  replace (((m - 1) / 3 + 1 - 1) * 3 + 1) with (3 * ((m - 1) / 3) + 1) by lia.
  set (q := (m - 1) / 3) in *.
  assert (Hr' : y < 9999 \/ q <= 2).
  { destruct Hr as [Hr|Hr]; [now left|right].
    subst q. Z.to_euclidean_division_equations. lia. }
  destruct (quarter_tail y q Hy Hq Hr') as (H1 & H2 & H3).
  unfold replace in H2. cbv beta iota in H2.
  rewrite make_date_ok.
  2:{ destruct (quarter_cases q Hq) as [E|[E|[E|E]]]; rewrite E; solve_valid. }
  cbn [bind]. rewrite H1. cbn [bind]. rewrite H2. cbn [bind]. rewrite H3.
  reflexivity.
Qed.

Lemma last_quarter_window now :
  valid_date now -> MINYEAR < year now \/ 4 <= month now ->
  date_window now LAST_QUARTER =
  Ok (if (month now - 1) / 3 =? 0
      then (mkDate (year now - 1) 10 1, mkDate (year now - 1) 12 31)
      else (mkDate (year now) (3 * ((month now - 1) / 3) - 2) 1,
            mkDate (year now) (3 * ((month now - 1) / 3))
                   (days_in_month (year now) (3 * ((month now - 1) / 3))))).
Proof.
  destruct now as [y m d]. intros Hv Hr.
  assert (Hy : 1 <= y <= 9999) by (date_fields; lia).
  assert (Hm : 1 <= m <= 12) by (date_fields; lia).
  cbn [year month day] in Hr. unfold MINYEAR in Hr.
  pose proof (quarter_index m Hm) as Hq.
  unfold date_window. cbn [year month day].
  set (q := (m - 1) / 3) in *.
  destruct (Z.eqb_spec q 0) as [E|E].
  - assert (Hy1 : 1 < y).
    { destruct Hr as [Hr|Hr]; [assumption|].
      exfalso. subst q. Z.to_euclidean_division_equations. lia. }
    destruct (quarter_tail (y - 1) 3 ltac:(lia) ltac:(lia) ltac:(lia)) as (H1 & H2 & H3).
    change (3 * 3 + 1) with 10 in H1. change (3 * 3 + 3) with 12 in H3.
    change (days_in_month (y - 1) 12) with 31 in H3.
    unfold replace in *. cbv beta iota in H2. cbn [year month day].
    rewrite make_date_ok by solve_valid.
    cbn [bind]. rewrite H1. cbn [bind]. rewrite H2. cbn [bind]. rewrite H3.
    reflexivity.
  - destruct (quarter_tail y (q - 1) Hy ltac:(lia) ltac:(lia)) as (H1 & H2 & H3).
    replace (3 * (q - 1) + 1) with (3 * q - 2) in H1 by lia.
    replace (3 * (q - 1) + 3) with (3 * q) in H3 by lia.
    unfold replace in *. cbv beta iota in H2. cbn [year month day].
    replace ((q - 1) * 3 + 1) with (3 * q - 2) by lia.
    rewrite make_date_ok.
    2:{ destruct (quarter_cases q Hq) as [E'|[E'|[E'|E']]]; rewrite E' in *;
        [lia|solve_valid..]. }
    cbn [bind]. rewrite H1. cbn [bind]. rewrite H2. cbn [bind]. rewrite H3.
    reflexivity.
Qed.

Lemma this_month_window now :
  valid_date now -> year now < MAXYEAR \/ month now <= 11 ->
  date_window now THIS_MONTH =
  Ok (mkDate (year now) (month now) 1,
      mkDate (year now) (month now) (days_in_month (year now) (month now))).
Proof.
  destruct now as [y m d]. intros Hv Hr.
  assert (Hy : 1 <= y <= 9999) by (date_fields; lia).
  assert (Hm : 1 <= m <= 12) by (date_fields; lia).
  cbn [year month day] in Hr. unfold MAXYEAR in Hr.
  destruct (month_tail y m Hy Hm Hr) as (H1 & H2 & H3).
  unfold date_window, replace in *. cbv beta iota in H2. cbn [year month day].
  rewrite make_date_ok by (date_fields; lia).
  cbn [bind]. rewrite H1. cbn [bind]. rewrite H2. cbn [bind]. rewrite H3.
  reflexivity.
Qed.

Lemma last_of_previous_valid y m :
  1 <= y <= 9999 -> 1 <= m <= 12 -> 1 < y \/ 1 < m ->
  valid_date (last_of_previous y m) /\
  valid_date (mkDate (year (last_of_previous y m)) (month (last_of_previous y m)) 1).
Proof.
  intros Hy Hm Hr. unfold last_of_previous.
  destruct (month_cases m Hm) as [E|[E|[E|[E|[E|[E|[E|[E|[E|[E|[E|E]]]]]]]]]]];
    subst m; destruct (is_leap y) eqn:Hl; eval_tables;
    repeat match goal with
      | |- context [mkDate _ (?a - ?b) _] =>
          let v := eval vm_compute in (a - b) in
          match v with Z.pos _ => idtac end; change (a - b) with v
      | |- context [days_in_month _ (?a - ?b)] =>
          let v := eval vm_compute in (a - b) in
          match v with Z.pos _ => idtac end; change (a - b) with v
      end;
    cbn [year month day]; split; solve_valid.
Qed.

Lemma last_month_window now :
  valid_date now -> MINYEAR < year now \/ 1 < month now ->
  date_window now LAST_MONTH =
  Ok (mkDate (year (last_of_previous (year now) (month now)))
             (month (last_of_previous (year now) (month now))) 1,
      last_of_previous (year now) (month now)).
Proof.
  destruct now as [y m d]. intros Hv Hr.
  assert (Hy : 1 <= y <= 9999) by (date_fields; lia).
  assert (Hm : 1 <= m <= 12) by (date_fields; lia).
  cbn [year month day] in Hr. unfold MINYEAR in Hr.
  pose proof (first_minus_one y m Hy Hm Hr) as H1.
  destruct (last_of_previous_valid y m Hy Hm Hr) as [_ Hv1].
  unfold date_window, replace. cbn [year month day].
  rewrite make_date_ok by (date_fields; lia).
  cbn [bind]. rewrite H1. cbn [bind].
  rewrite make_date_ok by exact Hv1.
  reflexivity.
Qed.

Lemma this_year_window now :
  valid_date now ->
  date_window now THIS_YEAR =
  Ok (mkDate (year now) 1 1, mkDate (year now) 12 31).
Proof.
  destruct now as [y m d]. intros Hv.
  unfold date_window, replace. cbn [year month day].
  rewrite !make_date_ok by solve_valid. reflexivity.
Qed.

Lemma last_year_window now :
  valid_date now -> MINYEAR < year now ->
  date_window now LAST_YEAR =
  Ok (mkDate (year now - 1) 1 1, mkDate (year now - 1) 12 31).
Proof.
  destruct now as [y m d]. intros Hv Hr. cbn [year] in Hr. unfold MINYEAR in Hr.
  unfold date_window, replace. cbn [year month day].
  rewrite !make_date_ok by solve_valid. reflexivity.
Qed.

Lemma weekday_range d : 0 <= weekday d <= 6.
Proof. unfold weekday. pose proof (Z.mod_pos_bound (toordinal d + 6) 7). lia. Qed.

(** A week that starts [k] days before [now]. *)
Lemma week_window now k :
  1 <= toordinal now - k -> toordinal now - k + 6 <= MAXORDINAL ->
  (start <- add_days now (- k) ;; end_ <- add_days start 6 ;; Ok (start, end_)) =
    Ok (fromordinal (toordinal now - k), fromordinal (toordinal now - k + 6)) /\
  valid_date (fromordinal (toordinal now - k)) /\
  valid_date (fromordinal (toordinal now - k + 6)) /\
  date_le (fromordinal (toordinal now - k)) (fromordinal (toordinal now - k + 6)).
Proof.
  intros Hlo Hhi.
  destruct (fromordinal_valid (toordinal now - k) ltac:(lia)) as [Hv1 Ho1].
  destruct (fromordinal_valid (toordinal now - k + 6) ltac:(lia)) as [Hv2 Ho2].
  split; [|split; [assumption|split; [assumption|]]].
  - unfold add_days at 1.
    replace (toordinal now + - k) with (toordinal now - k) by lia.
    replace (0 <? toordinal now - k) with true by (symmetry; apply Z.ltb_lt; lia).
    replace (toordinal now - k <=? MAXORDINAL) with true
      by (symmetry; apply Z.leb_le; lia).
    cbn [andb bind]. unfold add_days. rewrite Ho1.
    replace (0 <? toordinal now - k + 6) with true by (symmetry; apply Z.ltb_lt; lia).
    replace (toordinal now - k + 6 <=? MAXORDINAL) with true
      by (symmetry; apply Z.leb_le; lia).
    reflexivity.
  - apply toordinal_le_date_le; [apply valid_wf; assumption..|]. lia.
Qed.

(** In the interior of the calendar an ordinal has two weeks before it and
    a week after it. *)
Lemma interior_ordinal now :
  valid_date now -> MINYEAR < year now < MAXYEAR ->
  366 <= toordinal now <= MAXORDINAL - 365.
Proof.
  intros Hv Hr. pose proof (toordinal_bounds now (valid_wf now Hv)) as Hb.
  unfold MINYEAR, MAXYEAR in Hr.
  pose proof (days_before_year_le 2 (year now) ltac:(lia)) as Hlo.
  pose proof (days_before_year_le (year now + 1) 9999 ltac:(lia)) as Hhi.
  change (days_before_year 2) with 365 in Hlo.
  change (days_before_year 9999) with (MAXORDINAL - 365) in Hhi. lia.
Qed.


Lemma interior_fits now r :
  valid_date now -> MINYEAR < year now < MAXYEAR -> window_fits now r.
Proof.
  intros Hv Hr. pose proof (interior_ordinal now Hv Hr) as Ho.
  pose proof (weekday_range now) as Hw.
  destruct r; cbn [window_fits]; unfold MINYEAR, MAXYEAR in *; lia.
Qed.

(** Every supported period has a window wherever it fits the calendar:
    two valid dates, the start not after the end. *)
Lemma date_window_ok now r :
  valid_date now -> window_fits now r ->
  exists s e,
    date_window now r = Ok (s, e) /\ valid_date s /\ valid_date e /\ date_le s e.
Proof.
  intros Hv Hf.
  assert (Hy : 1 <= year now <= 9999) by (date_fields; lia).
  assert (Hm : 1 <= month now <= 12) by (date_fields; lia).
  destruct r; cbn [window_fits] in Hf.
  - (* this week *)
    pose proof (toordinal_range now Hv) as Ho.
    assert (Hlo : 1 <= toordinal now - weekday now).
    { unfold weekday. Z.to_euclidean_division_equations. lia. }
    destruct (week_window now (weekday now) Hlo Hf) as (E & V1 & V2 & L).
    eexists; eexists. split; [exact E|auto].
  - (* last week *)
    pose proof (toordinal_range now Hv) as Ho.
    pose proof (weekday_range now) as Hw.
    destruct (week_window now (weekday now + 7) Hf ltac:(lia)) as (E & V1 & V2 & L).
    eexists; eexists. split; [exact E|auto].
  - (* this month *)
    rewrite (this_month_window now Hv Hf). eexists; eexists.
    split; [reflexivity|].
    pose proof (md_to_yday (is_leap (year now)) (month now) 1) as Hd.
    assert (Hdim : 1 <= days_in_month (year now) (month now)) by (date_fields; lia).
    repeat split; date_fields; lia.
  - (* last month *)
    rewrite (last_month_window now Hv Hf). eexists; eexists.
    split; [reflexivity|].
    destruct (last_of_previous_valid (year now) (month now) Hy Hm Hf) as [V1 V2].
    split; [exact V2|split; [exact V1|]].
    unfold date_le. cbn [year month day]. right. split; [reflexivity|].
    right. split; [reflexivity|]. date_fields. lia.
  - (* this quarter *)
    rewrite (this_quarter_window now Hv Hf). eexists; eexists.
    split; [reflexivity|].
    pose proof (quarter_index (month now) Hm) as Hq.
    destruct (quarter_cases _ Hq) as [E|[E|[E|E]]]; rewrite E;
      destruct (is_leap (year now)) eqn:Hl;
      (split; [solve_valid|split; [solve_valid|date_fields; eval_tables; lia]]).
  - (* last quarter *)
    rewrite (last_quarter_window now Hv Hf).
    pose proof (quarter_index (month now) Hm) as Hq.
    destruct (Z.eqb_spec ((month now - 1) / 3) 0) as [E|E].
    + assert (Hy1 : 1 < year now).
      { destruct Hf as [Hf|Hf]; [unfold MINYEAR in Hf; lia|].
        exfalso. revert E. Z.to_euclidean_division_equations. lia. }
      eexists; eexists. split; [reflexivity|].
      split; [solve_valid|split; [solve_valid|date_fields; lia]].
    + eexists; eexists. split; [reflexivity|].
      destruct (quarter_cases _ Hq) as [E'|[E'|[E'|E']]]; rewrite E' in *;
        [lia|..];
        destruct (is_leap (year now)) eqn:Hl;
        (split; [solve_valid|split; [solve_valid|date_fields; eval_tables; lia]]).
  - (* this year *)
    rewrite (this_year_window now Hv). eexists; eexists.
    split; [reflexivity|].
    split; [solve_valid|split; [solve_valid|date_fields; lia]].
  - (* last year *)
    rewrite (last_year_window now Hv Hf). eexists; eexists.
    split; [reflexivity|]. unfold MINYEAR in Hf.
    split; [solve_valid|split; [solve_valid|date_fields; lia]].
Qed.

Section Periods.
Variable w : World.

(** [DateRange(s)] finds the member named [s], or raises [ValueError]. *)
Lemma DateRange_of_value_spec s :
  (exists r, value r = s /\ DateRange_of_value w s = Ok r) \/
  (~ In s (map value members) /\
   DateRange_of_value w s =
     Raise (mkExn "ValueError" (repr_str w s ++ " is not a valid DateRange"))).
Proof.
  unfold DateRange_of_value.
  destruct (find (fun r => String.eqb (value r) s) members) as [r|] eqn:Hfind.
  - left. exists r. apply find_some in Hfind. destruct Hfind as [_ He].
    apply String.eqb_eq in He. split; [assumption|reflexivity].
  - right. split; [|reflexivity].
    intros Hin. apply in_map_iff in Hin. destruct Hin as (r & Hr & Hin).
    pose proof (find_none _ _ Hfind r Hin) as Hn. cbn beta in Hn.
    rewrite Hr, String.eqb_refl in Hn. discriminate.
Qed.

(** A non-empty period name outside the enum: [query_opportunities]
    returns the payload that lists the valid names, and sends nothing. *)
Lemma query_opportunities_invalid_period c rest stage min_amount limit :
  ~ In (normalized (String c rest)) (map value members) ->
  query_opportunities w (String c rest) stage min_amount limit =
  (_ <- get_salesforce_client w ;; Ok (invalid_period_payload (String c rest))).
Proof.
  intros Hn. unfold query_opportunities.
  destruct (get_salesforce_client w) as [client|e]; [|reflexivity].
  cbn [bind]. unfold date_conditions.
  change (nonempty (String c rest)) with true. cbv iota.
  fold (normalized (String c rest)).
  destruct (DateRange_of_value_spec (normalized (String c rest)))
    as [(r & Hr & _)|[_ ->]].
  - exfalso. apply Hn. rewrite <- Hr. apply in_map.
    destruct r; cbn; tauto.
  - reflexivity.
Qed.

End Periods.

(** *** Quarter windows *)

(** C6, as the code has it.  For a reference date before October 9999,
    "this quarter" starts on day 1 of month 1, 4, 7 or 10 of the reference
    year and ends on the last day of the month two months later, and the
    reference date lies between the two; for a January reference date after
    year 1, "last quarter" is October 1 to December 31 of the year before. *)
Theorem quarter_windows (now jan : date) :
  valid_date now -> year now < MAXYEAR \/ month now <= 9 ->
  valid_date jan -> month jan = 1 -> MINYEAR < year jan ->
  (exists first last,
     date_window now THIS_QUARTER = Ok (first, last) /\
     day first = 1 /\ In (month first) [1; 4; 7; 10] /\
     year first = year now /\ year last = year now /\
     month last = month first + 2 /\
     day last = days_in_month (year last) (month last) /\
     date_le first now /\ date_le now last) /\
  date_window jan LAST_QUARTER =
    Ok (mkDate (year jan - 1) 10 1, mkDate (year jan - 1) 12 31).
Proof.
  intros Hv Hr Hvj Hmj Hyj. split.
  - rewrite (this_quarter_window now Hv Hr).
    eexists; eexists. split; [reflexivity|]. cbn [year month day].
    assert (Hm : 1 <= month now <= 12) by (date_fields; lia).
    assert (Hd : 1 <= day now <= days_in_month (year now) (month now))
      by (date_fields; lia).
    pose proof (quarter_index (month now) Hm) as Hq.
    assert (Hspan : 3 * ((month now - 1) / 3) + 1 <= month now
                    <= 3 * ((month now - 1) / 3) + 3)
      by (Z.to_euclidean_division_equations; lia).
    repeat split; try lia.
    + destruct (quarter_cases _ Hq) as [E|[E|[E|E]]]; rewrite E; cbn; tauto.
    + unfold date_le. cbn [year month day]. right. split; [reflexivity|]. lia.
    + unfold date_le. cbn [year month day]. right. split; [reflexivity|].
      destruct (Z.eq_dec (month now) (3 * ((month now - 1) / 3) + 3)) as [E|E].
      * right. split; [assumption|]. rewrite <- E. lia.
      * left. lia.
  - rewrite (last_quarter_window jan Hvj (or_introl Hyj)). rewrite Hmj.
    reflexivity.
Qed.

Lemma quarter_windows_witness :
  (exists first last,
     date_window (mkDate 2025 11 4) THIS_QUARTER = Ok (first, last) /\
     day first = 1 /\ In (month first) [1; 4; 7; 10] /\
     year first = 2025 /\ year last = 2025 /\
     month last = month first + 2 /\
     day last = days_in_month (year last) (month last) /\
     date_le first (mkDate 2025 11 4) /\ date_le (mkDate 2025 11 4) last) /\
  date_window (mkDate 2026 1 20) LAST_QUARTER =
    Ok (mkDate 2025 10 1, mkDate 2025 12 31).
Proof.
  apply (quarter_windows (mkDate 2025 11 4) (mkDate 2026 1 20)).
  - apply valid_dateb_true. reflexivity.
  - left. reflexivity.
  - apply valid_dateb_true. reflexivity.
  - reflexivity.
  - reflexivity.
Defined.

(** In the last quarter of year 9999 the quarter's end is searched 95 days
    after October 1, beyond the last date there is; in January of year 1
    the previous year does not exist. *)
Lemma quarter_windows_counterexample :
  valid_date (mkDate 9999 11 15) /\
  date_window (mkDate 9999 11 15) THIS_QUARTER =
    Raise (mkExn "OverflowError" "date value out of range") /\
  valid_date (mkDate 1 1 15) /\
  date_window (mkDate 1 1 15) LAST_QUARTER =
    Raise (mkExn "ValueError" "year 0 is out of range").
Proof.
  split; [apply valid_dateb_true; reflexivity|].
  split; [vm_compute; reflexivity|].
  split; [apply valid_dateb_true; reflexivity|].
  vm_compute. reflexivity.
Qed.

(** *** All periods *)

Section Windows.
Variable w : World.

Lemma get_date_range_window r :
  get_date_range w r =
  (' (s, e) <- date_window (now w) r ;; Ok (strftime_ymd s, strftime_ymd e)).
Proof. reflexivity. Qed.

(** C7, as the code has it.  For every supported period and every
    reference date at which the window fits the calendar, the resolver
    returns two valid dates, the start not after the end.  For every name
    that is not one of the eight the enum raises [ValueError], nothing
    else; and [query_opportunities], which consults the resolver for a
    non-empty [time_period] only, then returns the payload that names the
    error and lists the eight valid names. *)
Theorem date_windows_valid (r : DateRange) (name : string) (c : ascii)
        (rest stage : string) (min_amount : option num) (limit : Z) :
  valid_date (now w) -> window_fits (now w) r ->
  (exists s e,
     date_window (now w) r = Ok (s, e) /\
     get_date_range w r = Ok (strftime_ymd s, strftime_ymd e) /\
     valid_date s /\ valid_date e /\ date_le s e) /\
  (In name (map value members) \/
   exists msg, DateRange_of_value w name = Raise (mkExn "ValueError" msg)) /\
  (In (normalized (String c rest)) (map value members) \/
   query_opportunities w (String c rest) stage min_amount limit =
     (_ <- get_salesforce_client w ;;
      Ok (PDict [kv "error" (PStr ("Invalid time period: " ++ String c rest));
                 kv "valid_options"
                    (PList [PStr "this_week"; PStr "last_week";
                            PStr "this_month"; PStr "last_month";
                            PStr "this_quarter"; PStr "last_quarter";
                            PStr "this_year"; PStr "last_year"])]))).
Proof.
  intros Hv Hf. split; [|split].
  - destruct (date_window_ok (now w) r Hv Hf) as (s & e & E & V1 & V2 & L).
    exists s, e. rewrite get_date_range_window, E. auto.
  - destruct (DateRange_of_value_spec w name) as [(r' & Hr' & _)|[_ E]].
    + left. rewrite <- Hr'. apply in_map. destruct r'; cbn; tauto.
    + right. eexists. exact E.
  - destruct (in_dec string_dec (normalized (String c rest)) (map value members))
      as [Hin|Hn]; [now left|right].
    apply query_opportunities_invalid_period. exact Hn.
Qed.

(** Between years 2 and 9998 every window fits. *)
Corollary date_windows_interior (r : DateRange) :
  valid_date (now w) -> MINYEAR < year (now w) < MAXYEAR ->
  exists s e,
    get_date_range w r = Ok (strftime_ymd s, strftime_ymd e) /\
    valid_date s /\ valid_date e /\ date_le s e.
Proof.
  intros Hv Hr.
  destruct (date_window_ok (now w) r Hv (interior_fits _ r Hv Hr))
    as (s & e & E & V1 & V2 & L).
  exists s, e. rewrite get_date_range_window, E. auto.
Qed.

End Windows.

Lemma date_windows_valid_witness :
  (exists s e,
     date_window (mkDate 2025 6 30) LAST_WEEK = Ok (s, e) /\
     get_date_range
       (Examples.world (mkDate 2025 6 30) (Examples.responded 200 (PDict [])))
       LAST_WEEK = Ok (strftime_ymd s, strftime_ymd e) /\
     valid_date s /\ valid_date e /\ date_le s e) /\
  (In "fortnight" (map value members) \/
   exists msg,
     DateRange_of_value
       (Examples.world (mkDate 2025 6 30) (Examples.responded 200 (PDict [])))
       "fortnight" = Raise (mkExn "ValueError" msg)) /\
  (In (normalized "Next Week") (map value members) \/
   query_opportunities
     (Examples.world (mkDate 2025 6 30) (Examples.responded 200 (PDict [])))
     "Next Week" "" None 50 =
     (_ <- get_salesforce_client
             (Examples.world (mkDate 2025 6 30) (Examples.responded 200 (PDict []))) ;;
      Ok (PDict [kv "error" (PStr ("Invalid time period: " ++ "Next Week"));
                 kv "valid_options"
                    (PList [PStr "this_week"; PStr "last_week";
                            PStr "this_month"; PStr "last_month";
                            PStr "this_quarter"; PStr "last_quarter";
                            PStr "this_year"; PStr "last_year"])]))).
Proof.
  apply (date_windows_valid
           (Examples.world (mkDate 2025 6 30) (Examples.responded 200 (PDict [])))
           LAST_WEEK "fortnight" "N" "ext Week" "" None 50).
  - apply valid_dateb_true. reflexivity.
  - cbn [window_fits now Examples.world]. vm_compute. discriminate.
Defined.

(** On the last days of year 9999 the week ends after the last date there
    is: the resolver raises [OverflowError], which [query_opportunities]
    does not catch.  In year 1 "last year" does not exist: the resolver
    raises [ValueError], which [query_opportunities] reports as an invalid
    period although the name is one of the eight. *)
Lemma date_windows_counterexample :
  valid_date (mkDate 9999 12 30) /\
  date_window (mkDate 9999 12 30) THIS_WEEK =
    Raise (mkExn "OverflowError" "date value out of range") /\
  query_opportunities
    (Examples.world (mkDate 9999 12 30) (Examples.responded 200 (PDict [])))
    "this_week" "" None 50 =
    Raise (mkExn "OverflowError" "date value out of range") /\
  valid_date (mkDate 1 6 15) /\
  date_window (mkDate 1 6 15) LAST_YEAR =
    Raise (mkExn "ValueError" "year 0 is out of range") /\
  query_opportunities
    (Examples.world (mkDate 1 6 15) (Examples.responded 200 (PDict [])))
    "last_year" "" None 50 =
    Ok (invalid_period_payload "last_year").
Proof.
  split; [apply valid_dateb_true; reflexivity|].
  split; [vm_compute; reflexivity|].
  split; [vm_compute; reflexivity|].
  split; [apply valid_dateb_true; reflexivity|].
  split; vm_compute; reflexivity.
Qed.

(** A supported name is accepted in any case and with spaces. *)
Example last_quarter_accepted :
  normalized "Last Quarter" = "last_quarter" /\
  get_date_range
    (Examples.world (mkDate 2025 1 20) (Examples.responded 200 (PDict [])))
    LAST_QUARTER = Ok ("2024-10-01", "2024-12-31").
Proof. split; vm_compute; reflexivity. Qed.

(** ** Transport: [execute_query] *)

Lemma bind_ok_inv {A B : Type} (m : Result A) (k : A -> Result B) (b : B) :
  bind m k = Ok b -> exists a, m = Ok a /\ k a = Ok b.
Proof.
  destruct m as [a|e]; cbn [bind]; intros H; [eauto|discriminate].
Qed.

Lemma raises_bind_l {A B : Type} (m : Result A) (k : A -> Result B) :
  raises m -> raises (bind m k).
Proof. intros [e ->]. exists e. reflexivity. Qed.

Lemma raises_bind_r {A B : Type} (m : Result A) (k : A -> Result B) :
  (forall a, raises (k a)) -> raises (bind m k).
Proof.
  intros Hk. destruct m as [a|e]; cbn [bind]; [apply Hk|exists e; reflexivity].
Qed.

Lemma raises_not_ok {A : Type} (m : Result A) (a : A) : raises m -> m <> Ok a.
Proof. intros [e ->]. discriminate. Qed.

Section Transport.
Variable w : World.

Import Client Httpx.

(** A well-formed error entry yields its message, a string. *)
Lemma error_message_object e :
  error_object e = true -> exists s, error_message w e = Ok (PStr s).
Proof.
  destruct e as [| | | | |l|f]; cbn [error_object]; try discriminate.
  intros H. apply andb_true_iff in H. destruct H as [Hm Hx].
  unfold error_message, py_get.
  cbn [bind].
  destruct (dict_lookup (PStr "extensions") f) as [x|]; cbn [bind].
  - destruct x as [| | | | |l|x]; try discriminate. cbn [bind].
    destruct (truthy _); [eexists; reflexivity|].
    destruct (dict_lookup (PStr "message") f) as [m|]; [|eexists; reflexivity].
    destruct m; try discriminate. eexists; reflexivity.
  - cbn [dict_lookup truthy]. change (negb (String.eqb "" "")) with false. cbv iota.
    destruct (dict_lookup (PStr "message") f) as [m|]; [|eexists; reflexivity].
    destruct m; try discriminate. eexists; reflexivity.
Qed.

Lemma mapM_error_messages l :
  forallb error_object l = true ->
  exists ss, mapM (error_message w) l = Ok (map PStr ss).
Proof.
  induction l as [|e l IH]; cbn [forallb mapM]; intros H.
  - exists []. reflexivity.
  - apply andb_true_iff in H. destruct H as [He Hl].
    destruct (error_message_object e He) as [s ->].
    destruct (IH Hl) as [ss ->]. exists (s :: ss). reflexivity.
Qed.

Lemma str_items_strings ss : forall i, str_items i (map PStr ss) = Ok ss.
Proof.
  induction ss as [|s ss IH]; intros i; cbn [map str_items]; [reflexivity|].
  rewrite IH. reflexivity.
Qed.

(** C2.  A response with a 2xx status and a JSON object body whose
    [errors] entry is absent or a list: [execute_query] returns the parsed
    body exactly when the entry is absent or the empty list, and raises
    exactly when the list is non-empty; when the entries are error objects
    the exception raised is the [Exception] that carries "GraphQL errors"
    and the joined messages. *)
Theorem execute_query_2xx (c : SalesforceClient) (query : string)
        (variables : option pyval) (response : Response)
        (body : list (pyval * pyval)) (errors : option (list pyval)) :
  post w (base_url c) (headers c) query (or_empty variables) = Responded response ->
  200 <= status_code response <= 299 ->
  json response = Ok (PDict body) ->
  dict_lookup (PStr "errors") body = option_map PList errors ->
  (execute_query w c query variables = Ok (PDict body) <->
     errors = None \/ errors = Some []) /\
  (raises (execute_query w c query variables) <->
     exists e es, errors = Some (e :: es)) /\
  (forallb error_object (match errors with Some l => l | None => [] end) = true ->
   errors = None \/ errors = Some [] \/
   exists ss,
     execute_query w c query variables =
       Raise (mkExn "Exception" ("GraphQL errors: " ++ join "; " ss))).
Proof.
  intros Hpost Hstatus Hjson Herrors.
  assert (Hexec :
    execute_query w c query variables =
    match errors with
    | Some (e :: es) =>
        error_messages <- mapM (error_message w) (e :: es) ;;
        full_error_msg <- py_join "; " error_messages ;;
        Raise (mkExn "Exception" ("GraphQL errors: " ++ full_error_msg))
    | _ => Ok (PDict body)
    end).
  { unfold execute_query. rewrite Hpost. unfold raise_for_status.
    replace ((200 <=? status_code response) && (status_code response <=? 299))
      with true by (symmetry; apply andb_true_iff; split; apply Z.leb_le; lia).
    rewrite Hjson. cbn [bind]. unfold py_get, py_getitem. rewrite Herrors.
    destruct errors as [[|e es]|]; reflexivity. }
  assert (Hraise : forall e es, errors = Some (e :: es) ->
                                raises (execute_query w c query variables)).
  { intros e es ->. rewrite Hexec.
    apply raises_bind_r. intros msgs. apply raises_bind_r. intros full.
    eexists. reflexivity. }
  split; [|split].
  - split.
    + intros Hok. destruct errors as [[|e es]|]; auto.
      exfalso. exact (raises_not_ok _ _ (Hraise e es eq_refl) Hok).
    + intros [->| ->]; exact Hexec.
  - split.
    + intros [x Hx]. destruct errors as [[|e es]|]; eauto;
        rewrite Hexec in Hx; discriminate.
    + intros (e & es & He). exact (Hraise e es He).
  - intros Hobj. destruct errors as [[|e es]|]; auto.
    right. right. rewrite Hexec.
    destruct (mapM_error_messages (e :: es) Hobj) as [ss ->].
    exists ss. cbn [bind]. unfold py_join. rewrite str_items_strings.
    reflexivity.
Qed.

End Transport.

Lemma execute_query_2xx_witness :
  raises
    (Client.execute_query
       (Examples.world Examples.today
          (Examples.responded 200
             (PDict [kv "data" PNone;
                     kv "errors" (PList [PDict [kv "message" (PStr "No such column")]])])))
       (mkClient "https://example.my.salesforce.com" "token")
       "query { uiapi { query { Account { totalCount } } } }" None).
Proof.
  refine (proj2 (proj1 (proj2
    (execute_query_2xx
       (Examples.world Examples.today
          (Examples.responded 200
             (PDict [kv "data" PNone;
                     kv "errors" (PList [PDict [kv "message" (PStr "No such column")]])])))
       (mkClient "https://example.my.salesforce.com" "token")
       "query { uiapi { query { Account { totalCount } } } }" None
       (Httpx.mkResponse 200 ""
          (Ok (PDict [kv "data" PNone;
                      kv "errors" (PList [PDict [kv "message" (PStr "No such column")]])])))
       [kv "data" PNone;
        kv "errors" (PList [PDict [kv "message" (PStr "No such column")]])]
       (Some [PDict [kv "message" (PStr "No such column")]])
       eq_refl _ eq_refl eq_refl))) _).
  - cbn. lia.
  - exists (PDict [kv "message" (PStr "No such column")]), []. reflexivity.
Defined.

(** A 2xx body with [errors: []], and one without the key, are returned. *)
Example execute_query_empty_errors :
  Client.execute_query
    (Examples.world Examples.today
       (Examples.responded 200 (PDict [kv "data" (PDict []); kv "errors" (PList [])])))
    (mkClient "https://example.my.salesforce.com" "token") "query { uiapi }" None
  = Ok (PDict [kv "data" (PDict []); kv "errors" (PList [])]) /\
  Client.execute_query
    (Examples.world Examples.today
       (Examples.responded 200 (PDict [kv "data" (PDict [])])))
    (mkClient "https://example.my.salesforce.com" "token") "query { uiapi }" None
  = Ok (PDict [kv "data" (PDict [])]).
Proof. split; reflexivity. Qed.

(** The messages of the error entries are joined, each with its
    classification when it has one. *)
Example execute_query_graphql_errors :
  Client.execute_query
    (Examples.world Examples.today
       (Examples.responded 200
          (PDict [kv "data" PNone;
                  kv "errors"
                     (PList [PDict [kv "message" (PStr "No such column")];
                             PDict [kv "message" (PStr "Bad value");
                                    kv "extensions"
                                       (PDict [kv "classification"
                                                  (PStr "ValidationError")])]])])))
    (mkClient "https://example.my.salesforce.com" "token") "query { uiapi }" None
  = Raise (mkExn "Exception"
             "GraphQL errors: No such column; Bad value (Classification: ValidationError)").
Proof. vm_compute. reflexivity. Qed.

(** A non-2xx status is reported as a plain [Exception]. *)
Example execute_query_http_error :
  Client.execute_query
    (Examples.world Examples.today (Examples.responded 500 PNone))
    (mkClient "https://example.my.salesforce.com" "token") "query { uiapi }" None
  = Raise (mkExn "Exception" "API request failed: 500").
Proof. vm_compute. reflexivity. Qed.

(** ** The tool layer *)

(** *** Exceptions at the tool boundary *)

Section ToolBoundary.
Variable w : World.

(** A tool whose body is wrapped in the handler returns, whatever the body
    does; what it returns on an exception has the three keys. *)
Lemma try_except_returns (body : Result pyval) :
  exists payload,
    try_except body failure_payload = Ok payload /\
    (body = Ok payload \/
     exists e,
       body = Raise e /\
       at_path ["success"] payload = Some (PBool false) /\
       at_path ["error"] payload = Some (PStr (exn_msg e)) /\
       at_path ["error_type"] payload = Some (PStr (exn_type e))).
Proof.
  destruct body as [p|e]; cbn [try_except].
  - exists p. auto.
  - exists (failure_payload e). split; [reflexivity|right].
    exists e. repeat split; reflexivity.
Qed.

Lemma high_value_pipeline_analysis_returns min_amount limit :
  returns (BusinessAnalysisTools.high_value_pipeline_analysis w min_amount limit).
Proof.
  unfold BusinessAnalysisTools.high_value_pipeline_analysis.
  destruct (try_except_returns
              (BusinessAnalysisTools.high_value_pipeline_body w min_amount limit))
    as (p & -> & _).
  exists p. reflexivity.
Qed.

(** The pass-through tools hand the client's exception to their caller. *)
Lemma get_opportunity_propagates c opportunity_id e :
  get_salesforce_client w = Ok c ->
  Client.execute_query w c Client.get_opportunity_document
    (Some (PDict [kv "opportunityId" (PStr opportunity_id)])) = Raise e ->
  OpportunityTools.get_opportunity w opportunity_id = Raise e.
Proof.
  intros Hc He. unfold OpportunityTools.get_opportunity, Client.get_opportunity.
  rewrite Hc. cbn [bind]. rewrite He. reflexivity.
Qed.

End ToolBoundary.

(** C1, as the code has it.  A tool whose work runs inside the generic
    handler does not hand an exception to its caller: whatever is raised
    inside the [try] block, by the transport ([execute_query]: network,
    HTTP status, GraphQL errors) or while the response is processed, comes
    back as the payload [{success: false, error, error_type}].  This holds
    of the handler whatever the work inside it, of [query_opportunities]
    once the client is configured and the period resolved, and of
    [high_value_pipeline_analysis] in every world. *)
Theorem handler_reports_exceptions (w : World) (c : SalesforceClient)
        (time_period stage : string) (min_amount : option num) (limit : Z)
        (threshold : num) (date_conds : list string) (work : Result pyval) :
  get_salesforce_client w = Ok c ->
  date_conditions w time_period = Ok (inr date_conds) ->
  let query := query_opportunities_query w date_conds stage min_amount limit in
  let body :=
    query_opportunities_body w c query time_period stage min_amount limit in
  (exists payload,
     try_except work failure_payload = Ok payload /\
     (forall e,
        work = Raise e ->
        payload = PDict [kv "success" (PBool false);
                         kv "error" (PStr (exn_msg e));
                         kv "error_type" (PStr (exn_type e))])) /\
  (exists payload,
     query_opportunities w time_period stage min_amount limit = Ok payload /\
     (forall e, Client.execute_query w c query None = Raise e -> body = Raise e) /\
     (forall e,
        body = Raise e ->
        payload = PDict [kv "success" (PBool false);
                         kv "error" (PStr (exn_msg e));
                         kv "error_type" (PStr (exn_type e))]) /\
     (forall p, body = Ok p -> payload = p)) /\
  (exists payload,
     BusinessAnalysisTools.high_value_pipeline_analysis w threshold limit = Ok payload /\
     (forall e,
        BusinessAnalysisTools.high_value_pipeline_body w threshold limit = Raise e ->
        payload = PDict [kv "success" (PBool false);
                         kv "error" (PStr (exn_msg e));
                         kv "error_type" (PStr (exn_type e))]) /\
     (forall p,
        BusinessAnalysisTools.high_value_pipeline_body w threshold limit = Ok p ->
        payload = p)).
Proof.
  intros Hc Hd. cbv zeta. split; [|split].
  - destruct work as [p|e0]; cbn [try_except]; eexists; (split; [reflexivity|]).
    + intros e He. discriminate.
    + intros e He. injection He as <-. reflexivity.
  - unfold query_opportunities. rewrite Hc. cbn [bind]. rewrite Hd. cbn [bind].
    destruct (query_opportunities_body w c _ time_period stage min_amount limit)
      as [p|e0] eqn:Hb; cbn [try_except].
    + exists p. split; [reflexivity|]. split; [|split].
      * intros e He. unfold query_opportunities_body in Hb.
        rewrite He in Hb. cbn [bind] in Hb. discriminate.
      * intros e He. discriminate.
      * intros p' Hp. now injection Hp.
    + exists (failure_payload e0). split; [reflexivity|]. split; [|split].
      * intros e He. unfold query_opportunities_body in Hb.
        rewrite He in Hb. cbn [bind] in Hb. now injection Hb as ->.
      * intros e He. injection He as <-. reflexivity.
      * intros p' Hp. discriminate.
  - unfold BusinessAnalysisTools.high_value_pipeline_analysis.
    destruct (BusinessAnalysisTools.high_value_pipeline_body w threshold limit)
      as [p|e0]; cbn [try_except].
    + exists p. split; [reflexivity|]. split.
      * intros e He. discriminate.
      * intros p' Hp. now injection Hp.
    + exists (failure_payload e0). split; [reflexivity|]. split.
      * intros e He. injection He as <-. reflexivity.
      * intros p' Hp. discriminate.
Qed.

Lemma handler_reports_exceptions_witness :
  let w := Examples.world Examples.today (Examples.responded 500 PNone) in
  let c := mkClient "https://example.my.salesforce.com" "token" in
  let query := query_opportunities_query w [] "" None 50 in
  let body := query_opportunities_body w c query "" "" None 50 in
  let work : Result pyval := Raise (mkExn "KeyError" "'node'") in
  (exists payload,
     try_except work failure_payload = Ok payload /\
     (forall e,
        work = Raise e ->
        payload = PDict [kv "success" (PBool false);
                         kv "error" (PStr (exn_msg e));
                         kv "error_type" (PStr (exn_type e))])) /\
  (exists payload,
     query_opportunities w "" "" None 50 = Ok payload /\
     (forall e, Client.execute_query w c query None = Raise e -> body = Raise e) /\
     (forall e,
        body = Raise e ->
        payload = PDict [kv "success" (PBool false);
                         kv "error" (PStr (exn_msg e));
                         kv "error_type" (PStr (exn_type e))]) /\
     (forall p, body = Ok p -> payload = p)) /\
  (exists payload,
     BusinessAnalysisTools.high_value_pipeline_analysis w (NInt 50000) 50 = Ok payload /\
     (forall e,
        BusinessAnalysisTools.high_value_pipeline_body w (NInt 50000) 50 = Raise e ->
        payload = PDict [kv "success" (PBool false);
                         kv "error" (PStr (exn_msg e));
                         kv "error_type" (PStr (exn_type e))]) /\
     (forall p,
        BusinessAnalysisTools.high_value_pipeline_body w (NInt 50000) 50 = Ok p ->
        payload = p)).
Proof.
  exact (handler_reports_exceptions
           (Examples.world Examples.today (Examples.responded 500 PNone))
           (mkClient "https://example.my.salesforce.com" "token")
           "" "" None 50 (NInt 50000) [] (Raise (mkExn "KeyError" "'node'"))
           eq_refl eq_refl).
Defined.

(** The endpoint answers 500: the two tools above return the failure
    payload. *)
Example handler_tools_at_http_500 :
  let w := Examples.world Examples.today (Examples.responded 500 PNone) in
  OpportunityTools.query_opportunities w "" "" None 50 =
    Ok (PDict [kv "success" (PBool false);
               kv "error" (PStr "API request failed: 500");
               kv "error_type" (PStr "Exception")]) /\
  BusinessAnalysisTools.high_value_pipeline_analysis w (NInt 50000) 50 =
    Ok (PDict [kv "success" (PBool false);
               kv "error" (PStr "API request failed: 500");
               kv "error_type" (PStr "Exception")]).
Proof. vm_compute. repeat split. Qed.

(** Where the claim fails.  An unsupported period name is answered by
    [{error, valid_options}], a payload with neither [success] nor
    [error_type]; and [get_opportunity], [search_opportunities] and
    [search_accounts], which have no handler, raise the client's exception
    to their caller when the endpoint answers 500. *)
Lemma tool_errors_counterexample :
  OpportunityTools.query_opportunities
    (Examples.world Examples.today (Examples.responded 200 (PDict [])))
    "next week" "" None 50 =
    Ok (PDict [kv "error" (PStr "Invalid time period: next week");
               kv "valid_options"
                  (PList [PStr "this_week"; PStr "last_week";
                          PStr "this_month"; PStr "last_month";
                          PStr "this_quarter"; PStr "last_quarter";
                          PStr "this_year"; PStr "last_year"])]) /\
  at_path ["success"] (invalid_period_payload "next week") = None /\
  at_path ["error_type"] (invalid_period_payload "next week") = None /\
  OpportunityTools.get_opportunity
    (Examples.world Examples.today (Examples.responded 500 PNone)) "006A" =
    Raise (mkExn "Exception" "API request failed: 500") /\
  OpportunityTools.search_opportunities
    (Examples.world Examples.today (Examples.responded 500 PNone)) "" None 10 =
    Raise (mkExn "Exception" "API request failed: 500") /\
  AccountTools.search_accounts
    (Examples.world Examples.today (Examples.responded 500 PNone)) "" 10 =
    Raise (mkExn "Exception" "API request failed: 500").
Proof. vm_compute. repeat split. Qed.

(** *** Filters the search methods ignore *)

(** C8.  [search_opportunities] gives the same result whatever [stage] and
    [min_amount] are, and [search_accounts] whatever [industry] is, in
    every world: the document sent and the records returned depend on
    [limit] alone.  This holds of the client methods and of the tools. *)
Theorem search_filters_ignored (w : World) (c : SalesforceClient)
        (stage stage' : string) (min_amount min_amount' : option num)
        (industry industry' : string) (limit : Z) :
  OpportunityTools.search_opportunities w stage min_amount limit =
    OpportunityTools.search_opportunities w stage' min_amount' limit /\
  AccountTools.search_accounts w industry limit =
    AccountTools.search_accounts w industry' limit /\
  Client.search_opportunities w c (Some stage) min_amount limit =
    Client.search_opportunities w c None None limit /\
  Client.search_accounts w c (Some industry) limit =
    Client.search_accounts w c None limit.
Proof.
  unfold OpportunityTools.search_opportunities, AccountTools.search_accounts.
  destruct (get_salesforce_client w); repeat split; reflexivity.
Qed.

(** *** The constant in [high_value_pipeline_analysis] *)

(** C10.  [high_value_pipeline_analysis] always returns a payload, and a
    payload with [success: true] has [filter_applied.total_in_org] equal to
    34, whatever the remote service answered and whatever the arguments. *)
Theorem total_in_org_is_34 (w : World) (min_amount : num) (limit : Z) :
  exists payload,
    BusinessAnalysisTools.high_value_pipeline_analysis w min_amount limit = Ok payload /\
    (at_path ["success"] payload = Some (PBool false) \/
     at_path ["success"] payload = Some (PBool true) /\
     at_path ["filter_applied"; "total_in_org"] payload = Some (PInt 34)).
Proof.
  unfold BusinessAnalysisTools.high_value_pipeline_analysis.
  destruct (BusinessAnalysisTools.high_value_pipeline_body w min_amount limit)
    as [p|e] eqn:Hbody; cbn [try_except].
  - exists p. split; [reflexivity|right].
    unfold BusinessAnalysisTools.high_value_pipeline_body in Hbody.
    repeat (apply bind_ok_inv in Hbody; destruct Hbody as (? & _ & Hbody)).
    injection Hbody as <-. split; reflexivity.
  - eexists. split; [reflexivity|left]. reflexivity.
Qed.

(** The remote [totalCount] is 7; the report says 34. *)
Example total_in_org_ignores_total_count :
  match
    BusinessAnalysisTools.high_value_pipeline_analysis
      (Examples.world Examples.today
         (Examples.responded 200
            (Examples.body_of "Opportunity" [Examples.full_edge] 7)))
      (NInt 50000) 50
  with
  | Ok payload =>
      at_path ["success"] payload = Some (PBool true) /\
      at_path ["filter_applied"; "total_in_org"] payload = Some (PInt 34) /\
      at_path ["pipeline_summary"; "weighted_pipeline_value"] payload =
        Some (PFloat (25000 # 1))
  | Raise _ => False
  end.
Proof. vm_compute. repeat split. Qed.

(** *** Records with a null relation *)

Section NullRelation.
Variable w : World.

(** No record whose [Account] is [null] is normalized. *)
Lemma null_account_not_normalized (node : list (pyval * pyval)) :
  dict_lookup (PStr "Account") node = Some PNone ->
  raises (OpportunityTools.normalize_edge (PDict [kv "node" (PDict node)])).
Proof.
  intros Hnull. unfold OpportunityTools.normalize_edge.
  change (py_get (PDict [kv "node" (PDict node)]) "node" (PDict []))
    with (Ok (PDict node)).
  cbn [bind]. apply raises_bind_r. intros amount_value. cbv zeta.
  do 6 (apply raises_bind_r; intros ?).
  unfold py_get at 1. rewrite Hnull. cbn [bind].
  apply raises_bind_l. eexists. reflexivity.
Qed.

Lemma null_account_stops_pipeline (p : BusinessAnalysisTools.pipeline)
      (node : list (pyval * pyval)) :
  dict_lookup (PStr "Account") node = Some PNone ->
  raises (BusinessAnalysisTools.loop_step w p (PDict [kv "node" (PDict node)])).
Proof.
  intros Hnull. unfold BusinessAnalysisTools.loop_step.
  change (py_getitem (PDict [kv "node" (PDict node)]) "node")
    with (Ok (PDict node)).
  cbn [bind]. do 6 (apply raises_bind_r; intros ?).
  apply raises_bind_l. unfold rel_field, py_get at 1. rewrite Hnull.
  cbn [bind]. apply raises_bind_l. eexists. reflexivity.
Qed.

End NullRelation.

(** C5 at a failing input: one opportunity whose [Account] is [null].  The
    lookup of the account's fields raises [AttributeError], and the tools
    return the failure payload instead of a record with defaults. *)
Theorem null_relation_fails :
  let w := Examples.world Examples.today
             (Examples.responded 200
                (Examples.body_of "Opportunity" [Examples.orphan_edge] 1)) in
  OpportunityTools.normalize_edge Examples.orphan_edge =
    Raise (mkExn "AttributeError" "'NoneType' object has no attribute 'get'") /\
  OpportunityTools.query_opportunities w "" "" None 50 =
    Ok (PDict [kv "success" (PBool false);
               kv "error" (PStr "'NoneType' object has no attribute 'get'");
               kv "error_type" (PStr "AttributeError")]) /\
  BusinessAnalysisTools.high_value_pipeline_analysis w (NInt 50000) 50 =
    Ok (PDict [kv "success" (PBool false);
               kv "error" (PStr "'NoneType' object has no attribute 'get'");
               kv "error_type" (PStr "AttributeError")]).
Proof. vm_compute. repeat split. Qed.

(** A missing key, unlike a null value, is replaced by its default. *)
Example missing_fields_default :
  OpportunityTools.normalize_edge (PDict [kv "node" (PDict [kv "Id" (PStr "006A")])]) =
  Ok (PDict [kv "id" (PStr "006A");
             kv "name" (PStr "");
             kv "amount" (PInt 0);
             kv "amount_display" (PStr "");
             kv "close_date" (PStr "");
             kv "stage" (PStr "");
             kv "probability" (PInt 0);
             kv "account" (PDict [kv "id" PNone; kv "name" (PStr "")]);
             kv "owner" (PDict [kv "id" PNone; kv "name" (PStr "")])],
      PInt 0).
Proof. reflexivity. Qed.

(** No edges: zero counts and totals. *)
Example empty_input_zeros :
  match
    OpportunityTools.query_opportunities
      (Examples.world Examples.today
         (Examples.responded 200 (Examples.body_of "Opportunity" [] 0)))
      "" "" None 50
  with
  | Ok payload =>
      at_path ["success"] payload = Some (PBool true) /\
      at_path ["summary"; "total_opportunities"] payload = Some (PInt 0) /\
      at_path ["summary"; "total_value"] payload = Some (PInt 0) /\
      at_path ["summary"; "average_deal_size"] payload = Some (PInt 0) /\
      at_path ["opportunities"] payload = Some (PList [])
  | Raise _ => False
  end.
Proof. vm_compute. repeat split. Qed.

(** ** Strings *)

Lemma append_assoc (a b c : string) : (a ++ b) ++ c = a ++ (b ++ c).
Proof. induction a as [|x a IH]; cbn; [reflexivity|now rewrite IH]. Qed.

Lemma append_nil_r (a : string) : a ++ "" = a.
Proof. induction a as [|x a IH]; cbn; [reflexivity|now rewrite IH]. Qed.

Lemma occurs_refl s : occurs s s.
Proof. exists "", "". cbn. now rewrite append_nil_r. Qed.

Lemma occurs_app_l s t l : occurs s t -> occurs s (l ++ t).
Proof.
  intros (a & b & ->). exists (l ++ a), b. now rewrite append_assoc.
Qed.

Lemma occurs_app_r s t r : occurs s t -> occurs s (t ++ r).
Proof.
  intros (a & b & ->). exists a, (b ++ r). now rewrite !append_assoc.
Qed.

Lemma occurs_join sep x l : In x l -> occurs x (join sep l).
Proof.
  induction l as [|y l IH]; [contradiction|].
  intros [->|Hin].
  - destruct l; cbn [join]; [apply occurs_refl|apply occurs_app_r, occurs_refl].
  - destruct l as [|z l]; [contradiction|].
    cbn [join]. apply occurs_app_l, occurs_app_l. apply IH. exact Hin.
Qed.

Lemma strip_app a b : strip (a ++ b) = strip a ++ strip b.
Proof.
  induction a as [|c a IH]; cbn; [reflexivity|].
  destruct (keep c); cbn; now rewrite IH.
Qed.

Lemma strip_uint d : strip (NilEmpty.string_of_uint d) = "".
Proof.
  induction d; cbn [NilEmpty.string_of_uint strip]; [reflexivity|..];
    match goal with
    | |- context [keep ?c] => change (keep c) with false
    end; exact IHd.
Qed.

(** [str(n)] is made of digits and a sign. *)
Lemma strip_str_of_Z z : strip (str_of_Z z) = "".
Proof.
  unfold str_of_Z, NilZero.string_of_int, NilZero.string_of_uint.
  destruct (Z.to_int z) as [d|d]; destruct d; cbn [NilEmpty.string_of_uint strip];
    repeat match goal with
      | |- context [keep ?c] => change (keep c) with false
      end;
    cbv iota; try apply strip_uint; reflexivity.
Qed.

Lemma occurs_strip s t : strip s = s -> occurs s t -> occurs s (strip t).
Proof.
  intros Hs (l & r & ->). exists (strip l), (strip r).
  now rewrite !strip_app, Hs.
Qed.

Lemma prefix_app s r : prefix s (s ++ r) = true.
Proof.
  induction s as [|c s IH]; cbn; [now destruct r|].
  destruct (ascii_dec c c); [exact IH|congruence].
Qed.

Lemma occursb_complete s t : occurs s t -> occursb s t = true.
Proof.
  intros (l & r & ->). induction l as [|c l IH].
  - cbn [append]. destruct (s ++ r) eqn:E; cbn [occursb]; rewrite <- E;
      rewrite prefix_app; reflexivity.
  - cbn [append occursb]. rewrite IH. apply orb_true_r.
Qed.

(** ** Aggregation: the median *)

Section Median.
Import AccountTools.

Lemma insert_perm x l : Permutation (x :: l) (insert x l).
Proof.
  induction l as [|y l IH]; cbn [insert]; [reflexivity|].
  destruct (x <=? y); [reflexivity|].
  rewrite perm_swap. now apply perm_skip.
Qed.

Lemma sorted_perm l : Permutation l (sorted l).
Proof.
  induction l as [|x l IH]; cbn [sorted]; [constructor|].
  rewrite <- insert_perm. now apply perm_skip.
Qed.

Lemma insert_sorted x l : Sorted Z.le l -> Sorted Z.le (insert x l).
Proof.
  induction l as [|y l IH]; cbn [insert]; intros Hs.
  - repeat constructor.
  - destruct (Z.leb_spec x y).
    + constructor; [assumption|]. constructor. assumption.
    + inversion Hs as [|? ? Hl Hhd]; subst. constructor; [now apply IH|].
      destruct l as [|z l]; cbn [insert].
      * constructor. lia.
      * destruct (Z.leb_spec x z); constructor; try lia.
        inversion Hhd; subst. assumption.
Qed.

Lemma sorted_sorted l : Sorted Z.le (sorted l).
Proof.
  induction l as [|x l IH]; cbn [sorted]; [constructor|now apply insert_sorted].
Qed.

(** A sorted list is left as it is. *)
Lemma sorted_id l : Sorted Z.le l -> sorted l = l.
Proof.
  induction l as [|x l IH]; cbn [sorted]; intros Hs; [reflexivity|].
  inversion Hs as [|? ? Hl Hhd]; subst. rewrite (IH Hl).
  destruct l as [|y l]; cbn [insert]; [reflexivity|].
  inversion Hhd; subst.
  destruct (Z.leb_spec x y); [reflexivity|lia].
Qed.

(** C3, as the code has it.  The median of a non-empty list is the element
    at index [len // 2] of the sorted list.  For an even length 2k that is
    index k, the upper of the two middle elements: the median of
    [10, 20, 30, 40] is 30, and [median_revenue] takes the same index. *)
Theorem median_is_upper_middle (x : Z) (xs : list Z) :
  exists m,
    median_employees (x :: xs) = Some m /\
    nth_error (sorted (x :: xs)) (List.length (x :: xs) / 2) = Some m /\
    Sorted Z.le (sorted (x :: xs)) /\
    Permutation (x :: xs) (sorted (x :: xs)) /\
    median_employees [10; 20; 30; 40] = Some 30 /\
    median_revenue (fun q => q) [10 # 1; 20 # 1; 30 # 1; 40 # 1]%Q = Some (30 # 1)%Q.
Proof.
  assert (Hlen : (List.length (x :: xs) / 2 < List.length (sorted (x :: xs)))%nat).
  { rewrite <- (Permutation_length (sorted_perm (x :: xs))).
    apply Nat.div_lt; cbn [List.length]; lia. }
  apply nth_error_Some in Hlen.
  destruct (nth_error (sorted (x :: xs)) (List.length (x :: xs) / 2)) as [m|] eqn:E;
    [|congruence].
  exists m. unfold median_employees. rewrite E.
  repeat split; auto using sorted_sorted, sorted_perm.
Qed.

(** The spec's example: the lower-middle element 20 is not what the code
    returns. *)
Lemma median_counterexample :
  median_employees [10; 20; 30; 40] = Some 30 /\
  median_employees [10; 20; 30; 40] <> Some 20.
Proof. split; [reflexivity|discriminate]. Qed.

(** On an input that is already sorted and has 2k elements, the median is
    the element at index k. *)
Lemma median_even_sorted (l : list Z) (k : nat) :
  Sorted Z.le l -> List.length l = (2 * k)%nat -> (0 < k)%nat ->
  median_employees l = nth_error l k.
Proof.
  intros Hs Hl Hk. unfold median_employees.
  destruct l as [|x l]; [cbn in Hl; lia|].
  rewrite (sorted_id _ Hs), Hl. f_equal.
  rewrite Nat.mul_comm. apply Nat.div_mul. lia.
Qed.

End Median.

(** ** Query construction *)

Section QueryText.
Variable w : World.

Lemma where_clause_occurs (conds : list string) (c : string) :
  In c conds -> occurs c (OpportunityTools.where_clause conds).
Proof.
  intros Hin. destruct conds as [|c0 cs]; [contradiction|].
  unfold OpportunityTools.where_clause.
  apply (occurs_app_l _ _ "where: { "), occurs_app_r, occurs_join. exact Hin.
Qed.

(** Whatever the caller passes as [stage] stands in the document between
    two double quotes, character for character. *)
Lemma stage_reaches_document date_conds stage min_amount limit :
  nonempty stage = true ->
  occurs ("StageName: { eq: " ++ dquote ++ stage ++ dquote ++ " }")
         (query_opportunities_query w date_conds stage min_amount limit).
Proof.
  intros Hs. unfold query_opportunities_query, query_opportunities_document.
  apply occurs_app_l. apply occurs_app_r.
  apply where_clause_occurs. unfold stage_condition. rewrite Hs.
  apply in_or_app. right. left. reflexivity.
Qed.

Lemma industry_reaches_document industry limit :
  nonempty industry = true ->
  occurs ("Industry: { eq: " ++ dquote ++ industry ++ dquote ++ " }")
         (AccountTools.query_accounts_query limit industry).
Proof.
  intros Hs. unfold AccountTools.query_accounts_query,
    AccountTools.query_accounts_document, AccountTools.where_clause.
  rewrite Hs. apply occurs_app_l, occurs_app_r.
  exists "where: { ", " }". rewrite !append_assoc. reflexivity.
Qed.

Lemma excluded_stage_reaches_document stage limit :
  occurs ("StageName: { ne: " ++ dquote ++ stage ++ dquote ++ " }")
         (BusinessAnalysisTools.sales_stage_analysis_query (Some [stage]) limit).
Proof.
  unfold BusinessAnalysisTools.sales_stage_analysis_query,
    BusinessAnalysisTools.sales_stage_analysis_document.
  apply occurs_app_l, occurs_app_r.
  change (BusinessAnalysisTools.where_clause (Some [stage]))
    with ("where: " ++ "{ StageName: { ne: " ++ dquote ++ stage ++ dquote ++ " } }").
  exists "where: { ", " }". rewrite !append_assoc. reflexivity.
Qed.

End QueryText.

(** C4 at a failing input: a stage name with a double quote in it.  The
    three tools put it into the document as it is, so the quote ends the
    string literal and the rest of the value is read as more conditions;
    [get_opportunity], by contrast, sends its identifier as the bound
    variable [$opportunityId]. *)
Theorem raw_filter_interpolation :
  let w := Examples.world Examples.today (Examples.responded 200 (PDict [])) in
  OpportunityTools.where_clause (OpportunityTools.stage_condition Examples.injected_stage) =
    "where: { StageName: { eq: " ++ dquote ++ "Closed Won" ++ dquote
    ++ " }, Amount: { gte: 0 }, Name: { ne: " ++ dquote ++ "x" ++ dquote ++ " } }" /\
  occurs ("StageName: { eq: " ++ dquote ++ Examples.injected_stage ++ dquote ++ " }")
         (query_opportunities_query w [] Examples.injected_stage None 50) /\
  AccountTools.where_clause Examples.injected_stage =
    "where: { Industry: { eq: " ++ dquote ++ "Closed Won" ++ dquote
    ++ " }, Amount: { gte: 0 }, Name: { ne: " ++ dquote ++ "x" ++ dquote ++ " } }" /\
  occurs ("Industry: { eq: " ++ dquote ++ Examples.injected_stage ++ dquote ++ " }")
         (AccountTools.query_accounts_query 50 Examples.injected_stage) /\
  BusinessAnalysisTools.where_clause (Some [Examples.injected_stage]) =
    "where: { StageName: { ne: " ++ dquote ++ "Closed Won" ++ dquote
    ++ " }, Amount: { gte: 0 }, Name: { ne: " ++ dquote ++ "x" ++ dquote ++ " } }" /\
  occurs ("StageName: { ne: " ++ dquote ++ Examples.injected_stage ++ dquote ++ " }")
         (BusinessAnalysisTools.sales_stage_analysis_query
            (Some [Examples.injected_stage]) 50) /\
  ~ occurs "006A" Client.get_opportunity_document.
Proof.
  cbv zeta.
  split; [reflexivity|]. split; [now apply stage_reaches_document|].
  split; [reflexivity|]. split; [now apply industry_reaches_document|].
  split; [reflexivity|]. split; [apply excluded_stage_reaches_document|].
  intros H. apply occursb_complete in H. vm_compute in H. discriminate.
Qed.

(** *** The exclusion filter of [sales_stage_analysis] *)

(** C9.  With two or more excluded stages the where clause is empty: the
    document sent is the one sent when nothing is excluded, and the word
    "where" does not occur in it.  With exactly one excluded stage the
    clause is the [ne] condition on that stage. *)
Theorem exclusion_needs_one_stage (s1 s2 : string) (rest : list string) (limit : Z) :
  BusinessAnalysisTools.where_clause (Some (s1 :: s2 :: rest)) = "" /\
  BusinessAnalysisTools.sales_stage_analysis_query (Some (s1 :: s2 :: rest)) limit =
    BusinessAnalysisTools.sales_stage_analysis_query None limit /\
  ~ occurs "where"
      (BusinessAnalysisTools.sales_stage_analysis_query (Some (s1 :: s2 :: rest)) limit) /\
  BusinessAnalysisTools.where_clause (Some [s1]) =
    "where: { StageName: { ne: " ++ dquote ++ s1 ++ dquote ++ " } }" /\
  BusinessAnalysisTools.where_clause (Some []) = "" /\
  BusinessAnalysisTools.where_clause None = "".
Proof.
  split; [reflexivity|]. split; [reflexivity|].
  split; [|repeat split; reflexivity].
  intros H. apply (occurs_strip "where" _ eq_refl) in H.
  apply occursb_complete in H. revert H.
  unfold BusinessAnalysisTools.sales_stage_analysis_query,
    BusinessAnalysisTools.sales_stage_analysis_document.
  cbn [BusinessAnalysisTools.where_clause BusinessAnalysisTools.stage_conditions map].
  rewrite !strip_app, strip_str_of_Z.
  vm_compute. discriminate.
Qed.

(** * Further properties *)

(** ** The windows of [get_date_range], period by period *)

(** What [d + timedelta(days=k)] returns is a date of the calendar, [k]
    days from [d]. *)
Lemma add_days_ordinal d k d' :
  add_days d k = Ok d' -> valid_date d' /\ toordinal d' = toordinal d + k.
Proof.
  unfold add_days.
  destruct ((0 <? toordinal d + k) && (toordinal d + k <=? MAXORDINAL)) eqn:E;
    [|discriminate].
  intros H. injection H as <-.
  apply andb_true_iff in E. destruct E as [E1 E2].
  apply Z.ltb_lt in E1. apply Z.leb_le in E2.
  apply fromordinal_valid. lia.
Qed.

Lemma weekday_of_monday o k :
  k = (o + 6) mod 7 -> (o - k + 6) mod 7 = 0.
Proof. intros ->. Z.to_euclidean_division_equations. lia. Qed.

(** X1.  "This week" runs from the Monday on or before the reference date
    to the Sunday six days later: the start is [weekday] days before the
    reference date, and the reference date lies in the window. *)
Theorem this_week_monday_to_sunday (now : date) :
  valid_date now -> window_fits now THIS_WEEK ->
  exists s e,
    date_window now THIS_WEEK = Ok (s, e) /\
    valid_date s /\ valid_date e /\
    weekday s = 0 /\ weekday e = 6 /\
    toordinal s + weekday now = toordinal now /\
    toordinal e = toordinal s + 6 /\
    date_le s now /\ date_le now e.
Proof.
  intros Hv Hf. cbn [window_fits] in Hf.
  pose proof (toordinal_range now Hv) as Ho.
  pose proof (weekday_range now) as Hw.
  assert (Hlo : 1 <= toordinal now - weekday now).
  { unfold weekday. Z.to_euclidean_division_equations. lia. }
  destruct (week_window now (weekday now) Hlo Hf) as (E & V1 & V2 & _).
  destruct (fromordinal_valid (toordinal now - weekday now) ltac:(lia)) as [_ O1].
  destruct (fromordinal_valid (toordinal now - weekday now + 6) ltac:(lia)) as [_ O2].
  eexists; eexists. split; [exact E|].
  split; [exact V1|]. split; [exact V2|].
  assert (W1 : weekday (fromordinal (toordinal now - weekday now)) = 0).
  { unfold weekday at 1. rewrite O1. apply weekday_of_monday. reflexivity. }
  split; [exact W1|].
  split.
  { unfold weekday at 1. rewrite O2.
    unfold weekday. Z.to_euclidean_division_equations. lia. }
  rewrite O1, O2.
  split; [lia|]. split; [lia|].
  split; apply toordinal_le_date_le; try (apply valid_wf; assumption);
    rewrite ?O1, ?O2; lia.
Qed.

Lemma this_week_monday_to_sunday_witness :
  exists s e,
    date_window (mkDate 2025 11 5) THIS_WEEK = Ok (s, e) /\
    valid_date s /\ valid_date e /\
    weekday s = 0 /\ weekday e = 6 /\
    toordinal s + weekday (mkDate 2025 11 5) = toordinal (mkDate 2025 11 5) /\
    toordinal e = toordinal s + 6 /\
    date_le s (mkDate 2025 11 5) /\ date_le (mkDate 2025 11 5) e.
Proof.
  apply (this_week_monday_to_sunday (mkDate 2025 11 5)).
  - apply valid_dateb_true. reflexivity.
  - vm_compute. discriminate.
Defined.

(** X2.  "Last week" is the Monday-to-Sunday week that ends the day before
    the Monday of the reference date's week. *)
Theorem last_week_ends_before_this_week (now : date) :
  valid_date now -> window_fits now LAST_WEEK ->
  exists s e,
    date_window now LAST_WEEK = Ok (s, e) /\
    valid_date s /\ valid_date e /\
    weekday s = 0 /\ weekday e = 6 /\
    toordinal e = toordinal s + 6 /\
    toordinal e + 1 + weekday now = toordinal now.
Proof.
  intros Hv Hf. cbn [window_fits] in Hf.
  pose proof (toordinal_range now Hv) as Ho.
  pose proof (weekday_range now) as Hw.
  destruct (week_window now (weekday now + 7) Hf ltac:(lia)) as (E & V1 & V2 & _).
  destruct (fromordinal_valid (toordinal now - (weekday now + 7)) ltac:(lia))
    as [_ O1].
  destruct (fromordinal_valid (toordinal now - (weekday now + 7) + 6) ltac:(lia))
    as [_ O2].
  eexists; eexists. split; [exact E|].
  split; [exact V1|]. split; [exact V2|].
  split.
  { unfold weekday at 1. rewrite O1.
    unfold weekday. Z.to_euclidean_division_equations. lia. }
  split.
  { unfold weekday at 1. rewrite O2.
    unfold weekday. Z.to_euclidean_division_equations. lia. }
  rewrite O1, O2. lia.
Qed.

Lemma last_week_ends_before_this_week_witness :
  exists s e,
    date_window (mkDate 2025 11 5) LAST_WEEK = Ok (s, e) /\
    valid_date s /\ valid_date e /\
    weekday s = 0 /\ weekday e = 6 /\
    toordinal e = toordinal s + 6 /\
    toordinal e + 1 + weekday (mkDate 2025 11 5) = toordinal (mkDate 2025 11 5).
Proof.
  apply (last_week_ends_before_this_week (mkDate 2025 11 5)).
  - apply valid_dateb_true. reflexivity.
  - vm_compute. discriminate.
Defined.

(** X3.  "This month" is the calendar month of the reference date, first
    day to last day, and contains the reference date; in December 9999,
    where the end is searched 32 days after the first, the resolver raises
    [OverflowError]. *)
Theorem this_month_is_calendar_month (now : date) :
  valid_date now ->
  (year now < MAXYEAR \/ month now <= 11 ->
   date_window now THIS_MONTH =
     Ok (mkDate (year now) (month now) 1,
         mkDate (year now) (month now) (days_in_month (year now) (month now)))) /\
  (year now = MAXYEAR /\ month now = 12 ->
   date_window now THIS_MONTH =
     Raise (mkExn "OverflowError" "date value out of range")) /\
  date_le (mkDate (year now) (month now) 1) now /\
  date_le now (mkDate (year now) (month now) (days_in_month (year now) (month now))).
Proof.
  intros Hv. split; [|split; [|split]].
  - intros Hr. apply this_month_window; assumption.
  - destruct now as [y m d]. cbn [year month day]. intros [-> ->].
    vm_compute. reflexivity.
  - unfold date_le. cbn [year month day]. right. split; [reflexivity|].
    right. split; [reflexivity|]. date_fields. lia.
  - unfold date_le. cbn [year month day]. right. split; [reflexivity|].
    right. split; [reflexivity|]. date_fields. lia.
Qed.

Lemma this_month_is_calendar_month_witness :
  (2024 < MAXYEAR \/ 2 <= 11 ->
   date_window (mkDate 2024 2 14) THIS_MONTH =
     Ok (mkDate 2024 2 1, mkDate 2024 2 (days_in_month 2024 2))) /\
  (2024 = MAXYEAR /\ 2 = 12 ->
   date_window (mkDate 2024 2 14) THIS_MONTH =
     Raise (mkExn "OverflowError" "date value out of range")) /\
  date_le (mkDate 2024 2 1) (mkDate 2024 2 14) /\
  date_le (mkDate 2024 2 14) (mkDate 2024 2 (days_in_month 2024 2)).
Proof.
  apply (this_month_is_calendar_month (mkDate 2024 2 14)).
  apply valid_dateb_true. reflexivity.
Defined.

(** X4.  "Last month" is the whole calendar month before the reference
    date's: it starts on a first, ends on the last day of the same month,
    and that day is the eve of the first of the reference month.  In
    January of year 1 there is no day before the first: [OverflowError]. *)
Theorem last_month_is_previous_month (now : date) :
  valid_date now ->
  (MINYEAR < year now \/ 1 < month now ->
   exists s e,
     date_window now LAST_MONTH = Ok (s, e) /\
     valid_date s /\ valid_date e /\
     day s = 1 /\ year s = year e /\ month s = month e /\
     day e = days_in_month (year e) (month e) /\
     toordinal e + 1 = toordinal (mkDate (year now) (month now) 1)) /\
  (year now = MINYEAR /\ month now = 1 ->
   date_window now LAST_MONTH =
     Raise (mkExn "OverflowError" "date value out of range")).
Proof.
  intros Hv. split.
  - intros Hr.
    assert (Hy : 1 <= year now <= 9999) by (date_fields; lia).
    assert (Hm : 1 <= month now <= 12) by (date_fields; lia).
    rewrite (last_month_window now Hv Hr).
    destruct (last_of_previous_valid (year now) (month now) Hy Hm Hr) as [V1 V2].
    pose proof (first_minus_one (year now) (month now) Hy Hm Hr) as Hadd.
    apply add_days_ordinal in Hadd. destruct Hadd as [_ Hord].
    eexists; eexists. split; [reflexivity|].
    split; [exact V2|]. split; [exact V1|].
    cbn [year month day].
    split; [reflexivity|]. split; [reflexivity|]. split; [reflexivity|].
    split; [|lia].
    unfold last_of_previous.
    destruct (Z.eqb_spec (month now) 1) as [E|E]; cbn [year month day];
      reflexivity.
  - destruct now as [y m d]. cbn [year month day]. intros [-> ->].
    vm_compute. reflexivity.
Qed.

Lemma last_month_is_previous_month_witness :
  (MINYEAR < 2024 \/ 1 < 3 ->
   exists s e,
     date_window (mkDate 2024 3 31) LAST_MONTH = Ok (s, e) /\
     valid_date s /\ valid_date e /\
     day s = 1 /\ year s = year e /\ month s = month e /\
     day e = days_in_month (year e) (month e) /\
     toordinal e + 1 = toordinal (mkDate 2024 3 1)) /\
  (2024 = MINYEAR /\ 3 = 1 ->
   date_window (mkDate 2024 3 31) LAST_MONTH =
     Raise (mkExn "OverflowError" "date value out of range")).
Proof.
  apply (last_month_is_previous_month (mkDate 2024 3 31)).
  apply valid_dateb_true. reflexivity.
Defined.

(** X5.  "This year" resolves at every reference date, to January 1 and
    December 31 of its year; "last year" is the same of the year before,
    and in year 1, which has none, the resolver raises the constructor's
    [ValueError]. *)
Theorem year_windows (now : date) :
  valid_date now ->
  date_window now THIS_YEAR =
    Ok (mkDate (year now) 1 1, mkDate (year now) 12 31) /\
  (MINYEAR < year now ->
   date_window now LAST_YEAR =
     Ok (mkDate (year now - 1) 1 1, mkDate (year now - 1) 12 31)) /\
  (year now = MINYEAR ->
   date_window now LAST_YEAR =
     Raise (mkExn "ValueError" "year 0 is out of range")) /\
  date_le (mkDate (year now) 1 1) now /\ date_le now (mkDate (year now) 12 31).
Proof.
  intros Hv. split; [|split; [|split; [|split]]].
  - apply this_year_window. assumption.
  - intros Hr. apply last_year_window; assumption.
  - destruct now as [y m d]. cbn [year]. intros ->. vm_compute. reflexivity.
  - unfold date_le. cbn [year month day]. right. split; [reflexivity|].
    date_fields. lia.
  - unfold date_le. cbn [year month day]. right. split; [reflexivity|].
    assert (Hd : days_in_month (year now) (month now) <= 31).
    { destruct Hv as (_ & Hm & _).
      destruct (month_cases _ Hm) as [E|[E|[E|[E|[E|[E|[E|[E|[E|[E|[E|E]]]]]]]]]]];
        rewrite E; unfold days_in_month;
        destruct (is_leap (year now)); vm_compute; discriminate. }
    destruct Hv as (_ & Hm & Hday). lia.
Qed.

Lemma year_windows_witness :
  date_window (mkDate 2024 2 29) THIS_YEAR =
    Ok (mkDate 2024 1 1, mkDate 2024 12 31) /\
  (MINYEAR < 2024 ->
   date_window (mkDate 2024 2 29) LAST_YEAR =
     Ok (mkDate (2024 - 1) 1 1, mkDate (2024 - 1) 12 31)) /\
  (2024 = MINYEAR ->
   date_window (mkDate 2024 2 29) LAST_YEAR =
     Raise (mkExn "ValueError" "year 0 is out of range")) /\
  date_le (mkDate 2024 1 1) (mkDate 2024 2 29) /\
  date_le (mkDate 2024 2 29) (mkDate 2024 12 31).
Proof.
  apply (year_windows (mkDate 2024 2 29)).
  apply valid_dateb_true. reflexivity.
Defined.

(** X6.  "Last quarter" is the calendar quarter before the reference
    date's: it starts on the first of January, April, July or October,
    ends on the last day of the month two months later, and that day is
    the eve of the first day of "this quarter". *)
Theorem last_quarter_precedes_this_quarter (now : date) :
  valid_date now -> window_fits now LAST_QUARTER ->
  exists s e,
    date_window now LAST_QUARTER = Ok (s, e) /\
    day s = 1 /\ In (month s) [1; 4; 7; 10] /\
    year e = year s /\ month e = month s + 2 /\
    day e = days_in_month (year e) (month e) /\
    toordinal e + 1 =
      toordinal (mkDate (year now) (3 * ((month now - 1) / 3) + 1) 1).
Proof.
  intros Hv Hf. cbn [window_fits] in Hf.
  assert (Hy : 1 <= year now <= 9999) by (date_fields; lia).
  assert (Hm : 1 <= month now <= 12) by (date_fields; lia).
  rewrite (last_quarter_window now Hv Hf).
  pose proof (quarter_index (month now) Hm) as Hq.
  destruct (Z.eqb_spec ((month now - 1) / 3) 0) as [E|E].
  - assert (Hy1 : 1 < year now).
    { destruct Hf as [Hf|Hf]; [unfold MINYEAR in Hf; lia|].
      exfalso. revert E. Z.to_euclidean_division_equations. lia. }
    eexists; eexists. split; [reflexivity|]. cbn [year month day].
    rewrite E.
    split; [reflexivity|]. split; [cbn; tauto|].
    split; [reflexivity|]. split; [reflexivity|]. split; [reflexivity|].
    date_fields. eval_tables.
    rewrite (days_before_year_pred (year now)). unfold ylen.
    destruct (is_leap (year now - 1)); lia.
  - eexists; eexists. split; [reflexivity|]. cbn [year month day].
    destruct (quarter_cases _ Hq) as [E'|[E'|[E'|E']]]; rewrite E' in *;
      [lia|..];
      (split; [reflexivity|]; split; [cbn; tauto|];
       split; [reflexivity|]; split; [reflexivity|]; split; [reflexivity|]);
      destruct (is_leap (year now)) eqn:Hl;
      date_fields; eval_tables; rewrite ?Hl; cbv beta iota; eval_tables; lia.
Qed.

Lemma last_quarter_precedes_this_quarter_witness :
  exists s e,
    date_window (mkDate 2025 11 5) LAST_QUARTER = Ok (s, e) /\
    day s = 1 /\ In (month s) [1; 4; 7; 10] /\
    year e = year s /\ month e = month s + 2 /\
    day e = days_in_month (year e) (month e) /\
    toordinal e + 1 = toordinal (mkDate 2025 (3 * ((11 - 1) / 3) + 1) 1).
Proof.
  apply (last_quarter_precedes_this_quarter (mkDate 2025 11 5)).
  - apply valid_dateb_true. reflexivity.
  - right. vm_compute. discriminate.
Defined.

(** ** Period names *)

(** X7.  [DateRange(s)] returns the member whose value is [s], and raises
    exactly when [s] is none of the eight values. *)
Theorem DateRange_value_round_trip (w : World) (s : string) (r : DateRange) :
  (DateRange_of_value w s = Ok r <-> value r = s) /\
  (raises (DateRange_of_value w s) <-> ~ In s (map value members)).
Proof.
  split; split.
  - intros H.
    destruct (DateRange_of_value_spec w s) as [(r' & Hr' & E)|[_ E]];
      rewrite E in H; [|discriminate].
    injection H as <-. exact Hr'.
  - intros <-. destruct r; reflexivity.
  - intros [e He].
    destruct (DateRange_of_value_spec w s) as [(r' & Hr' & E)|[Hn _]];
      [|exact Hn].
    rewrite E in He. discriminate.
  - intros Hn.
    destruct (DateRange_of_value_spec w s) as [(r' & Hr' & E)|[_ E]].
    + exfalso. apply Hn. rewrite <- Hr'. apply in_map. destruct r'; cbn; tauto.
    + eexists. exact E.
Qed.

(** X8.  A period name is matched whatever its case, and with spaces for
    underscores: every spelling that normalizes to the value of [r] gives
    the [CloseDate] condition made of the two dates of [r]'s window. *)
Theorem period_spelling_insensitive (w : World) (time_period : string)
        (r : DateRange) (start_date end_date : string) :
  normalized time_period = value r ->
  get_date_range w r = Ok (start_date, end_date) ->
  date_conditions w time_period =
    Ok (inr ["CloseDate: { range: { gte: " ++ dquote ++ start_date ++ dquote
             ++ ", lte: " ++ dquote ++ end_date ++ dquote ++ " } }"]).
Proof.
  intros Hn Hr. unfold date_conditions.
  destruct time_period as [|c rest].
  - destruct r; discriminate.
  - change (nonempty (String c rest)) with true. cbv iota.
    fold (normalized (String c rest)). rewrite Hn.
    replace (DateRange_of_value w (value r)) with (Ok r : Result DateRange)
      by (destruct r; reflexivity).
    cbn [bind]. rewrite Hr. reflexivity.
Qed.

Lemma period_spelling_insensitive_witness :
  date_conditions
    (Examples.world (mkDate 2025 1 20) (Examples.responded 200 (PDict [])))
    "Last Quarter" =
    Ok (inr ["CloseDate: { range: { gte: " ++ dquote ++ "2024-10-01" ++ dquote
             ++ ", lte: " ++ dquote ++ "2024-12-31" ++ dquote ++ " } }"]).
Proof.
  apply (period_spelling_insensitive
           (Examples.world (mkDate 2025 1 20) (Examples.responded 200 (PDict [])))
           "Last Quarter" LAST_QUARTER "2024-10-01" "2024-12-31").
  - reflexivity.
  - vm_compute. reflexivity.
Defined.

(** X9.  The period names [get_salesforce_schema_info] advertises are the
    values of the enum, in its order: a name is advertised exactly when
    [DateRange] accepts it. *)
Theorem advertised_periods_are_accepted (w : World) (s : string) :
  SchemaTools.date_range_options = map value members /\
  (In s SchemaTools.date_range_options <-> returns (DateRange_of_value w s)).
Proof.
  split; [reflexivity|].
  change SchemaTools.date_range_options with (map value members).
  split.
  - intros Hin. apply in_map_iff in Hin. destruct Hin as (r & <- & _).
    exists r. destruct r; reflexivity.
  - intros [r Hr].
    destruct (DateRange_of_value_spec w s) as [(r' & Hr' & _)|[_ E]].
    + rewrite <- Hr'. apply in_map. destruct r'; cbn; tauto.
    + rewrite E in Hr. discriminate.
Qed.

(** ** Failures of the transport, tool by tool *)

(** X10.  The failures of [execute_query] other than GraphQL errors.  What
    the transport raises (no connection, timeout) and what the JSON decoder
    raises come out unchanged; a status outside 200..299 comes out as a
    plain [Exception] that carries nothing but the status code; a 2xx body
    that is JSON but not an object fails on [data.get]. *)
Theorem execute_query_failure_modes (w : World) (c : SalesforceClient)
        (query : string) (variables : option pyval) :
  (forall e,
     post w (base_url c) (headers c) query (Client.or_empty variables) =
       Httpx.Failed e ->
     Client.execute_query w c query variables = Raise e) /\
  (forall r,
     post w (base_url c) (headers c) query (Client.or_empty variables) =
       Httpx.Responded r ->
     ~ 200 <= Httpx.status_code r <= 299 ->
     Client.execute_query w c query variables =
       Raise (mkExn "Exception"
                    ("API request failed: " ++ str_of_Z (Httpx.status_code r)))) /\
  (forall r e,
     post w (base_url c) (headers c) query (Client.or_empty variables) =
       Httpx.Responded r ->
     200 <= Httpx.status_code r <= 299 ->
     Httpx.json r = Raise e ->
     Client.execute_query w c query variables = Raise e) /\
  (forall r body,
     post w (base_url c) (headers c) query (Client.or_empty variables) =
       Httpx.Responded r ->
     200 <= Httpx.status_code r <= 299 ->
     Httpx.json r = Ok body ->
     (forall d, body <> PDict d) ->
     Client.execute_query w c query variables =
       Raise (mkExn "AttributeError"
                    ("'" ++ type_name body ++ "' object has no attribute 'get'"))).
Proof.
  unfold Client.execute_query, Httpx.raise_for_status.
  split; [|split; [|split]].
  - intros e ->. reflexivity.
  - intros r -> Hs.
    replace ((200 <=? Httpx.status_code r) && (Httpx.status_code r <=? 299))
      with false; [reflexivity|].
    symmetry. apply andb_false_iff.
    destruct (Z.leb_spec 200 (Httpx.status_code r)); [|now left].
    destruct (Z.leb_spec (Httpx.status_code r) 299); [|now right].
    exfalso. apply Hs. lia.
  - intros r e -> Hs Hj.
    replace ((200 <=? Httpx.status_code r) && (Httpx.status_code r <=? 299))
      with true by (symmetry; apply andb_true_iff; split; apply Z.leb_le; lia).
    rewrite Hj. reflexivity.
  - intros r body -> Hs Hj Hd.
    replace ((200 <=? Httpx.status_code r) && (Httpx.status_code r <=? 299))
      with true by (symmetry; apply andb_true_iff; split; apply Z.leb_le; lia).
    rewrite Hj. cbn [bind].
    destruct body; try reflexivity. exfalso. eapply Hd. reflexivity.
Qed.

(** A body that is a JSON list, and a timeout. *)
Example execute_query_not_an_object :
  Client.execute_query
    (Examples.world Examples.today (Examples.responded 200 (PList [])))
    (mkClient "https://example.my.salesforce.com" "token") "query { uiapi }" None
  = Raise (mkExn "AttributeError" "'list' object has no attribute 'get'") /\
  Client.execute_query
    (Examples.world Examples.today (Httpx.Failed (mkExn "ReadTimeout" "")))
    (mkClient "https://example.my.salesforce.com" "token") "query { uiapi }" None
  = Raise (mkExn "ReadTimeout" "").
Proof. split; reflexivity. Qed.

Section EveryTool.
Variable w : World.

(** The payload of the handler of [execute_custom_graphql], which adds a
    preview of the query to the three keys of the others. *)
Lemma custom_graphql_sends query c :
  get_salesforce_client w = Ok c ->
  SchemaTools.has_uiapi (SchemaTools.py_strip query) = true ->
  SchemaTools.looks_like_graphql (SchemaTools.py_strip query) = true ->
  SchemaTools.execute_custom_graphql w query =
    try_except
      (result <- Client.execute_query w c (SchemaTools.py_strip query) None ;;
       Ok (PDict [kv "success" (PBool true);
                  kv "data" result;
                  kv "timestamp" (PStr (utcnow_isoformat w))]))
      (fun e =>
         PDict [kv "success" (PBool false);
                kv "error" (PStr (exn_msg e));
                kv "error_type" (PStr (exn_type e));
                kv "query_preview" (PStr (SchemaTools.preview query))]).
Proof.
  intros Hc H1 H2. unfold SchemaTools.execute_custom_graphql.
  rewrite Hc. cbn [bind]. rewrite H1, H2. reflexivity.
Qed.

(** X11.  When the client raises [e] on every request, each tool whose
    work runs inside a handler returns the payload that carries the message
    and the class name of [e], and each tool without a handler raises [e]
    itself. *)
Theorem client_failure_at_every_tool (c : SalesforceClient) (e : exn)
        (time_period stage industry id custom object_name : string)
        (min_amount : option num) (threshold : num) (limit : Z)
        (exclude_stages : option (list string)) (date_conds : list string) :
  get_salesforce_client w = Ok c ->
  (forall query variables, Client.execute_query w c query variables = Raise e) ->
  date_conditions w time_period = Ok (inr date_conds) ->
  SchemaTools.has_uiapi (SchemaTools.py_strip custom) = true ->
  SchemaTools.looks_like_graphql (SchemaTools.py_strip custom) = true ->
  (query_opportunities w time_period stage min_amount limit = Ok (failure_payload e) /\
   AccountTools.query_accounts w limit industry = Ok (failure_payload e) /\
   BusinessAnalysisTools.high_value_pipeline_analysis w threshold limit =
     Ok (failure_payload e) /\
   BusinessAnalysisTools.sales_stage_analysis w exclude_stages limit =
     Ok (failure_payload e) /\
   BusinessAnalysisTools.complete_pipeline_report w threshold =
     Ok (failure_payload e) /\
   BusinessAnalysisTools.account_opportunity_analysis w = Ok (failure_payload e) /\
   SchemaTools.get_salesforce_schema_info w = Ok (failure_payload e) /\
   SchemaTools.get_object_fields w object_name = Ok (failure_payload e) /\
   SchemaTools.execute_custom_graphql w custom =
     Ok (PDict [kv "success" (PBool false);
                kv "error" (PStr (exn_msg e));
                kv "error_type" (PStr (exn_type e));
                kv "query_preview" (PStr (SchemaTools.preview custom))])) /\
  (get_opportunity w id = Raise e /\
   search_opportunities w stage min_amount limit = Raise e /\
   get_recent_opportunities w limit = Raise e /\
   find_opportunities_by_stage w stage limit = Raise e /\
   AccountTools.get_account w id = Raise e /\
   AccountTools.search_accounts w industry limit = Raise e /\
   AccountTools.get_recent_accounts w limit = Raise e /\
   AccountTools.find_accounts_by_industry w industry limit = Raise e).
Proof.
  intros Hc He Hd H1 H2. split.
  - repeat split.
    + unfold query_opportunities. rewrite Hc. cbn [bind]. rewrite Hd. cbn [bind].
      unfold query_opportunities_body. rewrite He. reflexivity.
    + unfold AccountTools.query_accounts. rewrite Hc. cbn [bind].
      unfold AccountTools.query_accounts_body. rewrite He. reflexivity.
    + unfold BusinessAnalysisTools.high_value_pipeline_analysis,
        BusinessAnalysisTools.high_value_pipeline_body.
      rewrite Hc. cbn [bind]. rewrite He. reflexivity.
    + unfold BusinessAnalysisTools.sales_stage_analysis,
        BusinessAnalysisTools.sales_stage_analysis_body.
      rewrite Hc. cbn [bind]. rewrite He. reflexivity.
    + unfold BusinessAnalysisTools.complete_pipeline_report,
        BusinessAnalysisTools.complete_pipeline_report_body.
      rewrite Hc. cbn [bind]. rewrite He. reflexivity.
    + unfold BusinessAnalysisTools.account_opportunity_analysis,
        BusinessAnalysisTools.account_opportunity_analysis_body.
      rewrite Hc. cbn [bind]. rewrite He. reflexivity.
    + unfold SchemaTools.get_salesforce_schema_info.
      rewrite Hc. cbn [bind]. rewrite He. reflexivity.
    + unfold SchemaTools.get_object_fields.
      rewrite Hc. cbn [bind]. rewrite He. reflexivity.
    + rewrite (custom_graphql_sends custom c Hc H1 H2). rewrite He. reflexivity.
  - repeat split.
    + unfold get_opportunity, Client.get_opportunity.
      rewrite Hc. cbn [bind]. rewrite He. reflexivity.
    + unfold search_opportunities, Client.search_opportunities.
      rewrite Hc. cbn [bind]. rewrite He. reflexivity.
    + unfold get_recent_opportunities, Client.get_recent_opportunities.
      rewrite Hc. cbn [bind]. rewrite He. reflexivity.
    + unfold find_opportunities_by_stage, Client.search_opportunities.
      rewrite Hc. cbn [bind]. rewrite He. reflexivity.
    + unfold AccountTools.get_account, Client.get_account.
      rewrite Hc. cbn [bind]. rewrite He. reflexivity.
    + unfold AccountTools.search_accounts, Client.search_accounts.
      rewrite Hc. cbn [bind]. rewrite He. reflexivity.
    + unfold AccountTools.get_recent_accounts, Client.get_recent_accounts.
      rewrite Hc. cbn [bind]. rewrite He. reflexivity.
    + unfold AccountTools.find_accounts_by_industry, Client.search_accounts.
      rewrite Hc. cbn [bind]. rewrite He. reflexivity.
Qed.

(** X12.  When the client is not configured ([get_salesforce_client]
    raises), the four business analysis tools, which fetch the client
    inside their [try], return the failure payload; every other tool
    fetches it first and raises. *)
Theorem unconfigured_client (e : exn)
        (time_period stage industry id custom object_name : string)
        (min_amount : option num) (threshold : num) (limit : Z)
        (exclude_stages : option (list string)) :
  get_salesforce_client w = Raise e ->
  (BusinessAnalysisTools.high_value_pipeline_analysis w threshold limit =
     Ok (failure_payload e) /\
   BusinessAnalysisTools.sales_stage_analysis w exclude_stages limit =
     Ok (failure_payload e) /\
   BusinessAnalysisTools.complete_pipeline_report w threshold =
     Ok (failure_payload e) /\
   BusinessAnalysisTools.account_opportunity_analysis w = Ok (failure_payload e)) /\
  (query_opportunities w time_period stage min_amount limit = Raise e /\
   AccountTools.query_accounts w limit industry = Raise e /\
   SchemaTools.execute_custom_graphql w custom = Raise e /\
   SchemaTools.get_salesforce_schema_info w = Raise e /\
   SchemaTools.get_object_fields w object_name = Raise e /\
   get_opportunity w id = Raise e /\
   search_opportunities w stage min_amount limit = Raise e /\
   get_recent_opportunities w limit = Raise e /\
   find_opportunities_by_stage w stage limit = Raise e /\
   AccountTools.get_account w id = Raise e /\
   AccountTools.search_accounts w industry limit = Raise e /\
   AccountTools.get_recent_accounts w limit = Raise e /\
   AccountTools.find_accounts_by_industry w industry limit = Raise e).
Proof.
  intros Hc. split.
  - unfold BusinessAnalysisTools.high_value_pipeline_analysis,
      BusinessAnalysisTools.high_value_pipeline_body,
      BusinessAnalysisTools.sales_stage_analysis,
      BusinessAnalysisTools.sales_stage_analysis_body,
      BusinessAnalysisTools.complete_pipeline_report,
      BusinessAnalysisTools.complete_pipeline_report_body,
      BusinessAnalysisTools.account_opportunity_analysis,
      BusinessAnalysisTools.account_opportunity_analysis_body.
    rewrite Hc. repeat split.
  - unfold query_opportunities, AccountTools.query_accounts,
      SchemaTools.execute_custom_graphql, SchemaTools.get_salesforce_schema_info,
      SchemaTools.get_object_fields, get_opportunity, search_opportunities,
      get_recent_opportunities, find_opportunities_by_stage,
      AccountTools.get_account, AccountTools.search_accounts,
      AccountTools.get_recent_accounts, AccountTools.find_accounts_by_industry.
    rewrite Hc. repeat split.
Qed.

End EveryTool.

Lemma client_failure_at_every_tool_witness :
  let w := Examples.world Examples.today (Examples.responded 503 PNone) in
  let e := mkExn "Exception" "API request failed: 503" in
  (query_opportunities w "" "" None 50 = Ok (failure_payload e) /\
   AccountTools.query_accounts w 50 "" = Ok (failure_payload e) /\
   BusinessAnalysisTools.high_value_pipeline_analysis w (NInt 50000) 50 =
     Ok (failure_payload e) /\
   BusinessAnalysisTools.sales_stage_analysis w None 50 = Ok (failure_payload e) /\
   BusinessAnalysisTools.complete_pipeline_report w (NInt 50000) =
     Ok (failure_payload e) /\
   BusinessAnalysisTools.account_opportunity_analysis w = Ok (failure_payload e) /\
   SchemaTools.get_salesforce_schema_info w = Ok (failure_payload e) /\
   SchemaTools.get_object_fields w "Account" = Ok (failure_payload e) /\
   SchemaTools.execute_custom_graphql w "query { uiapi { x } }" =
     Ok (PDict [kv "success" (PBool false);
                kv "error" (PStr (exn_msg e));
                kv "error_type" (PStr (exn_type e));
                kv "query_preview" (PStr (SchemaTools.preview "query { uiapi { x } }"))])) /\
  (get_opportunity w "006A" = Raise e /\
   search_opportunities w "" None 50 = Raise e /\
   get_recent_opportunities w 50 = Raise e /\
   find_opportunities_by_stage w "" 50 = Raise e /\
   AccountTools.get_account w "006A" = Raise e /\
   AccountTools.search_accounts w "" 50 = Raise e /\
   AccountTools.get_recent_accounts w 50 = Raise e /\
   AccountTools.find_accounts_by_industry w "" 50 = Raise e).
Proof.
  exact (client_failure_at_every_tool
           (Examples.world Examples.today (Examples.responded 503 PNone))
           (mkClient "https://example.my.salesforce.com" "token")
           (mkExn "Exception" "API request failed: 503")
           "" "" "" "006A" "query { uiapi { x } }" "Account"
           None (NInt 50000) 50 None []
           eq_refl (fun _ _ => eq_refl) eq_refl eq_refl eq_refl).
Defined.

(** A world whose process environment lacks the credentials. *)
Lemma unconfigured_client_witness :
  let w := Examples.unconfigured in
  let e := mkExn "ValueError" "SALESFORCE_ACCESS_TOKEN environment variable is required" in
  (BusinessAnalysisTools.high_value_pipeline_analysis w (NInt 50000) 50 =
     Ok (failure_payload e) /\
   BusinessAnalysisTools.sales_stage_analysis w None 50 = Ok (failure_payload e) /\
   BusinessAnalysisTools.complete_pipeline_report w (NInt 50000) =
     Ok (failure_payload e) /\
   BusinessAnalysisTools.account_opportunity_analysis w = Ok (failure_payload e)) /\
  (query_opportunities w "" "" None 50 = Raise e /\
   AccountTools.query_accounts w 50 "" = Raise e /\
   SchemaTools.execute_custom_graphql w "query { uiapi { x } }" = Raise e /\
   SchemaTools.get_salesforce_schema_info w = Raise e /\
   SchemaTools.get_object_fields w "Account" = Raise e /\
   get_opportunity w "006A" = Raise e /\
   search_opportunities w "" None 50 = Raise e /\
   get_recent_opportunities w 50 = Raise e /\
   find_opportunities_by_stage w "" 50 = Raise e /\
   AccountTools.get_account w "006A" = Raise e /\
   AccountTools.search_accounts w "" 50 = Raise e /\
   AccountTools.get_recent_accounts w 50 = Raise e /\
   AccountTools.find_accounts_by_industry w "" 50 = Raise e).
Proof.
  exact (unconfigured_client Examples.unconfigured
           (mkExn "ValueError" "SALESFORCE_ACCESS_TOKEN environment variable is required")
           "" "" "" "006A" "query { uiapi { x } }" "Account"
           None (NInt 50000) 50 None eq_refl).
Defined.

(** ** What [query_opportunities] returns *)

Section QueryOpportunities.
Variable w : World.


Lemma loop_step_records items : forall acc t opps t',
  foldM loop_step (acc, t) items = Ok (opps, t') ->
  exists records,
    mapM normalize_edge items = Ok records /\
    opps = (acc ++ map fst records)%list /\
    foldM py_iadd t (map snd records) = Ok t'.
Proof.
  induction items as [|edge items IH]; intros acc t opps t' H.
  - cbn in H. injection H as <- <-. exists []. cbn. rewrite app_nil_r. auto.
  - cbn [foldM] in H. apply bind_ok_inv in H. destruct H as ([acc1 t1] & Hs & H).
    unfold loop_step in Hs. cbn [fst snd] in Hs.
    apply bind_ok_inv in Hs. destruct Hs as ([opp amount] & Hn & Hs).
    apply bind_ok_inv in Hs. destruct Hs as (t2 & Ht & Hs).
    injection Hs as <- <-.
    destruct (IH _ _ _ _ H) as (records & Hm & -> & Hf).
    exists ((opp, amount) :: records). cbn [mapM map fst snd foldM].
    rewrite Hn, Hm. cbn [bind]. rewrite Ht. cbn [bind].
    split; [reflexivity|]. split; [|exact Hf].
    rewrite <- app_assoc. reflexivity.
Qed.

Lemma mapM_length {A B : Type} (f : A -> Result B) l : forall l',
  mapM f l = Ok l' -> List.length l' = List.length l.
Proof.
  induction l as [|x l IH]; intros l' H.
  - injection H as <-. reflexivity.
  - cbn [mapM] in H. apply bind_ok_inv in H. destruct H as (y & _ & H).
    apply bind_ok_inv in H. destruct H as (ys & Hm & H).
    injection H as <-. cbn. now rewrite (IH _ Hm).
Qed.

Lemma mapM_Forall {A B : Type} (f : A -> Result B) (P : B -> Prop) l :
  (forall x y, f x = Ok y -> P y) ->
  forall l', mapM f l = Ok l' -> Forall P l'.
Proof.
  intros Hf. induction l as [|x l IH]; intros l' H.
  - injection H as <-. constructor.
  - cbn [mapM] in H. apply bind_ok_inv in H. destruct H as (y & Hy & H).
    apply bind_ok_inv in H. destruct H as (ys & Hm & H).
    injection H as <-. constructor; [eapply Hf; eassumption|now apply IH].
Qed.


(** The parts of a successful answer of the [try] body. *)
Lemma query_opportunities_body_ok c query time_period stage min_amount limit payload :
  query_opportunities_body w c query time_period stage min_amount limit = Ok payload ->
  exists result edges items records total_count total,
    Client.execute_query w c query None = Ok result /\
    Client.get_edges result "Opportunity" = Ok edges /\
    py_iter edges = Ok items /\
    Client.get_total_count result "Opportunity" = Ok total_count /\
    mapM normalize_edge items = Ok records /\
    foldM py_iadd (NInt 0) (map snd records) = Ok total /\
    payload =
      PDict
        [kv "success" (PBool true);
         kv "summary"
            (PDict
               [kv "total_opportunities" (PInt (Z.of_nat (List.length (map fst records))));
                kv "total_count_in_org" total_count;
                kv "total_value" (num_py total);
                kv "average_deal_size"
                   (match map fst records with
                    | [] => PInt 0
                    | _ :: _ =>
                        PFloat (num_div_count total
                                  (Z.of_nat (List.length (map fst records))))
                    end);
                kv "filters_applied"
                   (PDict [kv "time_period" (PStr time_period);
                           kv "stage" (PStr stage);
                           kv "min_amount" (opt_num min_amount);
                           kv "limit" (PInt limit)])]);
         kv "opportunities" (PList (map fst records));
         kv "timestamp" (PStr (utcnow_isoformat w))].
Proof.
  unfold query_opportunities_body. intros H.
  apply bind_ok_inv in H. destruct H as (result & Hr & H).
  apply bind_ok_inv in H. destruct H as (edges & He & H).
  apply bind_ok_inv in H. destruct H as (total_count & Ht & H).
  apply bind_ok_inv in H. destruct H as (items & Hi & H).
  apply bind_ok_inv in H. destruct H as ([opps total] & Hf & H).
  destruct (loop_step_records _ _ _ _ _ Hf) as (records & Hm & -> & Hs).
  cbn [app] in H. injection H as <-.
  exists result, edges, items, records, total_count, total. auto 10.
Qed.

(** X13.  A successful answer has one record per edge, in the order of the
    edges, each the normalization of its edge alone; [total_opportunities]
    counts the edges received, and [total_count_in_org] is the count the
    service reported, whatever the number of edges. *)
Theorem one_record_per_edge (c : SalesforceClient) (query time_period stage : string)
        (min_amount : option num) (limit : Z) (payload : pyval) :
  query_opportunities_body w c query time_period stage min_amount limit = Ok payload ->
  exists result edges items records total_count,
    Client.execute_query w c query None = Ok result /\
    Client.get_edges result "Opportunity" = Ok edges /\
    py_iter edges = Ok items /\
    Client.get_total_count result "Opportunity" = Ok total_count /\
    mapM normalize_edge items = Ok records /\
    at_path ["opportunities"] payload = Some (PList (map fst records)) /\
    at_path ["summary"; "total_opportunities"] payload =
      Some (PInt (Z.of_nat (List.length items))) /\
    at_path ["summary"; "total_count_in_org"] payload = Some total_count.
Proof.
  intros H.
  destruct (query_opportunities_body_ok _ _ _ _ _ _ _ H)
    as (result & edges & items & records & total_count & total
        & Hr & He & Hi & Ht & Hm & Hs & ->).
  exists result, edges, items, records, total_count.
  repeat (split; [assumption|]).
  split; [reflexivity|]. split; [|reflexivity].
  rewrite length_map, (mapM_length _ _ _ Hm). reflexivity.
Qed.


End QueryOpportunities.

Lemma one_record_per_edge_witness :
  let w := Examples.page Examples.five_edges in
  let query := query_opportunities_query w [] "" None 50 in
  let payload :=
    Examples.answer (query_opportunities_body w Examples.client query "" "" None 50) in
  exists result edges items records total_count,
    Client.execute_query w Examples.client query None = Ok result /\
    Client.get_edges result "Opportunity" = Ok edges /\
    py_iter edges = Ok items /\
    Client.get_total_count result "Opportunity" = Ok total_count /\
    mapM normalize_edge items = Ok records /\
    at_path ["opportunities"] payload = Some (PList (map fst records)) /\
    at_path ["summary"; "total_opportunities"] payload =
      Some (PInt (Z.of_nat (List.length items))) /\
    at_path ["summary"; "total_count_in_org"] payload = Some total_count.
Proof.
  apply (one_record_per_edge (Examples.page Examples.five_edges) Examples.client
           (query_opportunities_query (Examples.page Examples.five_edges) [] "" None 50)
           "" "" None 50).
  vm_compute. reflexivity.
Defined.


(** The five sample opportunities: one has no amount, which counts as 0. *)
Example five_opportunities_summary :
  let payload :=
    Examples.answer
      (query_opportunities (Examples.page Examples.five_edges) "" "" None 50) in
  at_path ["summary"; "total_opportunities"] payload = Some (PInt 5) /\
  at_path ["summary"; "total_count_in_org"] payload = Some (PInt 34) /\
  at_path ["summary"; "total_value"] payload = Some (PFloat (530001 # 2)) /\
  at_path ["summary"; "average_deal_size"] payload = Some (PFloat (530001 # 10)).
Proof. vm_compute. repeat split. Qed.

(** ** Loops that accumulate *)



Ltac invert_binds H :=
  repeat (apply bind_ok_inv in H; destruct H as (? & ? & H)).

Lemma distinct_snoc l k :
  distinct l = true -> existsb (fun k' => key_eqb k' k) l = false ->
  distinct (l ++ [k]) = true.
Proof.
  induction l as [|k0 l IH]; [reflexivity|].
  cbn [distinct existsb app]. intros Hd He.
  apply andb_true_iff in Hd. destruct Hd as [H0 Hd].
  apply orb_false_iff in He. destruct He as [E0 He].
  rewrite existsb_app. cbn [existsb]. rewrite E0, orb_false_r, H0.
  cbn [andb]. now apply IH.
Qed.

(** *** The breakdowns of [high_value_pipeline_analysis] *)

Lemma breakdown_update_ok k a b b' :
  BusinessAnalysisTools.breakdown_update k a b = Ok b' ->
  b' = BusinessAnalysisTools.breakdown_add k a b.
Proof.
  unfold BusinessAnalysisTools.breakdown_update. intros H.
  apply bind_ok_inv in H. destruct H as (? & _ & H). now injection H.
Qed.

Lemma breakdown_add_count k a b :
  int_total "count"
    (BusinessAnalysisTools.breakdown_py (BusinessAnalysisTools.breakdown_add k a b)) =
  int_total "count" (BusinessAnalysisTools.breakdown_py b) + 1.
Proof.
  unfold BusinessAnalysisTools.breakdown_py, int_total.
  induction b as [|[k' [n v]] b IH]; cbn [BusinessAnalysisTools.breakdown_add].
  - reflexivity.
  - destruct (key_eqb k' k); cbn [map fold_right fst snd] in *.
    + change (int_entry "count" (PDict [kv "count" (PInt (n + 1));
                                        kv "value" (PFloat (Qred (v + a)))]))
        with (n + 1).
      change (int_entry "count" (PDict [kv "count" (PInt n); kv "value" (PFloat v)]))
        with n.
      lia.
    + rewrite IH. lia.
Qed.

Lemma breakdown_add_value k a b :
  (number_total "value"
     (BusinessAnalysisTools.breakdown_py (BusinessAnalysisTools.breakdown_add k a b)) ==
   number_total "value" (BusinessAnalysisTools.breakdown_py b) + a)%Q.
Proof.
  unfold BusinessAnalysisTools.breakdown_py, number_total.
  induction b as [|[k' [n v]] b IH]; cbn [BusinessAnalysisTools.breakdown_add].
  - cbn [map fold_right fst snd].
    change (number_entry "value" (PDict [kv "count" (PInt 1); kv "value" (PFloat a)]))
      with a.
    ring.
  - destruct (key_eqb k' k); cbn [map fold_right fst snd] in *.
    + change (number_entry "value" (PDict [kv "count" (PInt (n + 1));
                                           kv "value" (PFloat (Qred (v + a)))]))
        with (Qred (v + a)).
      change (number_entry "value" (PDict [kv "count" (PInt n); kv "value" (PFloat v)]))
        with v.
      rewrite Qred_correct. ring.
    + rewrite IH. ring.
Qed.

Lemma breakdown_add_keys k a b :
  map fst (BusinessAnalysisTools.breakdown_add k a b) = map fst b \/
  map fst (BusinessAnalysisTools.breakdown_add k a b) = (map fst b ++ [k])%list /\
  existsb (fun k' => key_eqb k' k) (map fst b) = false.
Proof.
  induction b as [|[k' [n v]] b IH]; cbn [BusinessAnalysisTools.breakdown_add].
  - right. split; reflexivity.
  - destruct (key_eqb k' k) eqn:E; cbn [map fst existsb app].
    + left. reflexivity.
    + destruct IH as [IH|[IH He]].
      * left. now rewrite IH.
      * right. rewrite IH, E, He. split; reflexivity.
Qed.


Lemma breakdown_add_distinct k a b :
  distinct (map fst b) = true ->
  distinct (map fst (BusinessAnalysisTools.breakdown_add k a b)) = true.
Proof.
  intros Hd. destruct (breakdown_add_keys k a b) as [->|[-> He]]; [exact Hd|].
  now apply distinct_snoc.
Qed.

Lemma num_add_float t a : (num_Q (num_add t (NFloat a)) == num_Q t + a)%Q.
Proof. destruct t; cbn [num_add num_Q]; apply Qred_correct. Qed.

Section Pipeline.
Variable w : World.


Lemma partitions_add records total b k a :
  partitions records total b ->
  partitions (Datatypes.S records) (num_add total (NFloat a))
             (BusinessAnalysisTools.breakdown_add k a b).
Proof.
  intros (Hc & Hv & Hd). split; [|split].
  - rewrite breakdown_add_count, Hc. lia.
  - rewrite breakdown_add_value, num_add_float, Hv. reflexivity.
  - now apply breakdown_add_distinct.
Qed.



End Pipeline.


(** ** Sorting *)

Section SortedDesc.
Context {A : Type} (key : A -> Q).

Lemma insert_desc_perm x l :
  Permutation (x :: l) (BusinessAnalysisTools.insert_desc key x l).
Proof.
  induction l as [|y l IH]; cbn [BusinessAnalysisTools.insert_desc]; [reflexivity|].
  destruct (Qle_bool (key y) (key x)); [reflexivity|].
  rewrite perm_swap. now apply perm_skip.
Qed.

Lemma sorted_desc_perm l : Permutation l (BusinessAnalysisTools.sorted_desc key l).
Proof.
  induction l as [|x l IH]; cbn [BusinessAnalysisTools.sorted_desc]; [reflexivity|].
  rewrite <- insert_desc_perm. now apply perm_skip.
Qed.

Lemma sorted_desc_length l :
  List.length (BusinessAnalysisTools.sorted_desc key l) = List.length l.
Proof. symmetry. apply Permutation_length, sorted_desc_perm. Qed.

Lemma key_desc_trans x y z : key_desc key x y -> key_desc key y z -> key_desc key x z.
Proof. unfold key_desc. intros H1 H2. eapply Qle_trans; eassumption. Qed.

Lemma insert_desc_sorted x l :
  StronglySorted (key_desc key) l ->
  StronglySorted (key_desc key) (BusinessAnalysisTools.insert_desc key x l).
Proof.
  induction 1 as [|y l Hl IH Hy]; cbn [BusinessAnalysisTools.insert_desc].
  - constructor; constructor.
  - destruct (Qle_bool (key y) (key x)) eqn:E.
    + apply Qle_bool_iff in E.
      constructor; [constructor; assumption|].
      constructor; [exact E|].
      eapply Forall_impl; [|exact Hy]. intros z Hz.
      eapply key_desc_trans; [exact E|exact Hz].
    + constructor; [exact IH|].
      assert (Hxy : key_desc key y x).
      { unfold key_desc. destruct (Qlt_le_dec (key y) (key x)) as [Hlt|Hle].
        - apply Qlt_le_weak in Hlt. apply Qle_bool_iff in Hlt. congruence.
        - exact Hle. }
      eapply Permutation_Forall; [apply insert_desc_perm|].
      constructor; assumption.
Qed.

Lemma sorted_desc_sorted l :
  StronglySorted (key_desc key) (BusinessAnalysisTools.sorted_desc key l).
Proof.
  induction l as [|x l IH]; cbn [BusinessAnalysisTools.sorted_desc].
  - constructor.
  - now apply insert_desc_sorted.
Qed.

Lemma strongly_sorted_app (l1 l2 : list A) :
  StronglySorted (key_desc key) (l1 ++ l2) ->
  StronglySorted (key_desc key) l1 /\
  Forall (fun t => Forall (fun r => key_desc key t r) l2) l1.
Proof.
  induction l1 as [|x l1 IH]; cbn [app]; intros H.
  - split; constructor.
  - inversion H as [|? ? Hs Hx]; subst.
    destruct (IH Hs) as [H1 H2].
    apply Forall_app in Hx. destruct Hx as [Hx1 Hx2].
    split; constructor; assumption.
Qed.

(** The first [n] entries of the sorted list: they are sorted, there are
    [n] of them if the list has as many, and no entry left out has a larger
    key than one of them. *)
Lemma top_of_sorted_desc (n : nat) (l : list A) :
  let s := BusinessAnalysisTools.sorted_desc key l in
  Permutation l (firstn n s ++ skipn n s) /\
  List.length (firstn n s) = Nat.min n (List.length l) /\
  StronglySorted (key_desc key) (firstn n s) /\
  Forall (fun t => Forall (fun r => key_desc key t r) (skipn n s)) (firstn n s).
Proof.
  cbv zeta. rewrite firstn_skipn.
  split; [apply sorted_desc_perm|].
  split; [rewrite length_firstn, sorted_desc_length; reflexivity|].
  apply strongly_sorted_app. rewrite firstn_skipn. apply sorted_desc_sorted.
Qed.

Lemma descending_map (l : list A) :
  StronglySorted (key_desc key) l -> descending (map key l).
Proof.
  induction 1 as [|x l Hl IH Hx]; cbn [map descending]; [exact I|].
  split; [|exact IH].
  destruct l as [|y l]; cbn [map]; [exact I|].
  inversion Hx; subst. assumption.
Qed.

End SortedDesc.

(** ** [sales_stage_analysis] *)

Lemma sum_Z_perm {X : Type} (f : X -> Z) l l' :
  Permutation l l' ->
  fold_right (fun e s => f e + s) 0 l = fold_right (fun e s => f e + s) 0 l'.
Proof.
  induction 1 as [|x l l' _ IH|x y l|l l' l'' _ IH1 _ IH2]; cbn [fold_right];
    [reflexivity|lia|lia|congruence].
Qed.




Lemma int_total_map {X : Type} (k : string) (g : X -> pyval * pyval) l :
  int_total k (PDict (map g l)) =
  fold_right (fun e s => int_entry k (snd (g e)) + s) 0 l.
Proof.
  unfold int_total. induction l as [|x l IH]; cbn [map fold_right]; [reflexivity|].
  now rewrite IH.
Qed.





(** *** The deals listed for a stage *)

(** X16.  Under ["top_deals"] a stage lists its five largest deals, or all
    of them when it has fewer, the largest first: no deal left out has a
    larger amount than a deal listed. *)
Theorem top_deals_are_the_largest (info : BusinessAnalysisTools.stage_info)
        (v : pyval) :
  0 < BusinessAnalysisTools.count info ->
  BusinessAnalysisTools.finish_stage info = Ok v ->
  exists top rest,
    at_path ["top_deals"] v = Some (PList (map BusinessAnalysisTools.deal_py top)) /\
    Permutation (BusinessAnalysisTools.deals info) (top ++ rest) /\
    List.length top = Nat.min 5 (List.length (BusinessAnalysisTools.deals info)) /\
    descending (map BusinessAnalysisTools.deal_amount top) /\
    Forall (fun t =>
              Forall (fun r => (BusinessAnalysisTools.deal_amount r <=
                                BusinessAnalysisTools.deal_amount t)%Q) rest) top.
Proof.
  intros Hc H. unfold BusinessAnalysisTools.finish_stage in H.
  apply Z.ltb_lt in Hc. rewrite Hc in H.
  apply bind_ok_inv in H. destruct H as (avg_deal_size & _ & H).
  apply bind_ok_inv in H. destruct H as (avg_prob & _ & H).
  cbv zeta in H. injection H as <-.
  destruct (top_of_sorted_desc BusinessAnalysisTools.deal_amount 5
              (BusinessAnalysisTools.deals info)) as (Hp & Hl & Hs & Ht).
  eexists; eexists. split; [reflexivity|].
  split; [exact Hp|]. split; [exact Hl|].
  split; [apply descending_map; exact Hs|exact Ht].
Qed.

Lemma top_deals_are_the_largest_witness :
  let v := Examples.answer (BusinessAnalysisTools.finish_stage Examples.seven_deals) in
  exists top rest,
    at_path ["top_deals"] v = Some (PList (map BusinessAnalysisTools.deal_py top)) /\
    Permutation (BusinessAnalysisTools.deals Examples.seven_deals) (top ++ rest) /\
    List.length top =
      Nat.min 5 (List.length (BusinessAnalysisTools.deals Examples.seven_deals)) /\
    descending (map BusinessAnalysisTools.deal_amount top) /\
    Forall (fun t =>
              Forall (fun r => (BusinessAnalysisTools.deal_amount r <=
                                BusinessAnalysisTools.deal_amount t)%Q) rest) top.
Proof.
  apply (top_deals_are_the_largest Examples.seven_deals).
  - reflexivity.
  - vm_compute. reflexivity.
Defined.

(** The seven deals: 9, 8, 7, 5 and 3 are listed. *)
Example top_five_of_seven :
  at_path ["top_deals"]
    (Examples.answer (BusinessAnalysisTools.finish_stage Examples.seven_deals)) =
  Some (PList (map BusinessAnalysisTools.deal_py
                   [Examples.sample_deal "b" 9; Examples.sample_deal "f" 8;
                    Examples.sample_deal "d" 7; Examples.sample_deal "e" 5;
                    Examples.sample_deal "a" 3])).
Proof. vm_compute. reflexivity. Qed.

(** *** The stages of the report *)






Section Stages.
Variable w : World.






End Stages.


(** The five sample opportunities: three stages, the won deals first. *)
Example five_opportunities_by_stage :
  let payload :=
    Examples.answer
      (BusinessAnalysisTools.sales_stage_analysis
         (Examples.page Examples.five_edges) None 100) in
  option_map keys (at_path ["stage_analysis"] payload) =
    Some [PStr "Closed Won"; PStr "Negotiation"; PStr "Closed Lost"] /\
  option_map (number_column "total_value") (at_path ["stage_analysis"] payload) =
    Some [230000; 70001 # 2; 0]%Q.
Proof. vm_compute. repeat split. Qed.

(** ** [complete_pipeline_report] *)

Lemma performance_update_ok k a wv p p' :
  BusinessAnalysisTools.performance_update k a wv p = Ok p' ->
  p' = BusinessAnalysisTools.performance_add k a wv p.
Proof.
  unfold BusinessAnalysisTools.performance_update. intros H.
  apply bind_ok_inv in H. destruct H as (? & _ & H). now injection H.
Qed.

Lemma performance_add_count k a wv p :
  int_total "count"
    (BusinessAnalysisTools.performance_py
       (BusinessAnalysisTools.performance_add k a wv p)) =
  int_total "count" (BusinessAnalysisTools.performance_py p) + 1.
Proof.
  unfold BusinessAnalysisTools.performance_py, int_total.
  induction p as [|[k' [[n v] x]] p IH]; cbn [BusinessAnalysisTools.performance_add].
  - reflexivity.
  - destruct (key_eqb k' k); cbn [map fold_right fst snd] in *.
    + change (int_entry "count" (PDict [kv "count" (PInt (n + 1));
                                        kv "value" (PFloat (Qred (v + a)));
                                        kv "weighted_value" (PFloat (Qred (x + wv)))]))
        with (n + 1).
      change (int_entry "count" (PDict [kv "count" (PInt n); kv "value" (PFloat v);
                                        kv "weighted_value" (PFloat x)]))
        with n.
      lia.
    + rewrite IH. lia.
Qed.

Lemma performance_add_value k a wv p :
  (number_total "value"
     (BusinessAnalysisTools.performance_py
        (BusinessAnalysisTools.performance_add k a wv p)) ==
   number_total "value" (BusinessAnalysisTools.performance_py p) + a)%Q.
Proof.
  unfold BusinessAnalysisTools.performance_py, number_total.
  induction p as [|[k' [[n v] x]] p IH]; cbn [BusinessAnalysisTools.performance_add].
  - cbn [map fold_right fst snd].
    change (number_entry "value" (PDict [kv "count" (PInt 1); kv "value" (PFloat a);
                                         kv "weighted_value" (PFloat wv)]))
      with a.
    ring.
  - destruct (key_eqb k' k); cbn [map fold_right fst snd] in *.
    + change (number_entry "value" (PDict [kv "count" (PInt (n + 1));
                                           kv "value" (PFloat (Qred (v + a)));
                                           kv "weighted_value" (PFloat (Qred (x + wv)))]))
        with (Qred (v + a)).
      change (number_entry "value" (PDict [kv "count" (PInt n); kv "value" (PFloat v);
                                           kv "weighted_value" (PFloat x)]))
        with v.
      rewrite Qred_correct. ring.
    + rewrite IH. ring.
Qed.

Lemma performance_add_keys k a wv p :
  map fst (BusinessAnalysisTools.performance_add k a wv p) = map fst p \/
  map fst (BusinessAnalysisTools.performance_add k a wv p) = (map fst p ++ [k])%list /\
  existsb (fun k' => key_eqb k' k) (map fst p) = false.
Proof.
  induction p as [|[k' [[n v] x]] p IH]; cbn [BusinessAnalysisTools.performance_add].
  - right. split; reflexivity.
  - destruct (key_eqb k' k) eqn:E; cbn [map fst existsb app].
    + left. reflexivity.
    + destruct IH as [IH|[IH He]].
      * left. now rewrite IH.
      * right. rewrite IH, E, He. split; reflexivity.
Qed.


Lemma performance_partitions_add records total p k a wv :
  performance_partitions records total p ->
  performance_partitions (Datatypes.S records) (num_add total (NFloat a))
                         (BusinessAnalysisTools.performance_add k a wv p).
Proof.
  intros (Hc & Hv & Hd). split; [|split].
  - rewrite performance_add_count, Hc. lia.
  - rewrite performance_add_value, num_add_float, Hv. reflexivity.
  - destruct (performance_add_keys k a wv p) as [->|[-> He]];
      [exact Hd|now apply distinct_snoc].
Qed.

Lemma count_if_app {X : Type} (f : X -> bool) l x :
  count_if f (l ++ [x]) =
  count_if f l + (if f x then 1 else 0).
Proof.
  unfold count_if. rewrite filter_app, length_app. cbn [filter].
  destruct (f x); cbn [List.length]; lia.
Qed.

Lemma Qltb_lt a b : BusinessAnalysisTools.Qltb a b = true <-> (a < b)%Q.
Proof.
  unfold BusinessAnalysisTools.Qltb. rewrite negb_true_iff.
  split.
  - intros H. apply Qnot_le_lt. intros Hle. apply Qle_bool_iff in Hle. congruence.
  - intros H. destruct (Qle_bool b a) eqn:E; [|reflexivity].
    apply Qle_bool_iff in E. exfalso. exact (Qlt_not_le _ _ H E).
Qed.

Lemma small_is_below_medium a :
  BusinessAnalysisTools.Qltb a 25000 = true ->
  BusinessAnalysisTools.Qltb a 100000 = true.
Proof.
  rewrite !Qltb_lt. intros H. eapply Qlt_trans; [exact H|reflexivity].
Qed.

Lemma deal_size_add_sizes amounts a :
  BusinessAnalysisTools.deal_size_add a (sizes_of amounts) = sizes_of (amounts ++ [a]).
Proof.
  unfold BusinessAnalysisTools.deal_size_add, sizes_of.
  rewrite !count_if_app. cbn [BusinessAnalysisTools.small BusinessAnalysisTools.medium
                              BusinessAnalysisTools.large].
  destruct (BusinessAnalysisTools.Qltb a 25000) eqn:E1;
    [rewrite (small_is_below_medium a E1)
    |destruct (BusinessAnalysisTools.Qltb a 100000) eqn:E2];
    cbn [negb andb]; rewrite ?Z.add_0_r; reflexivity.
Qed.

Lemma monthly_add_counts month a m :
  month_counts (BusinessAnalysisTools.monthly_add month a m) = month_counts m + 1.
Proof.
  unfold month_counts.
  induction m as [|[k [n v]] m IH]; cbn [BusinessAnalysisTools.monthly_add].
  - reflexivity.
  - destruct (String.eqb k month); cbn [fold_right fst snd] in *; lia.
Qed.

Lemma monthly_add_keys month a m :
  map fst (BusinessAnalysisTools.monthly_add month a m) = map fst m \/
  map fst (BusinessAnalysisTools.monthly_add month a m) = (map fst m ++ [month])%list /\
  ~ In month (map fst m).
Proof.
  induction m as [|[k [n v]] m IH]; cbn [BusinessAnalysisTools.monthly_add].
  - right. split; [reflexivity|intros []].
  - destruct (String.eqb_spec k month) as [E|E]; cbn [map fst app].
    + left. reflexivity.
    + destruct IH as [IH|[IH Hn]].
      * left. now rewrite IH.
      * right. rewrite IH. split; [reflexivity|].
        intros [H|H]; [exact (E H)|exact (Hn H)].
Qed.

Lemma monthly_add_nodup month a m :
  NoDup (map fst m) -> NoDup (map fst (BusinessAnalysisTools.monthly_add month a m)).
Proof.
  intros Hd. destruct (monthly_add_keys month a m) as [->|[-> Hn]]; [exact Hd|].
  apply NoDup_app; [exact Hd|repeat constructor; intros []|].
  intros x Hx [<-|[]]. exact (Hn Hx).
Qed.

Lemma substring_length_le n s : (String.length (substring 0 n s) <= n)%nat.
Proof.
  revert s. induction n as [|n IH]; intros [|c s]; cbn; try lia.
  specialize (IH s). lia.
Qed.

(** *** The order of the months *)

Lemma ascii_compare_refl x : Ascii.compare x x = Eq.
Proof. unfold Ascii.compare. apply N.compare_refl. Qed.

Lemma string_leb_trans a : forall b c,
  String.leb a b = true -> String.leb b c = true -> String.leb a c = true.
Proof.
  unfold String.leb.
  induction a as [|x a IH]; intros [|y b] [|z c]; cbn [String.compare];
    try congruence.
  destruct (Ascii.compare x y) eqn:Exy; destruct (Ascii.compare y z) eqn:Eyz;
    try discriminate; intros H1 H2.
  - apply Ascii.compare_eq_iff in Exy, Eyz. subst.
    rewrite ascii_compare_refl. now apply (IH b c).
  - apply Ascii.compare_eq_iff in Exy. subst. now rewrite Eyz.
  - apply Ascii.compare_eq_iff in Eyz. subst. now rewrite Exy.
  - unfold Ascii.compare in *. rewrite N.compare_lt_iff in *.
    replace (N_of_ascii x ?= N_of_ascii z)%N with Lt; [reflexivity|].
    symmetry. apply N.compare_lt_iff. lia.
Qed.

Lemma string_ltb_of_leb a b :
  String.leb a b = true -> a <> b -> String.ltb a b = true.
Proof.
  unfold String.leb, String.ltb. intros H Hne.
  destruct (String.compare a b) eqn:E; try reflexivity; try discriminate.
  apply String.compare_eq_iff in E. contradiction.
Qed.

Lemma insert_month_perm x l :
  Permutation (x :: l) (BusinessAnalysisTools.insert_month x l).
Proof.
  induction l as [|y l IH]; cbn [BusinessAnalysisTools.insert_month]; [reflexivity|].
  destruct (String.leb (fst x) (fst y)); [reflexivity|].
  rewrite perm_swap. now apply perm_skip.
Qed.

Lemma sorted_months_perm l : Permutation l (BusinessAnalysisTools.sorted_months l).
Proof.
  induction l as [|x l IH]; cbn [BusinessAnalysisTools.sorted_months]; [reflexivity|].
  rewrite <- insert_month_perm. now apply perm_skip.
Qed.

Lemma insert_month_sorted x l :
  StronglySorted month_le l ->
  StronglySorted month_le (BusinessAnalysisTools.insert_month x l).
Proof.
  induction 1 as [|y l Hl IH Hy]; cbn [BusinessAnalysisTools.insert_month].
  - constructor; constructor.
  - destruct (String.leb (fst x) (fst y)) eqn:E.
    + constructor; [constructor; assumption|].
      constructor; [exact E|].
      eapply Forall_impl; [|exact Hy]. intros z Hz.
      unfold month_le in *. eapply string_leb_trans; eassumption.
    + constructor; [exact IH|].
      assert (Hyx : month_le y x).
      { unfold month_le. destruct (String.leb_total (fst x) (fst y)); congruence. }
      eapply Permutation_Forall; [apply insert_month_perm|].
      constructor; assumption.
Qed.

Lemma sorted_months_sorted l :
  StronglySorted month_le (BusinessAnalysisTools.sorted_months l).
Proof.
  induction l as [|x l IH]; cbn [BusinessAnalysisTools.sorted_months].
  - constructor.
  - now apply insert_month_sorted.
Qed.

Lemma ascending_of_sorted l :
  StronglySorted month_le l -> NoDup (map fst l) -> ascending (map fst l).
Proof.
  induction 1 as [|x l Hl IH Hx]; cbn [map ascending]; intros Hnd; [exact I|].
  inversion Hnd as [|? ? Hnotin Hnd']; subst.
  split; [|now apply IH].
  destruct l as [|y l]; cbn [map]; [exact I|].
  inversion Hx; subst. apply string_ltb_of_leb; [assumption|].
  intros E. apply Hnotin. left. symmetry. exact E.
Qed.

Section Report.
Variable w : World.

(** What one turn of the loop does to the state. *)
Lemma report_step_ok r edge r' :
  BusinessAnalysisTools.report_step w r edge = Ok r' ->
  exists amount weighted stage owner industry monthly',
    BusinessAnalysisTools.deal_amounts w [edge] = Ok [amount] /\
    r' = BusinessAnalysisTools.mkReport
           (num_add (BusinessAnalysisTools.total_pipeline r) (NFloat amount))
           (num_add (BusinessAnalysisTools.weighted_pipeline r) (NFloat weighted))
           (BusinessAnalysisTools.performance_add stage amount weighted
              (BusinessAnalysisTools.stage_analysis r))
           (BusinessAnalysisTools.performance_add owner amount weighted
              (BusinessAnalysisTools.owner_performance r))
           (BusinessAnalysisTools.breakdown_add industry amount
              (BusinessAnalysisTools.industry_analysis r))
           (BusinessAnalysisTools.deal_size_add amount
              (BusinessAnalysisTools.deal_size_ranges r))
           monthly' /\
    (monthly' = BusinessAnalysisTools.monthly_pipeline r \/
     exists month,
       (String.length month <= 7)%nat /\
       monthly' = BusinessAnalysisTools.monthly_add month amount
                    (BusinessAnalysisTools.monthly_pipeline r)).
Proof.
  unfold BusinessAnalysisTools.report_step. intros H.
  apply bind_ok_inv in H. destruct H as (node & Hnode & H).
  apply bind_ok_inv in H. destruct H as (amount_value & Hav & H).
  apply bind_ok_inv in H. destruct H as (amount & Ha & H).
  invert_binds H. cbv zeta in H. invert_binds H.
  repeat match goal with
         | E : BusinessAnalysisTools.performance_update _ _ _ _ = Ok _ |- _ =>
             apply performance_update_ok in E; subst
         | E : BusinessAnalysisTools.breakdown_update _ _ _ = Ok _ |- _ =>
             apply breakdown_update_ok in E; subst
         end.
  injection H as <-.
  do 6 eexists. split; [|split; [reflexivity|]].
  - unfold BusinessAnalysisTools.deal_amounts. cbn [mapM].
    rewrite Hnode. cbn [bind]. rewrite Hav. cbn [bind]. rewrite Ha. reflexivity.
  - match goal with
    | E : (if truthy ?c then _ else _) = Ok _ |- _ =>
        destruct (truthy c); [|injection E as <-; now left];
        apply bind_ok_inv in E; destruct E as (month & Hmonth & E);
        injection E as <-; right; exists month; split; [|reflexivity];
        destruct c; try discriminate; injection Hmonth as <-;
        apply substring_length_le
    end.
Qed.

Lemma deal_amounts_app l1 l2 a1 a2 :
  BusinessAnalysisTools.deal_amounts w l1 = Ok a1 ->
  BusinessAnalysisTools.deal_amounts w l2 = Ok a2 ->
  BusinessAnalysisTools.deal_amounts w (l1 ++ l2) = Ok (a1 ++ a2)%list.
Proof.
  unfold BusinessAnalysisTools.deal_amounts. revert a1.
  induction l1 as [|x l1 IH]; intros a1 H1 H2.
  - injection H1 as <-. exact H2.
  - cbn [mapM app] in *. apply bind_ok_inv in H1. destruct H1 as (y & Hy & H1).
    apply bind_ok_inv in H1. destruct H1 as (ys & Hys & H1). injection H1 as <-.
    rewrite Hy. cbn [bind]. rewrite (IH _ Hys H2). reflexivity.
Qed.

Lemma report_loop_invariant items : forall seen amounts r r',
  BusinessAnalysisTools.deal_amounts w seen = Ok amounts ->
  report_invariant amounts r ->
  foldM (BusinessAnalysisTools.report_step w) r items = Ok r' ->
  exists amounts',
    BusinessAnalysisTools.deal_amounts w (seen ++ items) = Ok amounts' /\
    report_invariant amounts' r'.
Proof.
  induction items as [|edge items IH]; intros seen amounts r r' Hseen Hi H.
  - injection H as <-. rewrite app_nil_r. eauto.
  - cbn [foldM] in H. apply bind_ok_inv in H. destruct H as (r1 & H1 & H).
    destruct (report_step_ok _ _ _ H1)
      as (a & wv & st & ow & ind & mo & Ha & -> & Hmo).
    replace (seen ++ edge :: items)%list with ((seen ++ [edge]) ++ items)%list
      by (rewrite <- app_assoc; reflexivity).
    eapply IH; [exact (deal_amounts_app _ _ _ _ Hseen Ha)| |exact H].
    destruct Hi as (Hs & Ho & Hind & Hsz & Hm & Hnd & Hlen).
    unfold report_invariant.
    cbn [BusinessAnalysisTools.total_pipeline BusinessAnalysisTools.stage_analysis
         BusinessAnalysisTools.owner_performance BusinessAnalysisTools.industry_analysis
         BusinessAnalysisTools.deal_size_ranges BusinessAnalysisTools.monthly_pipeline].
    rewrite length_app. cbn [List.length]. rewrite Nat.add_1_r.
    split; [now apply performance_partitions_add|].
    split; [now apply performance_partitions_add|].
    split; [now apply partitions_add|].
    split; [rewrite Hsz; apply deal_size_add_sizes|].
    destruct Hmo as [->|(month & Hmonth & ->)].
    + split; [lia|]. split; [exact Hnd|exact Hlen].
    + split; [rewrite monthly_add_counts; lia|].
      split; [now apply monthly_add_nodup|].
      destruct (monthly_add_keys month a (BusinessAnalysisTools.monthly_pipeline r))
        as [->|[-> _]]; [exact Hlen|].
      apply Forall_app. split; [exact Hlen|]. constructor; [exact Hmonth|constructor].
Qed.

(** The parts of a successful answer of the [try] body. *)
Lemma report_body_ok min_amount payload :
  BusinessAnalysisTools.complete_pipeline_report_body w min_amount = Ok payload ->
  exists edges items r won lost amounts first_ten tops,
    py_iter edges = Ok items /\
    foldM (BusinessAnalysisTools.report_step w) BusinessAnalysisTools.empty_report items
      = Ok r /\
    BusinessAnalysisTools.count_stage "Closed Won" items = Ok won /\
    BusinessAnalysisTools.count_stage "Closed Lost" items = Ok lost /\
    BusinessAnalysisTools.deal_amounts w items = Ok amounts /\
    BusinessAnalysisTools.py_first_n 10 edges = Ok first_ten /\
    mapM BusinessAnalysisTools.top_opportunity first_ten = Ok tops /\
    payload =
      PDict
        [kv "success" (PBool true);
         kv "report_period" (PStr (Datetime.strftime_ymd (now w)));
         kv "filters"
            (PDict [kv "min_amount" (num_py min_amount);
                    kv "opportunities_analyzed" (PInt (Z.of_nat (List.length items)))]);
         kv "executive_summary"
            (PDict [kv "total_opportunities" (PInt (Z.of_nat (List.length items)));
                    kv "total_pipeline_value"
                       (num_py (BusinessAnalysisTools.total_pipeline r));
                    kv "weighted_pipeline_value"
                       (num_py (BusinessAnalysisTools.weighted_pipeline r));
                    kv "average_deal_size"
                       (match items with
                        | [] => PInt 0
                        | _ :: _ =>
                            PFloat (num_div_count (BusinessAnalysisTools.total_pipeline r)
                                      (Z.of_nat (List.length items)))
                        end);
                    kv "win_rate_percent" (BusinessAnalysisTools.win_rate won lost);
                    kv "largest_deal" (BusinessAnalysisTools.largest amounts)]);
         kv "detailed_analysis"
            (PDict [kv "by_stage"
                       (BusinessAnalysisTools.performance_py
                          (BusinessAnalysisTools.sorted_desc
                             (fun e => snd (fst (snd e)))
                             (BusinessAnalysisTools.stage_analysis r)));
                    kv "by_owner"
                       (BusinessAnalysisTools.performance_py
                          (BusinessAnalysisTools.sorted_desc
                             (fun e => snd (fst (snd e)))
                             (BusinessAnalysisTools.owner_performance r)));
                    kv "by_industry"
                       (BusinessAnalysisTools.breakdown_py
                          (BusinessAnalysisTools.sorted_desc
                             (fun e => snd (snd e))
                             (BusinessAnalysisTools.industry_analysis r)));
                    kv "by_deal_size"
                       (BusinessAnalysisTools.deal_sizes_py
                          (BusinessAnalysisTools.deal_size_ranges r));
                    kv "by_month"
                       (BusinessAnalysisTools.monthly_py
                          (BusinessAnalysisTools.sorted_months
                             (BusinessAnalysisTools.monthly_pipeline r)))]);
         kv "top_opportunities" (PList tops);
         kv "timestamp" (PStr (utcnow_isoformat w))].
Proof.
  unfold BusinessAnalysisTools.complete_pipeline_report_body. intros H.
  apply bind_ok_inv in H. destruct H as (client & _ & H). cbv zeta in H.
  apply bind_ok_inv in H. destruct H as (result & _ & H).
  apply bind_ok_inv in H. destruct H as (edges & _ & H).
  apply bind_ok_inv in H. destruct H as (items & Hi & H).
  apply bind_ok_inv in H. destruct H as (r & Hr & H).
  apply bind_ok_inv in H. destruct H as (won & Hw & H).
  apply bind_ok_inv in H. destruct H as (lost & Hl & H).
  apply bind_ok_inv in H. destruct H as (amounts & Ha & H).
  apply bind_ok_inv in H. destruct H as (first_ten & Hf & H).
  apply bind_ok_inv in H. destruct H as (tops & Ht & H).
  injection H as <-.
  exists edges, items, r, won, lost, amounts, first_ten, tops. auto 10.
Qed.

Lemma report_invariant_loop items r :
  foldM (BusinessAnalysisTools.report_step w) BusinessAnalysisTools.empty_report items
    = Ok r ->
  exists amounts,
    BusinessAnalysisTools.deal_amounts w items = Ok amounts /\
    report_invariant amounts r.
Proof.
  intros H.
  apply (report_loop_invariant items [] [] BusinessAnalysisTools.empty_report r);
    [reflexivity| |exact H].
  unfold report_invariant. cbn.
  repeat split; try reflexivity; try lia; constructor.
Qed.






Lemma monthly_py_counts m :
  int_total "count" (BusinessAnalysisTools.monthly_py m) = month_counts m.
Proof.
  unfold BusinessAnalysisTools.monthly_py, month_counts.
  rewrite int_total_map.
  induction m as [|e m IH]; cbn [fold_right]; [reflexivity|].
  rewrite IH. reflexivity.
Qed.

(** X20.  Under ["by_month"] a successful answer lists month keys of at
    most seven characters in strictly increasing order, and counts under
    them no more records than there are opportunities: a record without a
    close date is in no month. *)
Theorem months_in_order (min_amount : num) (payload : pyval) :
  BusinessAnalysisTools.complete_pipeline_report_body w min_amount = Ok payload ->
  exists n by_month months,
    at_path ["executive_summary"; "total_opportunities"] payload = Some (PInt n) /\
    at_path ["detailed_analysis"; "by_month"] payload = Some by_month /\
    keys by_month = map PStr months /\
    ascending months /\
    Forall (fun month => (String.length month <= 7)%nat) months /\
    int_total "count" by_month <= n.
Proof.
  intros H.
  destruct (report_body_ok _ _ H)
    as (edges & items & r & won & lost & amounts & first_ten & tops
        & Hi & Hr & Hw & Hl & Ha & Hf & Ht & ->).
  destruct (report_invariant_loop _ _ Hr) as (amounts' & Ha' & Hinv).
  rewrite Ha in Ha'. injection Ha' as <-.
  destruct Hinv as (_ & _ & _ & _ & Hm & Hnd & Hlen).
  pose proof (sorted_months_perm (BusinessAnalysisTools.monthly_pipeline r)) as Hperm.
  pose proof (sorted_months_sorted (BusinessAnalysisTools.monthly_pipeline r)) as Hs.
  set (sorted := BusinessAnalysisTools.sorted_months
                   (BusinessAnalysisTools.monthly_pipeline r)) in *.
  exists (Z.of_nat (List.length items)), (BusinessAnalysisTools.monthly_py sorted),
    (map fst sorted).
  split; [reflexivity|]. split; [reflexivity|].
  split.
  { unfold BusinessAnalysisTools.monthly_py, keys. rewrite !map_map. reflexivity. }
  split; [|split].
  - apply ascending_of_sorted; [exact Hs|].
    eapply Permutation_NoDup; [apply Permutation_map; exact Hperm|exact Hnd].
  - eapply Permutation_Forall; [apply Permutation_map; exact Hperm|exact Hlen].
  - rewrite monthly_py_counts.
    unfold month_counts. rewrite <- (sum_Z_perm (fun e => fst (snd e)) _ _ Hperm).
    fold (month_counts (BusinessAnalysisTools.monthly_pipeline r)).
    rewrite <- (mapM_length _ _ _ Ha). exact Hm.
Qed.






End Report.



(** The five sample opportunities: two small deals (one of them without an
    amount), two medium and one large. *)
Example five_opportunities_by_size :
  at_path ["detailed_analysis"; "by_deal_size"]
    (Examples.answer
       (BusinessAnalysisTools.complete_pipeline_report
          (Examples.page Examples.five_edges) (NInt 10000)))
  = Some (PDict [kv "Small (<$25k)" (PInt 2);
                 kv "Medium ($25k-$100k)" (PInt 2);
                 kv "Large ($100k+)" (PInt 1)]).
Proof. vm_compute. reflexivity. Qed.

Lemma months_in_order_witness :
  let payload :=
    Examples.answer
      (BusinessAnalysisTools.complete_pipeline_report_body
         (Examples.page Examples.five_edges) (NInt 10000)) in
  exists n by_month months,
    at_path ["executive_summary"; "total_opportunities"] payload = Some (PInt n) /\
    at_path ["detailed_analysis"; "by_month"] payload = Some by_month /\
    keys by_month = map PStr months /\
    ascending months /\
    Forall (fun month => (String.length month <= 7)%nat) months /\
    int_total "count" by_month <= n.
Proof.
  apply (months_in_order (Examples.page Examples.five_edges) (NInt 10000)).
  vm_compute. reflexivity.
Defined.

(** The five sample opportunities: four of them have a close date, in two
    months. *)
Example five_opportunities_by_month :
  let by_month :=
    at_path ["detailed_analysis"; "by_month"]
      (Examples.answer
         (BusinessAnalysisTools.complete_pipeline_report
            (Examples.page Examples.five_edges) (NInt 10000))) in
  option_map keys by_month = Some [PStr "2025-09"; PStr "2025-10"] /\
  option_map (int_total "count") by_month = Some 4.
Proof. vm_compute. split; reflexivity. Qed.


(** Two deals won and one lost out of five: a win rate of two thirds. *)
Example five_opportunities_win_rate :
  at_path ["executive_summary"; "win_rate_percent"]
    (Examples.answer
       (BusinessAnalysisTools.complete_pipeline_report
          (Examples.page Examples.five_edges) (NInt 10000)))
  = Some (PFloat (200 # 3)).
Proof. vm_compute. reflexivity. Qed.


(** ** [account_opportunity_analysis] *)













Section AccountAnalysis.
Variable w : World.








End AccountAnalysis.



(** Three accounts fetched, two of them with opportunities: the third is
    counted under [total_accounts] and is not in the breakdown; an account
    without employees is reported with 0. *)
Example five_opportunities_by_account :
  let payload :=
    Examples.answer
      (BusinessAnalysisTools.account_opportunity_analysis
         (Examples.org Examples.three_accounts Examples.five_edges)) in
  at_path ["summary"; "total_accounts"] payload = Some (PInt 3) /\
  at_path ["summary"; "accounts_with_opportunities"] payload = Some (PInt 2) /\
  option_map keys (at_path ["account_opportunity_breakdown"] payload) =
    Some [PStr "001Acme"; PStr "001Zen"] /\
  at_path ["account_opportunity_breakdown"; "001Acme"; "total_pipeline"] payload =
    Some (PFloat 240000) /\
  at_path ["account_opportunity_breakdown"; "001Acme"; "industry"] payload =
    Some (PStr "Energy") /\
  at_path ["account_opportunity_breakdown"; "001Zen"; "employees"] payload =
    Some (PInt 0).
Proof. vm_compute. repeat split. Qed.

(** ** What [query_accounts] returns *)

Lemma mapM_raises {A B : Type} (f : A -> Result B) (x : A) (l : list A) :
  In x l -> raises (f x) -> raises (mapM f l).
Proof.
  intros Hin Hx. induction l as [|y l IH]; [destruct Hin|].
  cbn [mapM]. destruct Hin as [->|Hin].
  - apply raises_bind_l. exact Hx.
  - apply raises_bind_r. intros b. apply raises_bind_l. now apply IH.
Qed.

Lemma bind_raise_inv {A B : Type} (m : Result A) (k : A -> Result B) (e : exn) :
  bind m k = Raise e -> m = Raise e \/ exists a, m = Ok a /\ k a = Raise e.
Proof.
  destruct m as [a|e']; cbn [bind]; intros H; [right; eauto|left; now injection H as ->].
Qed.

Lemma mapM_error {A B : Type} (f : A -> Result B) (P : exn -> Prop) :
  (forall x e, f x = Raise e -> P e) ->
  forall l e, mapM f l = Raise e -> P e.
Proof.
  intros Hf. induction l as [|x l IH]; intros e H; [discriminate|].
  cbn [mapM] in H. apply bind_raise_inv in H.
  destruct H as [H|(y & _ & H)]; [now apply (Hf x)|].
  apply bind_raise_inv in H.
  destruct H as [H|(ys & _ & H)]; [now apply IH|discriminate].
Qed.

(** [get] raises nothing but the [AttributeError] of a value that is not a
    dict. *)
Lemma py_get_error v k dflt e :
  py_get v k dflt = Raise e -> exn_type e = "AttributeError".
Proof. destruct v; cbn [py_get]; intros H; try discriminate; now injection H as <-. Qed.

Lemma field_error node f sub dflt e :
  field node f sub dflt = Raise e -> exn_type e = "AttributeError".
Proof.
  unfold field. intros H. apply bind_raise_inv in H.
  destruct H as [H|(x & _ & H)]; eapply py_get_error; exact H.
Qed.

Lemma normalize_account_error edge e :
  AccountTools.normalize_account edge = Raise e -> exn_type e = "AttributeError".
Proof.
  unfold AccountTools.normalize_account. intros H.
  repeat (apply bind_raise_inv in H;
          destruct H as [H|(? & _ & H)];
          [solve [eapply py_get_error; exact H | eapply field_error; exact H]|]).
  discriminate.
Qed.

Lemma get_entity_error result entity e :
  Client.get_entity result entity = Raise e -> exn_type e = "AttributeError".
Proof.
  unfold Client.get_entity. intros H.
  repeat (apply bind_raise_inv in H;
          destruct H as [H|(? & _ & H)];
          [solve [eapply py_get_error; exact H]|]).
  eapply py_get_error; exact H.
Qed.

Lemma get_total_count_error result entity e :
  Client.get_total_count result entity = Raise e -> exn_type e = "AttributeError".
Proof.
  unfold Client.get_total_count. intros H. apply bind_raise_inv in H.
  destruct H as [H|(x & _ & H)];
    [eapply get_entity_error; exact H|eapply py_get_error; exact H].
Qed.

(** The record of an account: the ten keys, whatever the node holds. *)
Lemma normalize_account_record edge account :
  AccountTools.normalize_account edge = Ok account ->
  keys account = map PStr ["id"; "name"; "type"; "industry"; "annual_revenue";
                           "annual_revenue_display"; "employees"; "phone";
                           "website"; "billing_address"] /\
  option_map keys (at_path ["billing_address"] account) =
    Some (map PStr ["city"; "state"; "country"]).
Proof.
  unfold AccountTools.normalize_account. intros H.
  repeat (apply bind_ok_inv in H; destruct H as (? & _ & H)).
  injection H as <-. split; reflexivity.
Qed.

(** A field of the node that is [null] stops the record: the default
    stands in for a missing field only. *)
Lemma null_field_not_read node f sub dflt :
  dict_lookup (PStr f) node = Some PNone ->
  raises (field (PDict node) f sub dflt).
Proof.
  intros Hnull. unfold field, py_get at 1. rewrite Hnull.
  eexists. reflexivity.
Qed.

Lemma null_field_not_normalized edge node f :
  py_get edge "node" (PDict []) = Ok (PDict node) ->
  In f ["Name"; "Type"; "Industry"; "AnnualRevenue"; "NumberOfEmployees";
        "Phone"; "Website"; "BillingAddress"] ->
  dict_lookup (PStr f) node = Some PNone ->
  raises (AccountTools.normalize_account edge).
Proof.
  intros Hnode Hin Hnull.
  destruct (AccountTools.normalize_account edge) as [account|e] eqn:H;
    [|exists e; reflexivity].
  exfalso. unfold AccountTools.normalize_account in H.
  rewrite Hnode in H. cbn [bind] in H.
  apply bind_ok_inv in H. destruct H as (billing_address & Hb & H).
  apply bind_ok_inv in H. destruct H as (id & _ & H).
  apply bind_ok_inv in H. destruct H as (name & H1 & H).
  apply bind_ok_inv in H. destruct H as (type_ & H2 & H).
  apply bind_ok_inv in H. destruct H as (industry & H3 & H).
  apply bind_ok_inv in H. destruct H as (annual_revenue & H4 & H).
  apply bind_ok_inv in H. destruct H as (display & _ & H).
  apply bind_ok_inv in H. destruct H as (employees & H5 & H).
  apply bind_ok_inv in H. destruct H as (phone & H6 & H).
  apply bind_ok_inv in H. destruct H as (website & H7 & H).
  apply bind_ok_inv in H. destruct H as (city & H8 & _).
  cbn [In] in Hin.
  destruct Hin as [<-|[<-|[<-|[<-|[<-|[<-|[<-|[<-|[]]]]]]]]].
  - exact (raises_not_ok _ _ (null_field_not_read _ _ _ _ Hnull) H1).
  - exact (raises_not_ok _ _ (null_field_not_read _ _ _ _ Hnull) H2).
  - exact (raises_not_ok _ _ (null_field_not_read _ _ _ _ Hnull) H3).
  - exact (raises_not_ok _ _ (null_field_not_read _ _ _ _ Hnull) H4).
  - exact (raises_not_ok _ _ (null_field_not_read _ _ _ _ Hnull) H5).
  - exact (raises_not_ok _ _ (null_field_not_read _ _ _ _ Hnull) H6).
  - exact (raises_not_ok _ _ (null_field_not_read _ _ _ _ Hnull) H7).
  - unfold py_get in Hb. rewrite Hnull in Hb. injection Hb as <-.
    discriminate H8.
Qed.

Section QueryAccounts.
Variable w : World.

(** X25.  A successful answer of [query_accounts] has one record per edge,
    in the order of the edges, each with the same ten keys whatever its
    node holds; [total_accounts] counts the edges received,
    [total_count_in_org] is the count the service reported, and
    [filter_applied] is [None] exactly when no industry was given. *)
Theorem one_account_per_edge (c : SalesforceClient) (query industry : string)
        (payload : pyval) :
  AccountTools.query_accounts_body w c query industry = Ok payload ->
  exists result edges items accounts total_count,
    Client.execute_query w c query None = Ok result /\
    Client.get_edges result "Account" = Ok edges /\
    py_iter edges = Ok items /\
    Client.get_total_count result "Account" = Ok total_count /\
    mapM AccountTools.normalize_account items = Ok accounts /\
    at_path ["accounts"] payload = Some (PList accounts) /\
    Forall (fun account =>
              keys account =
                map PStr ["id"; "name"; "type"; "industry"; "annual_revenue";
                          "annual_revenue_display"; "employees"; "phone";
                          "website"; "billing_address"] /\
              option_map keys (at_path ["billing_address"] account) =
                Some (map PStr ["city"; "state"; "country"])) accounts /\
    at_path ["summary"; "total_accounts"] payload =
      Some (PInt (Z.of_nat (List.length items))) /\
    at_path ["summary"; "total_count_in_org"] payload = Some total_count /\
    at_path ["summary"; "filter_applied"] payload =
      Some (if String.eqb industry ""
            then PNone
            else PDict [kv "industry" (PStr industry)]).
Proof.
  unfold AccountTools.query_accounts_body. intros H.
  apply bind_ok_inv in H. destruct H as (result & Hr & H).
  apply bind_ok_inv in H. destruct H as (edges & He & H).
  apply bind_ok_inv in H. destruct H as (total_count & Ht & H).
  apply bind_ok_inv in H. destruct H as (items & Hi & H).
  apply bind_ok_inv in H. destruct H as (accounts & Hm & H).
  injection H as <-.
  exists result, edges, items, accounts, total_count.
  repeat (split; [assumption|]).
  split; [reflexivity|].
  split.
  { apply (mapM_Forall AccountTools.normalize_account _ items); [|exact Hm].
    intros edge account. apply normalize_account_record. }
  split; [rewrite (mapM_length _ _ _ Hm); reflexivity|].
  split; [reflexivity|].
  unfold nonempty. destruct (String.eqb industry ""); reflexivity.
Qed.

(** X26.  One account with a [null] field fails the whole answer: when a
    node among the edges holds [null] under [BillingAddress] or under one
    of the seven wrapped fields, [query_accounts] returns the failure
    payload of an [AttributeError], and no record of any other account. *)
Theorem null_account_field_fails (c : SalesforceClient) (limit : Z) (industry : string)
        (result edges edge : pyval) (items : list pyval)
        (node : list (pyval * pyval)) (f : string) :
  get_salesforce_client w = Ok c ->
  Client.execute_query w c (AccountTools.query_accounts_query limit industry) None =
    Ok result ->
  Client.get_edges result "Account" = Ok edges ->
  py_iter edges = Ok items ->
  In edge items ->
  py_get edge "node" (PDict []) = Ok (PDict node) ->
  In f ["Name"; "Type"; "Industry"; "AnnualRevenue"; "NumberOfEmployees";
        "Phone"; "Website"; "BillingAddress"] ->
  dict_lookup (PStr f) node = Some PNone ->
  exists e,
    AccountTools.query_accounts w limit industry = Ok (failure_payload e) /\
    exn_type e = "AttributeError".
Proof.
  intros Hc Hr He Hi Hin Hnode Hf Hnull.
  unfold AccountTools.query_accounts. rewrite Hc. cbn [bind]. cbv zeta.
  destruct (AccountTools.query_accounts_body w c
              (AccountTools.query_accounts_query limit industry) industry)
    as [payload|e] eqn:Hbody.
  - exfalso. revert Hbody. apply raises_not_ok.
    unfold AccountTools.query_accounts_body. rewrite Hr. cbn [bind].
    rewrite He. cbn [bind]. apply raises_bind_r. intros total_count.
    rewrite Hi. cbn [bind]. apply raises_bind_l.
    apply (mapM_raises _ edge); [exact Hin|].
    now apply (null_field_not_normalized edge node f).
  - exists e. split; [reflexivity|].
    unfold AccountTools.query_accounts_body in Hbody.
    rewrite Hr in Hbody. cbn [bind] in Hbody. rewrite He in Hbody.
    cbn [bind] in Hbody. apply bind_raise_inv in Hbody.
    destruct Hbody as [H|(total_count & _ & H)];
      [eapply get_total_count_error; exact H|].
    rewrite Hi in H. cbn [bind] in H. apply bind_raise_inv in H.
    destruct H as [H|(accounts & _ & H)]; [|discriminate].
    apply (mapM_error AccountTools.normalize_account
             (fun e => exn_type e = "AttributeError")
             normalize_account_error items e H).
Qed.

End QueryAccounts.

Lemma one_account_per_edge_witness :
  let w := Examples.org Examples.three_accounts Examples.five_edges in
  let query := AccountTools.query_accounts_query 50 "Energy" in
  let payload :=
    Examples.answer
      (AccountTools.query_accounts_body w Examples.client query "Energy") in
  exists result edges items accounts total_count,
    Client.execute_query w Examples.client query None = Ok result /\
    Client.get_edges result "Account" = Ok edges /\
    py_iter edges = Ok items /\
    Client.get_total_count result "Account" = Ok total_count /\
    mapM AccountTools.normalize_account items = Ok accounts /\
    at_path ["accounts"] payload = Some (PList accounts) /\
    Forall (fun account =>
              keys account =
                map PStr ["id"; "name"; "type"; "industry"; "annual_revenue";
                          "annual_revenue_display"; "employees"; "phone";
                          "website"; "billing_address"] /\
              option_map keys (at_path ["billing_address"] account) =
                Some (map PStr ["city"; "state"; "country"])) accounts /\
    at_path ["summary"; "total_accounts"] payload =
      Some (PInt (Z.of_nat (List.length items))) /\
    at_path ["summary"; "total_count_in_org"] payload = Some total_count /\
    at_path ["summary"; "filter_applied"] payload =
      Some (if String.eqb "Energy" ""
            then PNone
            else PDict [kv "industry" (PStr "Energy")]).
Proof.
  apply (one_account_per_edge
           (Examples.org Examples.three_accounts Examples.five_edges) Examples.client
           (AccountTools.query_accounts_query 50 "Energy") "Energy").
  vm_compute. reflexivity.
Defined.

Lemma null_account_field_fails_witness :
  let w := Examples.org (Examples.three_accounts ++ [Examples.unlocated_account]) [] in
  exists e,
    AccountTools.query_accounts w 50 "" = Ok (failure_payload e) /\
    exn_type e = "AttributeError".
Proof.
  refine (null_account_field_fails
            (Examples.org (Examples.three_accounts ++ [Examples.unlocated_account]) [])
            Examples.client 50 ""
            (Examples.answer
               (Client.execute_query
                  (Examples.org (Examples.three_accounts ++ [Examples.unlocated_account])
                                [])
                  Examples.client (AccountTools.query_accounts_query 50 "") None))
            (PList (Examples.three_accounts ++ [Examples.unlocated_account]))
            Examples.unlocated_account
            (Examples.three_accounts ++ [Examples.unlocated_account])
            [kv "Id" (PStr "001Nomad");
             kv "Name" (Examples.wrapped (PStr "Nomad"));
             kv "BillingAddress" PNone]
            "BillingAddress" _ _ _ _ _ _ _ _).
  - reflexivity.
  - vm_compute. reflexivity.
  - vm_compute. reflexivity.
  - reflexivity.
  - do 3 right. left. reflexivity.
  - reflexivity.
  - do 7 right. left. reflexivity.
  - reflexivity.
Defined.

(** The answer to the accounts above: the failure, and the class of the
    error. *)
Example unlocated_account_answer :
  AccountTools.query_accounts
    (Examples.org (Examples.three_accounts ++ [Examples.unlocated_account]) []) 50 ""
  = Ok (failure_payload
          (mkExn "AttributeError" "'NoneType' object has no attribute 'get'")).
Proof. vm_compute. reflexivity. Qed.

(** ** The tools that find by stage and by industry *)


Lemma attr_get_error x sub dflt e :
  attr_get x sub dflt = Raise e -> exn_type e = "AttributeError".
Proof. apply py_get_error. Qed.

Lemma stage_entry_error o e :
  stage_entry o = Raise e -> exn_type e = "AttributeError".
Proof.
  unfold stage_entry. intros H.
  repeat (apply bind_raise_inv in H;
          destruct H as [H|(? & _ & H)];
          [solve [eapply attr_get_error; exact H]|]).
  discriminate.
Qed.

Lemma industry_entry_error a e :
  AccountTools.industry_entry a = Raise e -> exn_type e = "AttributeError".
Proof.
  unfold AccountTools.industry_entry. intros H.
  repeat (apply bind_raise_inv in H;
          destruct H as [H|(? & _ & H)];
          [solve [eapply attr_get_error; exact H]|]).
  discriminate.
Qed.

Lemma incomplete_opportunity_raises o :
  incomplete_opportunity o -> raises (stage_entry o).
Proof.
  intros Hi. destruct (stage_entry o) as [entry|e] eqn:H; [|exists e; reflexivity].
  exfalso. unfold stage_entry in H.
  apply bind_ok_inv in H. destruct H as (name & H1 & H).
  apply bind_ok_inv in H. destruct H as (amount & H2 & H).
  apply bind_ok_inv in H. destruct H as (close_date & H3 & H).
  apply bind_ok_inv in H. destruct H as (probability & H4 & _).
  destruct Hi as [E|[E|[E|E]]]; rewrite E in *; discriminate.
Qed.

Lemma incomplete_account_raises a :
  incomplete_account a -> raises (AccountTools.industry_entry a).
Proof.
  intros Hi.
  destruct (AccountTools.industry_entry a) as [entry|e] eqn:H; [|exists e; reflexivity].
  exfalso. unfold AccountTools.industry_entry in H.
  apply bind_ok_inv in H. destruct H as (name & H1 & H).
  apply bind_ok_inv in H. destruct H as (type_ & H2 & H).
  apply bind_ok_inv in H. destruct H as (revenue & H3 & H).
  apply bind_ok_inv in H. destruct H as (employees & H4 & H).
  apply bind_ok_inv in H. destruct H as (website & H5 & _).
  destruct Hi as [E|[E|[E|[E|E]]]]; rewrite E in *; discriminate.
Qed.

Lemma mapM_fails {A B : Type} (f : A -> Result B) (P : A -> Prop) (l : list A) :
  (forall x, P x -> raises (f x)) ->
  (forall x e, f x = Raise e -> exn_type e = "AttributeError") ->
  Exists P l ->
  exists e, mapM f l = Raise e /\ exn_type e = "AttributeError".
Proof.
  intros Hr He Hex. apply Exists_exists in Hex. destruct Hex as (x & Hin & Hx).
  destruct (mapM_raises f x l Hin (Hr x Hx)) as [e E].
  exists e. split; [exact E|].
  exact (mapM_error f (fun e => exn_type e = "AttributeError") He l e E).
Qed.

Section Find.
Variable w : World.

(** X27.  The answers of [find_opportunities_by_stage] and of
    [find_accounts_by_industry] carry the filter as a label only: asked
    for another stage, or another industry, the tools return the same
    entries, as many, under the other label. *)
Theorem find_results_ignore_the_filter (stage stage' industry industry' : string)
        (limit : Z) (p q : pyval) :
  find_opportunities_by_stage w stage limit = Ok p ->
  AccountTools.find_accounts_by_industry w industry limit = Ok q ->
  exists opportunities accounts,
    p = PDict [kv "stage" (PStr stage);
               kv "opportunities_found" (PInt (Z.of_nat (List.length opportunities)));
               kv "opportunities" (PList opportunities)] /\
    q = PDict [kv "industry" (PStr industry);
               kv "accounts_found" (PInt (Z.of_nat (List.length accounts)));
               kv "accounts" (PList accounts)] /\
    find_opportunities_by_stage w stage' limit =
      Ok (PDict [kv "stage" (PStr stage');
                 kv "opportunities_found"
                    (PInt (Z.of_nat (List.length opportunities)));
                 kv "opportunities" (PList opportunities)]) /\
    AccountTools.find_accounts_by_industry w industry' limit =
      Ok (PDict [kv "industry" (PStr industry');
                 kv "accounts_found" (PInt (Z.of_nat (List.length accounts)));
                 kv "accounts" (PList accounts)]).
Proof.
  unfold find_opportunities_by_stage, AccountTools.find_accounts_by_industry.
  intros Hp Hq.
  apply bind_ok_inv in Hp. destruct Hp as (c & Hc & Hp).
  apply bind_ok_inv in Hp. destruct Hp as (opps & Ho & Hp).
  apply bind_ok_inv in Hp. destruct Hp as (entries & He & Hp). injection Hp as <-.
  rewrite Hc in Hq. cbn [bind] in Hq.
  apply bind_ok_inv in Hq. destruct Hq as (accs & Ha & Hq).
  apply bind_ok_inv in Hq. destruct Hq as (rows & Hr & Hq). injection Hq as <-.
  exists entries, rows.
  rewrite (mapM_length _ _ _ He), (mapM_length _ _ _ Hr).
  split; [reflexivity|]. split; [reflexivity|].
  rewrite Hc. cbn [bind].
  change (Client.search_opportunities w c (Some stage') None limit)
    with (Client.search_opportunities w c (Some stage) None limit).
  change (Client.search_accounts w c (Some industry') limit)
    with (Client.search_accounts w c (Some industry) limit).
  rewrite Ho, Ha. cbn [bind]. rewrite He, Hr. split; reflexivity.
Qed.

(** X28.  [find_opportunities_by_stage] raises an [AttributeError], and
    returns no entry, when one of the opportunities found has no [Name],
    [Amount], [CloseDate] or [Probability]; so does
    [find_accounts_by_industry] when one of the accounts found has no
    [Name], [Type], [AnnualRevenue], [NumberOfEmployees] or [Website]. *)
Theorem find_tools_need_every_field (c : SalesforceClient) (stage industry : string)
        (limit : Z) (opportunities : list Models.Opportunity)
        (accounts : list Models.Account) :
  get_salesforce_client w = Ok c ->
  Client.search_opportunities w c (Some stage) None limit = Ok opportunities ->
  Client.search_accounts w c (Some industry) limit = Ok accounts ->
  (Exists incomplete_opportunity opportunities ->
   exists e,
     find_opportunities_by_stage w stage limit = Raise e /\
     exn_type e = "AttributeError") /\
  (Exists incomplete_account accounts ->
   exists e,
     AccountTools.find_accounts_by_industry w industry limit = Raise e /\
     exn_type e = "AttributeError").
Proof.
  intros Hc Ho Ha.
  unfold find_opportunities_by_stage, AccountTools.find_accounts_by_industry.
  rewrite Hc. cbn [bind]. rewrite Ho, Ha. cbn [bind]. split; intros Hex.
  - destruct (mapM_fails stage_entry incomplete_opportunity opportunities
                incomplete_opportunity_raises stage_entry_error Hex) as (e & -> & He).
    exists e. split; [reflexivity|exact He].
  - destruct (mapM_fails AccountTools.industry_entry incomplete_account accounts
                incomplete_account_raises industry_entry_error Hex) as (e & -> & He).
    exists e. split; [reflexivity|exact He].
Qed.

End Find.

Lemma find_results_ignore_the_filter_witness :
  let w := Examples.validating Examples.three_accounts Examples.five_edges in
  let p := Examples.answer (find_opportunities_by_stage w "Negotiation" 10) in
  let q := Examples.answer (AccountTools.find_accounts_by_industry w "Energy" 10) in
  exists opportunities accounts,
    p = PDict [kv "stage" (PStr "Negotiation");
               kv "opportunities_found" (PInt (Z.of_nat (List.length opportunities)));
               kv "opportunities" (PList opportunities)] /\
    q = PDict [kv "industry" (PStr "Energy");
               kv "accounts_found" (PInt (Z.of_nat (List.length accounts)));
               kv "accounts" (PList accounts)] /\
    find_opportunities_by_stage w "Closed Won" 10 =
      Ok (PDict [kv "stage" (PStr "Closed Won");
                 kv "opportunities_found"
                    (PInt (Z.of_nat (List.length opportunities)));
                 kv "opportunities" (PList opportunities)]) /\
    AccountTools.find_accounts_by_industry w "Retail" 10 =
      Ok (PDict [kv "industry" (PStr "Retail");
                 kv "accounts_found" (PInt (Z.of_nat (List.length accounts)));
                 kv "accounts" (PList accounts)]).
Proof.
  apply (find_results_ignore_the_filter
           (Examples.validating Examples.three_accounts Examples.five_edges)
           "Negotiation" "Closed Won" "Energy" "Retail" 10).
  - vm_compute. reflexivity.
  - vm_compute. reflexivity.
Defined.

(** Asked for the stage Negotiation, the tool answers with the five
    opportunities of the page, of three stages. *)
Example find_by_stage_finds_every_stage :
  at_path ["opportunities_found"]
    (Examples.answer
       (find_opportunities_by_stage
          (Examples.validating Examples.three_accounts Examples.five_edges)
          "Negotiation" 10))
  = Some (PInt 5).
Proof. vm_compute. reflexivity. Qed.

Lemma find_tools_need_every_field_witness :
  let w := Examples.validating
             (Examples.three_accounts ++ [Examples.unlocated_account])
             (Examples.five_edges ++ [Examples.undated_opportunity]) in
  (exists e,
     find_opportunities_by_stage w "Negotiation" 10 = Raise e /\
     exn_type e = "AttributeError") /\
  (exists e,
     AccountTools.find_accounts_by_industry w "Energy" 10 = Raise e /\
     exn_type e = "AttributeError").
Proof.
  pose (w := Examples.validating
               (Examples.three_accounts ++ [Examples.unlocated_account])
               (Examples.five_edges ++ [Examples.undated_opportunity])).
  pose (opportunities :=
          map (fun edge =>
                 match at_path ["node"] edge with
                 | Some (PDict d) => Examples.opportunity_of d
                 | _ => Examples.no_opportunity
                 end)
              (Examples.five_edges ++ [Examples.undated_opportunity])).
  pose (accounts :=
          map (fun edge =>
                 match at_path ["node"] edge with
                 | Some (PDict d) => Examples.account_of d
                 | _ => Examples.no_account
                 end)
              (Examples.three_accounts ++ [Examples.unlocated_account])).
  destruct (find_tools_need_every_field w Examples.client "Negotiation" "Energy" 10
              opportunities accounts) as [Ho Ha].
  - reflexivity.
  - vm_compute. reflexivity.
  - vm_compute. reflexivity.
  - split.
    + apply Ho. apply Exists_exists.
      exists (Examples.opportunity_of
                [kv "Id" (PStr "006U");
                 kv "Name" (Examples.wrapped (PStr "U"));
                 kv "Amount" (PDict [kv "value" (PInt 1);
                                     kv "displayValue" (PStr "$1")]);
                 kv "CloseDate" PNone;
                 kv "Probability" (Examples.wrapped (PInt 10))]).
      split; [do 5 right; left; reflexivity|].
      right. right. left. reflexivity.
    + apply Ha. apply Exists_exists.
      exists (Examples.account_of
                [kv "Id" (PStr "001Nomad");
                 kv "Name" (Examples.wrapped (PStr "Nomad"));
                 kv "BillingAddress" PNone]).
      split; [do 3 right; left; reflexivity|].
      right. left. reflexivity.
Defined.

(** ** Responses without records *)

Lemma at_path_cons k rest r v :
  at_path (k :: rest) r = Some v ->
  exists d x, r = PDict d /\ dict_lookup (PStr k) d = Some x /\ at_path rest x = Some v.
Proof.
  destruct r; try discriminate. cbn [at_path].
  destruct (dict_lookup (PStr k) l) as [x|] eqn:E; [|discriminate].
  intros H. exists l, x. auto.
Qed.

Lemma at_path_nil r v : at_path [] r = Some v -> r = v.
Proof. cbn [at_path]. congruence. Qed.

Ltac open_level H :=
  let E := fresh "E" in
  apply at_path_cons in H; destruct H as (? & ? & -> & E & H).

Lemma missing_level_no_edges result entity :
  lacks_level (edges_path entity) result ->
  Client.get_edges result entity = Ok (PList []).
Proof.
  intros (k & d & Hk & Hp & Hl). unfold edges_path in *. cbn [List.length] in Hk.
  unfold Client.get_edges, Client.get_entity.
  destruct k as [|[|[|[|[|k]]]]]; [| | | | |lia];
    cbn [firstn nth] in Hp, Hl; repeat open_level Hp;
    apply at_path_nil in Hp; subst;
    unfold py_get; cbn [bind];
    repeat match goal with
           | E : dict_lookup _ _ = _ |- _ => rewrite E; clear E; cbn [bind]
           end;
    reflexivity.
Qed.

Section NoRecords.
Variable w : World.

(** X29.  A response that lacks [data], or a level below it down to
    [edges], is read as a response without records, not as an error:
    [get_opportunity] and [get_account] return [None], and the search and
    recent methods return the empty list. *)
Theorem missing_levels_read_as_no_records (c : SalesforceClient) (result : pyval)
        (id : string) (stage industry : option string) (min_amount : option num)
        (limit : Z) :
  (forall query variables, Client.execute_query w c query variables = Ok result) ->
  lacks_level (edges_path "Opportunity") result ->
  lacks_level (edges_path "Account") result ->
  Client.get_opportunity w c id = Ok None /\
  Client.search_opportunities w c stage min_amount limit = Ok [] /\
  Client.get_recent_opportunities w c limit = Ok [] /\
  Client.get_account w c id = Ok None /\
  Client.search_accounts w c industry limit = Ok [] /\
  Client.get_recent_accounts w c limit = Ok [].
Proof.
  intros Hq Ho Ha.
  apply missing_level_no_edges in Ho. apply missing_level_no_edges in Ha.
  unfold Client.get_opportunity, Client.search_opportunities,
    Client.get_recent_opportunities, Client.get_account, Client.search_accounts,
    Client.get_recent_accounts.
  cbv zeta. rewrite !Hq. cbn [bind]. rewrite Ho, Ha. repeat split.
Qed.

End NoRecords.

Lemma missing_levels_read_as_no_records_witness :
  let w := Examples.world Examples.today
             (Examples.responded 200 (PDict [kv "data" (PDict [kv "uiapi" (PDict [])])])) in
  Client.get_opportunity w Examples.client "006A" = Ok None /\
  Client.search_opportunities w Examples.client (Some "Negotiation") None 10 = Ok [] /\
  Client.get_recent_opportunities w Examples.client 10 = Ok [] /\
  Client.get_account w Examples.client "006A" = Ok None /\
  Client.search_accounts w Examples.client (Some "Energy") 10 = Ok [] /\
  Client.get_recent_accounts w Examples.client 10 = Ok [].
Proof.
  apply (missing_levels_read_as_no_records
           (Examples.world Examples.today
              (Examples.responded 200
                 (PDict [kv "data" (PDict [kv "uiapi" (PDict [])])])))
           Examples.client
           (PDict [kv "data" (PDict [kv "uiapi" (PDict [])])])
           "006A" (Some "Negotiation") (Some "Energy") None 10).
  - intros query variables. reflexivity.
  - exists 2%nat, []. split; [cbn; lia|]. split; reflexivity.
  - exists 2%nat, []. split; [cbn; lia|]. split; reflexivity.
Defined.

(** A level that is [null] is not a level that is missing: the lookup goes
    on at [None] and fails. *)
Example null_level_is_an_error :
  Client.get_opportunity
    (Examples.world Examples.today
       (Examples.responded 200 (PDict [kv "data" PNone])))
    Examples.client "006A"
  = Raise (mkExn "AttributeError" "'NoneType' object has no attribute 'get'").
Proof. vm_compute. reflexivity. Qed.

(** ** The checks of [execute_custom_graphql] *)

Lemma length_append (a b : string) :
  String.length (a ++ b) = (String.length a + String.length b)%nat.
Proof. induction a as [|c a IH]; cbn [append String.length]; [reflexivity|now rewrite IH]. Qed.

(** The preview of a query has at most 103 characters, and is the query
    when the query has at most 100. *)
Lemma preview_length s : (String.length (SchemaTools.preview s) <= 103)%nat.
Proof.
  unfold SchemaTools.preview.
  destruct (Nat.ltb_spec 100 (String.length s)) as [H|H].
  - rewrite length_append. pose proof (substring_length_le 100 s).
    cbn [String.length]. lia.
  - lia.
Qed.

Section CustomGraphql.
Variable w : World.

(** X30.  With a client, [execute_custom_graphql] always answers.  A
    query that fails one of its two checks is not sent: the answer is the
    same in every world that has a client, whatever its endpoint would
    reply, and echoes at most 103 characters of the query.  An answer with
    [success: true] comes from a query that passed both checks, sent
    stripped and without variables, and carries the response unchanged. *)
Theorem custom_graphql_gate (c : SalesforceClient) (query : string) :
  get_salesforce_client w = Ok c ->
  exists payload,
    SchemaTools.execute_custom_graphql w query = Ok payload /\
    (accepted query = false ->
     at_path ["success"] payload = Some (PBool false) /\
     (exists received,
        at_path ["received_query"] payload = Some (PStr received) /\
        (String.length received <= 103)%nat) /\
     forall w' c',
       get_salesforce_client w' = Ok c' ->
       SchemaTools.execute_custom_graphql w' query = Ok payload) /\
    (at_path ["success"] payload = Some (PBool true) ->
     accepted query = true /\
     exists result,
       Client.execute_query w c (SchemaTools.py_strip query) None = Ok result /\
       at_path ["data"] payload = Some result).
Proof.
  intros Hc. unfold accepted, SchemaTools.execute_custom_graphql.
  rewrite Hc. cbn [bind]. cbv zeta.
  destruct (SchemaTools.has_uiapi (SchemaTools.py_strip query)) eqn:H1;
    cbn [negb andb].
  - destruct (SchemaTools.looks_like_graphql (SchemaTools.py_strip query)) eqn:H2;
      cbn [negb].
    + destruct (Client.execute_query w c (SchemaTools.py_strip query) None)
        as [result|e] eqn:Hq; cbn [bind try_except]; eexists;
        (split; [reflexivity|]); (split; [discriminate|]).
      * intros _. split; [reflexivity|]. exists result. split; reflexivity.
      * discriminate.
    + eexists. split; [reflexivity|]. split; [|discriminate].
      intros _. split; [reflexivity|]. split.
      * eexists. split; [reflexivity|]. apply preview_length.
      * intros w' c' Hc'. rewrite Hc'. reflexivity.
  - eexists. split; [reflexivity|]. split; [|discriminate].
    intros _. split; [reflexivity|]. split.
    + eexists. split; [reflexivity|]. apply preview_length.
    + intros w' c' Hc'. rewrite Hc'. reflexivity.
Qed.

End CustomGraphql.

Lemma custom_graphql_gate_witness :
  exists payload,
    SchemaTools.execute_custom_graphql (Examples.page Examples.five_edges)
      "  mutation { UIAPI { x } }  " = Ok payload /\
    (accepted "  mutation { UIAPI { x } }  " = false ->
     at_path ["success"] payload = Some (PBool false) /\
     (exists received,
        at_path ["received_query"] payload = Some (PStr received) /\
        (String.length received <= 103)%nat) /\
     forall w' c',
       get_salesforce_client w' = Ok c' ->
       SchemaTools.execute_custom_graphql w' "  mutation { UIAPI { x } }  " =
         Ok payload) /\
    (at_path ["success"] payload = Some (PBool true) ->
     accepted "  mutation { UIAPI { x } }  " = true /\
     exists result,
       Client.execute_query (Examples.page Examples.five_edges) Examples.client
         (SchemaTools.py_strip "  mutation { UIAPI { x } }  ") None = Ok result /\
       at_path ["data"] payload = Some result).
Proof.
  apply (custom_graphql_gate (Examples.page Examples.five_edges) Examples.client
           "  mutation { UIAPI { x } }  ").
  reflexivity.
Defined.

(** A mutation in capitals and between blanks is sent, stripped; a query
    that lacks the word is not, and neither is one that starts otherwise. *)
Example custom_graphql_checks :
  accepted "  mutation { UIAPI { x } }  " = true /\
  SchemaTools.py_strip "  mutation { UIAPI { x } }  " = "mutation { UIAPI { x } }" /\
  accepted "query { me }" = false /\
  accepted "fragment f on uiapi { x }" = false /\
  at_path ["error"]
    (Examples.answer
       (SchemaTools.execute_custom_graphql (Examples.page Examples.five_edges)
          "query { me }"))
  = Some (PStr "Query must include 'uiapi' field") /\
  at_path ["error"]
    (Examples.answer
       (SchemaTools.execute_custom_graphql (Examples.page Examples.five_edges)
          "fragment f on uiapi { x }"))
  = Some (PStr "Invalid GraphQL query format").
Proof. vm_compute. repeat split. Qed.
